(** * TinyLoRa uplink path: a shallow embedding of
      [lib/adafruit_tinylora/adafruit_tinylora.py]

    The driver is a Python class that mutates its own attributes, a shared
    two-byte SPI buffer and fresh [bytearray] objects, talks to the radio
    over SPI, and raises exceptions.  It is embedded as a state-and-exception
    monad over a [machine]: the object's attributes, the store of
    [bytearray] objects, and the chronological record of everything that
    crossed the hardware boundary.  Whatever the driver imports but this
    repository does not contain (the block cipher, the regional frequency
    plans, the radio itself) is collected in one record, [Env]. *)

From Equations Require Import Equations.
From stdpp Require Import base numbers list strings gmap.

Local Open Scope Z_scope.

(** ** Python values used by the driver *)

(** The exceptions the driver can raise.  [LookupError] is Python's common
    base class of [IndexError] and [KeyError]; it is what indexing a
    frequency plan raises, whose container type is not fixed by this
    repository. *)
Inductive exn : Type :=
| TypeError (msg : string)
| KeyError (msg : string)
| RuntimeError (msg : string)
| IndexError
| ValueError
| LookupError
| AttributeError.

(** The names the specification gives to the driver's own [raise] sites. *)
Definition DeviceNotDetected : exn :=
  TypeError "Can not detect LoRa Module. Please check wiring!".
Definition UnsupportedRegion : exn :=
  TypeError "Country Code Incorrect/Unsupported".
Definition UnsupportedDatarate : exn :=
  KeyError "Invalid or Unsupported Datarate.".
Definition SendTimeout : exn :=
  RuntimeError "Timeout during packet send".

(** A byte is an integer in [range(256)]; a [bytearray] is a list of them. *)
Definition is_byte (v : Z) : bool := (0 <=? v) && (v <? 256).

(** Python's [needle in haystack] on strings. *)
Fixpoint str_in (needle haystack : string) : bool :=
  String.prefix needle haystack ||
  match haystack with
  | EmptyString => false
  | String _ rest => str_in needle rest
  end.

(** [a[i:j] = src] for [0 <= i <= j]: both bounds are clamped to [len(a)],
    and the array grows or shrinks when [src] has another length than the
    slice it replaces. *)
Definition slice_assign (a : list Z) (i j : nat) (src : list Z) : list Z :=
  take i a ++ src ++ drop (i `max` j)%nat a.

(** [a[0:n]] *)
Definition slice_to (a : list Z) (n : nat) : list Z := take n a.

(** ** Session credentials: class [TTN] *)

Record TTN : Type := mkTTN {
  dev_addr : list Z;
  net_key : list Z;
  app_key : list Z;
  region : string
}.

Definition country (c : TTN) : string := region c.
Definition device_address (c : TTN) : list Z := dev_addr c.
Definition application_key (c : TTN) : list Z := app_key c.
Definition network_key (c : TTN) : list Z := net_key c.

(** ** The driver object and the machine it runs on *)

(** One entry of a regional frequency plan: the three FRF register bytes. *)
Definition freq : Type := (Z * Z * Z)%type.

(** The three pins the constructor is given. *)
Inductive pin : Type := IRQ | CS | RST.

(** The attributes of a [TinyLoRa] instance.  [None] is Python's [None]
    (or, before [__init__] has reached the assignment, a missing
    attribute). *)
Record TinyLoRa : Type := mkTinyLoRa {
  _version : option Z;
  _rfm_msb : option Z;
  _rfm_mid : option Z;
  _rfm_lsb : option Z;
  _sf : option Z;
  _bw : option Z;
  _modemcfg : option Z;
  _frequencies : option (list freq);
  _channel : option Z;
  _tx_random : option Z;
  frame_counter : option Z;
  _ttn_config : option TTN;
  _irq : option pin;
  _cs : option pin;
  _rst : option pin
}.

Definition blank : TinyLoRa :=
  mkTinyLoRa None None None None None None None None None None None None
    None None None.

(** What crosses the hardware boundary, one constructor per kind of call. *)
Inductive event : Type :=
| SpiWrite (bytes : list Z)          (* device.write(buf, end=len bytes) *)
| SpiRead (bytes : list Z)           (* device.readinto(buf, end=len bytes) *)
| Delay (microseconds : Z)           (* time.sleep *)
| SwitchToInput (p : pin)
| SwitchToOutput (p : pin)
| RstValue (level : bool)            (* self._rst.value = level *)
| IrqValue (level : bool)            (* self._irq.value *)
| Monotonic (now : Z)                (* time.monotonic() *)
| Randint (n : Z).                   (* random.randint *)

#[global] Instance pin_eq_dec : EqDecision pin.
Proof. solve_decision. Defined.

#[global] Instance event_eq_dec : EqDecision event.
Proof. solve_decision. Defined.

Abbreviation ref := nat.

(** [trace] is kept newest first; [history] gives it in the order of
    occurrence.  [_BUFFER] is the class attribute [bytearray(2)]: it is never
    resized, so it is a pair.  The four counters say how many values have
    been taken so far from each input of the environment. *)
Record machine : Type := mkMachine {
  self : TinyLoRa;
  _BUFFER : Z * Z;
  heap : list (list Z);
  trace : list event;
  n_miso : nat;
  n_irq : nat;
  n_clock : nat;
  n_rand : nat
}.

Definition history (m : machine) : list event := rev (trace m).

(** Everything the driver uses that is not in this file: the radio's
    answers on the bus and on DIO0, the monotonic clock (in ticks of an
    arbitrary fixed unit; only differences are compared with the timeout),
    the random source, the five frequency-plan modules, and the block
    cipher and CMAC of [adafruit_tinylora_encryption]. *)
Record Env : Type := mkEnv {
  miso : nat → Z;
  irq_level : nat → bool;
  clock : nat → Z;
  entropy : nat → Z;
  ttn_usa : list freq;
  ttn_as : list freq;
  ttn_au : list freq;
  ttn_eu : list freq;
  ttn_cn : list freq;
  aes_block : list Z → list Z → list Z;
  aes_cmac : list Z → list Z → list Z
}.

(** ** The monad: state that survives an exception, and divergence *)

Inductive outcome (A : Type) : Type :=
| Ret (a : A)
| Raise (e : exn)
| Diverge.
Arguments Ret {A} a.
Arguments Raise {A} e.
Arguments Diverge {A}.

Definition M (A : Type) : Type := machine → outcome A * machine.

Definition ret {A} (a : A) : M A := λ m, (Ret a, m).
Definition bind {A B} (c : M A) (f : A → M B) : M B := λ m,
  match c m with
  | (Ret a, m') => f a m'
  | (Raise e, m') => (Raise e, m')
  | (Diverge, m') => (Diverge, m')
  end.

Declare Scope M_scope.
Delimit Scope M_scope with M.
Bind Scope M_scope with M.
Notation "x ← c ; k" := (bind c (λ x, k))
  (at level 20, c at level 100, k at level 200, only parsing) : M_scope.
Notation "c ;; k" := (bind c (λ _, k))
  (at level 100, k at level 200, only parsing, right associativity) : M_scope.
Local Open Scope M_scope.

Definition raise {A} (e : exn) : M A := λ m, (Raise e, m).
Definition diverge {A} : M A := λ m, (Diverge, m).
Definition get_self : M TinyLoRa := λ m, (Ret (self m), m).
Definition get_heap : M (list (list Z)) := λ m, (Ret (heap m), m).

Definition with_self (f : TinyLoRa → TinyLoRa) (m : machine) : machine :=
  mkMachine (f (self m)) (_BUFFER m) (heap m) (trace m)
            (n_miso m) (n_irq m) (n_clock m) (n_rand m).
Definition with_BUFFER (b : Z * Z) (m : machine) : machine :=
  mkMachine (self m) b (heap m) (trace m)
            (n_miso m) (n_irq m) (n_clock m) (n_rand m).
Definition with_heap (h : list (list Z)) (m : machine) : machine :=
  mkMachine (self m) (_BUFFER m) h (trace m)
            (n_miso m) (n_irq m) (n_clock m) (n_rand m).
Definition with_event (e : event) (m : machine) : machine :=
  mkMachine (self m) (_BUFFER m) (heap m) (e :: trace m)
            (n_miso m) (n_irq m) (n_clock m) (n_rand m).

Definition modify_self (f : TinyLoRa → TinyLoRa) : M unit :=
  λ m, (Ret tt, with_self f m).
Definition emit (e : event) : M unit := λ m, (Ret tt, with_event e m).

(** [for x in xs: body(x)] *)
Fixpoint for_each {A} (xs : list A) (body : A → M unit) : M unit :=
  match xs with
  | [] => ret tt
  | x :: rest => body x ;; for_each rest body
  end.

(** Attribute assignments. *)
Definition set_version (v : option Z) (o : TinyLoRa) : TinyLoRa :=
  mkTinyLoRa v (_rfm_msb o) (_rfm_mid o) (_rfm_lsb o) (_sf o) (_bw o)
    (_modemcfg o) (_frequencies o) (_channel o) (_tx_random o)
    (frame_counter o) (_ttn_config o) (_irq o) (_cs o) (_rst o).
Definition set_rfm (msb mid lsb : option Z) (o : TinyLoRa) : TinyLoRa :=
  mkTinyLoRa (_version o) msb mid lsb (_sf o) (_bw o)
    (_modemcfg o) (_frequencies o) (_channel o) (_tx_random o)
    (frame_counter o) (_ttn_config o) (_irq o) (_cs o) (_rst o).
Definition set_rate (sf bw cfg : option Z) (o : TinyLoRa) : TinyLoRa :=
  mkTinyLoRa (_version o) (_rfm_msb o) (_rfm_mid o) (_rfm_lsb o) sf bw
    cfg (_frequencies o) (_channel o) (_tx_random o)
    (frame_counter o) (_ttn_config o) (_irq o) (_cs o) (_rst o).
Definition set_frequencies (t : option (list freq)) (o : TinyLoRa) : TinyLoRa :=
  mkTinyLoRa (_version o) (_rfm_msb o) (_rfm_mid o) (_rfm_lsb o) (_sf o) (_bw o)
    (_modemcfg o) t (_channel o) (_tx_random o)
    (frame_counter o) (_ttn_config o) (_irq o) (_cs o) (_rst o).
Definition set_channel_attr (c : option Z) (o : TinyLoRa) : TinyLoRa :=
  mkTinyLoRa (_version o) (_rfm_msb o) (_rfm_mid o) (_rfm_lsb o) (_sf o) (_bw o)
    (_modemcfg o) (_frequencies o) c (_tx_random o)
    (frame_counter o) (_ttn_config o) (_irq o) (_cs o) (_rst o).
Definition set_tx_random (r : option Z) (o : TinyLoRa) : TinyLoRa :=
  mkTinyLoRa (_version o) (_rfm_msb o) (_rfm_mid o) (_rfm_lsb o) (_sf o) (_bw o)
    (_modemcfg o) (_frequencies o) (_channel o) r
    (frame_counter o) (_ttn_config o) (_irq o) (_cs o) (_rst o).
Definition set_frame_counter (f : option Z) (o : TinyLoRa) : TinyLoRa :=
  mkTinyLoRa (_version o) (_rfm_msb o) (_rfm_mid o) (_rfm_lsb o) (_sf o) (_bw o)
    (_modemcfg o) (_frequencies o) (_channel o) (_tx_random o)
    f (_ttn_config o) (_irq o) (_cs o) (_rst o).
Definition set_ttn_config (c : option TTN) (o : TinyLoRa) : TinyLoRa :=
  mkTinyLoRa (_version o) (_rfm_msb o) (_rfm_mid o) (_rfm_lsb o) (_sf o) (_bw o)
    (_modemcfg o) (_frequencies o) (_channel o) (_tx_random o)
    (frame_counter o) c (_irq o) (_cs o) (_rst o).
Definition set_irq (p : option pin) (o : TinyLoRa) : TinyLoRa :=
  mkTinyLoRa (_version o) (_rfm_msb o) (_rfm_mid o) (_rfm_lsb o) (_sf o) (_bw o)
    (_modemcfg o) (_frequencies o) (_channel o) (_tx_random o)
    (frame_counter o) (_ttn_config o) p (_cs o) (_rst o).
Definition set_cs (p : option pin) (o : TinyLoRa) : TinyLoRa :=
  mkTinyLoRa (_version o) (_rfm_msb o) (_rfm_mid o) (_rfm_lsb o) (_sf o) (_bw o)
    (_modemcfg o) (_frequencies o) (_channel o) (_tx_random o)
    (frame_counter o) (_ttn_config o) (_irq o) p (_rst o).
Definition set_rst (p : option pin) (o : TinyLoRa) : TinyLoRa :=
  mkTinyLoRa (_version o) (_rfm_msb o) (_rfm_mid o) (_rfm_lsb o) (_sf o) (_bw o)
    (_modemcfg o) (_frequencies o) (_channel o) (_tx_random o)
    (frame_counter o) (_ttn_config o) (_irq o) (_cs o) p.

Definition set_rfm_lsb (v : option Z) (o : TinyLoRa) : TinyLoRa :=
  set_rfm (_rfm_msb o) (_rfm_mid o) v o.
Definition set_rfm_mid (v : option Z) (o : TinyLoRa) : TinyLoRa :=
  set_rfm (_rfm_msb o) v (_rfm_lsb o) o.
Definition set_rfm_msb (v : option Z) (o : TinyLoRa) : TinyLoRa :=
  set_rfm v (_rfm_mid o) (_rfm_lsb o) o.

(** ** [bytearray] objects *)

(** [bytearray(n)]: a fresh object of [n] zero bytes; a negative [n] is
    rejected. *)
Definition bytearray (n : Z) : M ref := λ m,
  if n <? 0 then (Raise ValueError, m)
  else (Ret (length (heap m)),
        with_heap (heap m ++ [replicate (Z.to_nat n) 0]) m).

Definition load (r : ref) : M (list Z) := λ m,
  match heap m !! r with
  | Some b => (Ret b, m)
  | None => (Raise (TypeError "object is not a buffer"), m)
  end.

Definition store (r : ref) (b : list Z) : M unit := λ m,
  (Ret tt, with_heap (<[r := b]> (heap m)) m).

(** [buf[i]] *)
Definition getitem (r : ref) (i : nat) : M Z :=
  b ← load r;
  match b !! i with
  | Some v => ret v
  | None => raise IndexError
  end.

(** [buf[i] = v]: a value outside [range(256)] raises [ValueError], an
    index outside the buffer [IndexError]. *)
Definition setitem (r : ref) (i : nat) (v : Z) : M unit :=
  b ← load r;
  if negb (is_byte v) then raise ValueError
  else if decide (i < length b)%nat then store r (<[i := v]> b)
  else raise IndexError.

(** [buf[0:n]] *)
Definition get_slice_to (r : ref) (n : nat) : M (list Z) :=
  b ← load r; ret (slice_to b n).

(** [buf[i:j] = src] *)
Definition set_slice (r : ref) (i j : nat) (src : list Z) : M unit :=
  b ← load r; store r (slice_assign b i j src).

(** [seq[i]] on an immutable byte sequence held by value. *)
Definition index (s : list Z) (i : nat) : M Z :=
  match s !! i with
  | Some v => ret v
  | None => raise IndexError
  end.

(** ** Module constants *)

Definition _MODE_SLEEP : Z := 0x00.
Definition _MODE_LORA : Z := 0x80.
Definition _MODE_STDBY : Z := 0x01.
Definition _MODE_TX : Z := 0x83.
Definition _TRANSMIT_DIRECTION_UP : Z := 0x00.
Definition _REG_PA_CONFIG : Z := 0x09.
Definition _REG_PREAMBLE_MSB : Z := 0x20.
Definition _REG_PREAMBLE_LSB : Z := 0x21.
Definition _REG_FRF_MSB : Z := 0x06.
Definition _REG_FRF_MID : Z := 0x07.
Definition _REG_FRF_LSB : Z := 0x08.
Definition _REG_FEI_LSB : Z := 0x1E.
Definition _REG_FEI_MSB : Z := 0x1D.
Definition _REG_MODEM_CONFIG : Z := 0x26.
Definition _REG_PAYLOAD_LENGTH : Z := 0x22.
Definition _REG_FIFO_POINTER : Z := 0x0D.
Definition _REG_FIFO_BASE_ADDR : Z := 0x80.
Definition _REG_OPERATING_MODE : Z := 0x01.
Definition _REG_VERSION : Z := 0x42.
Definition _REG_PREAMBLE_DETECT : Z := 0x1F.
Definition _REG_TIMER1_COEF : Z := 0x39.
Definition _REG_NODE_ADDR : Z := 0x33.
Definition _REG_IMAGE_CAL : Z := 0x3B.
Definition _REG_RSSI_CONFIG : Z := 0x0E.
Definition _REG_RSSI_COLLISION : Z := 0x0F.
Definition _REG_DIO_MAPPING_1 : Z := 0x40.

(** The table built by [set_datarate] on every call. *)
Definition data_rates : gmap string (Z * Z * Z) :=
  list_to_map
    [ ("SF7BW125"%string, (0x74, 0x72, 0x04));
      ("SF7BW250"%string, (0x74, 0x82, 0x04));
      ("SF8BW125"%string, (0x84, 0x72, 0x04));
      ("SF9BW125"%string, (0x94, 0x72, 0x04));
      ("SF10BW125"%string, (0xA4, 0x72, 0x04));
      ("SF11BW125"%string, (0xB4, 0x72, 0x0C));
      ("SF12BW125"%string, (0xC4, 0x72, 0x0C)) ].

(** [plan[channel]] on a frequency plan: channel numbers count from 0. *)
Definition plan_lookup (plan : list freq) (channel : Z) : option freq :=
  if channel <? 0 then None else plan !! Z.to_nat channel.

(** The object handed to [send_data] by [AES(...)]. *)
Record AES : Type := mkAES {
  aes_device_address : list Z;
  aes_app_key : list Z;
  aes_network_key : list Z;
  aes_frame_counter : Z
}.

(** The argument [buf] of [_read_into]: the class buffer itself (as
    [_read_u8] passes it) or another [bytearray]. *)
Inductive buffer : Type :=
| ClassBuffer
| Bytearray (r : ref).

Section Driver.
Context (env : Env).

(** ** Inputs from the environment *)

Definition randint (lo hi : Z) : M Z := λ m,
  let r := lo + entropy env (n_rand m) `mod` (hi - lo + 1) in
  (Ret r,
   mkMachine (self m) (_BUFFER m) (heap m) (Randint r :: trace m)
             (n_miso m) (n_irq m) (n_clock m) (S (n_rand m))).

Definition monotonic : M Z := λ m,
  let t := clock env (n_clock m) in
  (Ret t,
   mkMachine (self m) (_BUFFER m) (heap m) (Monotonic t :: trace m)
             (n_miso m) (n_irq m) (S (n_clock m)) (n_rand m)).

(** [self._irq.value]: the level of DIO0; on an object whose [_irq] is
    [None] the attribute access fails. *)
Definition irq_value : M bool := λ m,
  match _irq (self m) with
  | None => (Raise AttributeError, m)
  | Some _ =>
      let v := irq_level env (n_irq m) in
      (Ret v,
       mkMachine (self m) (_BUFFER m) (heap m) (IrqValue v :: trace m)
                 (n_miso m) (S (n_irq m)) (n_clock m) (n_rand m))
  end.

(** [device.write(buf, end=len bytes)] *)
Definition device_write (bytes : list Z) : M unit := emit (SpiWrite bytes).

(** The [k] bytes clocked in by [device.readinto]. *)
Definition device_read (k : nat) : M (list Z) := λ m,
  let bytes := (λ i, miso env (n_miso m + i)%nat) <$> seq 0 k in
  (Ret bytes,
   mkMachine (self m) (_BUFFER m) (heap m) (SpiRead bytes :: trace m)
             (n_miso m + k)%nat (n_irq m) (n_clock m) (n_rand m)).

(** ** Register access *)

Definition get_BUFFER : M (Z * Z) := λ m, (Ret (_BUFFER m), m).

(** [self._BUFFER[i] = v] for [i] in 0, 1: storing [None] raises
    [TypeError], a value outside [range(256)] raises [ValueError]. *)
Definition set_BUFFER (i : nat) (v : option Z) : M unit :=
  match v with
  | None => raise (TypeError "'NoneType' object cannot be interpreted as an integer")
  | Some x =>
      if negb (is_byte x) then raise ValueError
      else λ m, (Ret tt,
                 with_BUFFER (match i with
                              | O => (x, (_BUFFER m).2)
                              | _ => ((_BUFFER m).1, x)
                              end) m)
  end.

(** [device.readinto(buf, end=k)] *)
Definition readinto (buf : buffer) (k : nat) : M unit :=
  match buf with
  | ClassBuffer =>
      bytes ← device_read (k `min` 2);
      b ← get_BUFFER;
      match bytes with
      | [] => ret tt
      | [x] => (λ m, (Ret tt, with_BUFFER (x, b.2) m))
      | x :: y :: _ => (λ m, (Ret tt, with_BUFFER (x, y) m))
      end
  | Bytearray r =>
      old ← load r;
      bytes ← device_read (k `min` length old);
      store r (bytes ++ drop (length bytes) old)
  end.

Definition _read_into (address : Z) (buf : buffer) (length : option nat)
  : M unit :=
  length ← match length with
           | Some n => ret n
           | None => match buf with
                     | ClassBuffer => ret 2%nat
                     | Bytearray r => b ← load r; ret (List.length b)
                     end
           end;
  (* Strip out top bit to set 0 value (read). *)
  set_BUFFER 0 (Some (Z.land address 0x7F));;
  b ← get_BUFFER;
  device_write [b.1];;
  readinto buf length.

Definition _read_u8 (address : Z) : M Z :=
  _read_into address ClassBuffer (Some 1%nat);;
  b ← get_BUFFER;
  ret b.1.

Definition _write_u8 (address : Z) (val : option Z) : M unit :=
  set_BUFFER 0 (Some (Z.lor address 0x80));;  (* MSB 1 to Write *)
  set_BUFFER 1 val;;
  b ← get_BUFFER;
  device_write [b.1; b.2].

(** ** Configuration *)

Definition set_datarate (datarate : string) : M unit :=
  match data_rates !! datarate with
  | Some (sf, bw, cfg) => modify_self (set_rate (Some sf) (Some bw) (Some cfg))
  | None => raise UnsupportedDatarate
  end.

(** [self._frequencies[channel]] *)
Definition frequency (channel : Z) : M freq :=
  o ← get_self;
  match _frequencies o with
  | None => raise AttributeError
  | Some plan =>
      match plan_lookup plan channel with
      | Some f => ret f
      | None => raise LookupError
      end
  end.

Definition set_channel (channel : Z) : M unit :=
  f ← frequency channel;
  modify_self (set_rfm (Some f.1.1) (Some f.1.2) (Some f.2)).

(** ** Transmission *)

(** The wait for TxDone:
    [while not timed_out and not self._irq.value:
         if (time.monotonic() - start) >= timeout: timed_out = True].
    The result is [timed_out].  Once the flag is set the loop test stops at
    its first conjunct, so DIO0 is not read again.  [fuel] bounds the number
    of iterations; running out of it is [Diverge]. *)
Fixpoint poll (fuel : nat) (start timeout : Z) : M bool :=
  match fuel with
  | O => diverge
  | S fuel' =>
      done ← irq_value;
      if done then ret false
      else
        now ← monotonic;
        if now - start >=? timeout then ret true
        else poll fuel' start timeout
  end.

Definition send_packet (fuel : nat) (lora_packet : ref)
    (packet_length timeout : Z) : M unit :=
  (* Set RFM to standby *)
  _write_u8 _MODE_STDBY (Some 0x81);;
  (* wait for RFM to enter standby mode *)
  emit (Delay 10000);;
  (* switch interrupt to txdone *)
  _write_u8 0x40 (Some 0x40);;
  (* check for multi-channel configuration *)
  o ← get_self;
  match _channel o with
  | None =>
      r ← randint 0 7;
      modify_self (set_tx_random (Some r));;
      f ← frequency r; modify_self (set_rfm_lsb (Some f.2));;
      f ← frequency r; modify_self (set_rfm_mid (Some f.1.2));;
      f ← frequency r; modify_self (set_rfm_msb (Some f.1.1))
  | Some _ => ret tt
  end;;
  (* Set up frequency registers *)
  o ← get_self;
  for_each [ (_REG_FRF_MSB, _rfm_msb o);
             (_REG_FRF_MID, _rfm_mid o);
             (_REG_FRF_LSB, _rfm_lsb o);
             (_REG_FEI_LSB, _sf o);
             (_REG_FEI_MSB, _bw o);
             (_REG_MODEM_CONFIG, _modemcfg o);
             (_REG_PAYLOAD_LENGTH, Some packet_length);
             (_REG_FIFO_POINTER, Some _REG_FIFO_BASE_ADDR) ]
           (λ pair, _write_u8 pair.1 pair.2);;
  (* fill the FIFO buffer with the LoRa payload *)
  for_each (seq 0 (Z.to_nat packet_length))
           (λ packet_index,
              b ← getitem lora_packet packet_index;
              _write_u8 0x00 (Some b));;
  (* switch RFM to TX operating mode *)
  _write_u8 _REG_OPERATING_MODE (Some _MODE_TX);;
  (* wait for TxDone IRQ, poll for timeout. *)
  start ← monotonic;
  timed_out ← poll fuel start timeout;
  (* switch RFM to sleep operating mode *)
  _write_u8 _REG_OPERATING_MODE (Some _MODE_SLEEP);;
  if timed_out : bool then raise SendTimeout else ret tt.

(** ** The cipher object ([adafruit_tinylora_encryption.AES])

    [send_data] imports this class from a module that is not part of the
    repository.  Its two methods are modelled from the specification,
    sections 4.1 and 4.2, over the block cipher [aes_block] and the
    authentication code [aes_cmac] of the environment. *)

(** Modelled from the spec: bytes 6..14 shared by the blocks A_i and B0
    (sections 4.1 and 4.2): device address and frame counter, both
    least-significant byte first, the counter widened to 32 bits with its
    upper 16 bits zero. *)
Definition block_middle (a : AES) : list Z :=
  rev (aes_device_address a) ++
  [ Z.land (aes_frame_counter a) 0xFF;
    Z.land (Z.shiftr (aes_frame_counter a) 8) 0xFF; 0; 0; 0 ].

(** Modelled from the spec: the input block A_i of the keystream (section
    4.1): a fixed tag byte, the direction flag (0 for uplink), the device
    address, the frame counter and the block index. *)
Definition block_a (a : AES) (i : Z) : list Z :=
  [0x01; 0; 0; 0; 0; _TRANSMIT_DIRECTION_UP] ++ block_middle a ++ [i].

(** Modelled from the spec: keystream block S_i is the block cipher applied
    to A_i under the application key. *)
Definition keystream_block (a : AES) (i : Z) : list Z :=
  aes_block env (aes_app_key a) (block_a a i).

(** Modelled from the spec: [AES.encrypt] on the bytes (section 4.1).  Each
    16-byte block of the input is combined by exclusive-or with the
    keystream block of its index, the last one cut to the bytes that
    remain; indices start at [i]. *)
Equations? encrypt_from (a : AES) (i : Z) (p : list Z) : list Z
  by wf (length p) lt :=
  encrypt_from a i [] := [];
  encrypt_from a i (x :: p') :=
    zip_with Z.lxor (take 16 (x :: p')) (keystream_block a i)
    ++ encrypt_from a (i + 1) (drop 16 (x :: p')).
Proof. rewrite length_drop. cbn [length]. lia. Qed.

(** Modelled from the spec: [encrypt(plaintext, credentials, frame_counter)]
    with the block index starting at 0. *)
Definition encrypt (a : AES) (p : list Z) : list Z := encrypt_from a 0 p.

(** Modelled from the spec: the leading block B0 of the integrity code
    (section 4.2): a fixed tag, the direction flag, device address, frame
    counter and the message length.  B0 is a 16-byte block and the length is
    its last byte: a length outside [range(256)] has no block. *)
Definition block_b0 (a : AES) (len : Z) : option (list Z) :=
  if is_byte len
  then Some ([0x49; 0; 0; 0; 0; _TRANSMIT_DIRECTION_UP] ++ block_middle a
             ++ [len])
  else None.

(** Modelled from the spec: [compute(header_and_ciphertext, length, ...)]
    (section 4.2): the first 4 bytes of the CMAC, under the network key, of
    B0 followed by the first [len] bytes supplied; nothing where there is no
    B0. *)
Definition compute_mic (a : AES) (msg : list Z) (len : Z)
    : option (list Z) :=
  match block_b0 a len with
  | Some b0 =>
      Some (take 4 (aes_cmac env (aes_network_key a)
                      (b0 ++ take (Z.to_nat len) msg)))
  | None => None
  end.

(** Modelled from the spec: the method [AES.encrypt] as [send_data] calls
    it.  As the comment at the call says, the buffer passed is overwritten;
    the method hands the same object back. *)
Definition aes_encrypt (a : AES) (buf : ref) : M ref :=
  p ← load buf;
  store buf (encrypt a p);;
  ret buf.

(** Modelled from the spec: the method [AES.calculate_mic] as [send_data]
    calls it: the code is written to the 4-byte buffer passed last, which is
    handed back.  A length that does not fit the last byte of B0 cannot be
    stored in the block: the call fails with [ValueError] and the buffer
    is left as it was. *)
Definition aes_calculate_mic (a : AES) (lora_packet : ref) (len : Z)
    (mic : ref) : M ref :=
  msg ← load lora_packet;
  match compute_mic a msg len with
  | Some code => set_slice mic 0 4 code;; ret mic
  | None => raise ValueError
  end.

(** ** [send_data] *)

(** [self._ttn_config] and [self.frame_counter], read. *)
Definition self_ttn_config : M TTN :=
  o ← get_self;
  match _ttn_config o with
  | Some c => ret c
  | None => raise AttributeError
  end.

Definition self_frame_counter : M Z :=
  o ← get_self;
  match frame_counter o with
  | Some f => ret f
  | None => raise AttributeError
  end.

(** Everything [send_data] does before its last line: the result is the
    packet buffer [lora_pkt] and [lora_pkt_len] that the last line passes to
    [send_packet]. *)
Definition send_data_assemble (data : ref) (data_length frame_counter : Z)
  : M (ref * Z) :=
  (* data packet *)
  enc_data ← bytearray data_length;
  lora_pkt ← bytearray 64;
  (* copy bytearray into bytearray for encryption *)
  d ← get_slice_to data (Z.to_nat data_length);
  set_slice enc_data 0 (Z.to_nat data_length) d;;
  (* encrypt data (enc_data is overwritten in this function) *)
  modify_self (set_frame_counter (Some frame_counter));;
  cfg ← self_ttn_config;
  fc ← self_frame_counter;
  let aes := mkAES (device_address cfg) (app_key cfg) (network_key cfg) fc in
  enc_data ← aes_encrypt aes enc_data;
  (* append preamble to packet *)
  setitem lora_pkt 0 _REG_DIO_MAPPING_1;;
  b ← index (device_address cfg) 3; setitem lora_pkt 1 b;;
  b ← index (device_address cfg) 2; setitem lora_pkt 2 b;;
  b ← index (device_address cfg) 1; setitem lora_pkt 3 b;;
  b ← index (device_address cfg) 0; setitem lora_pkt 4 b;;
  setitem lora_pkt 5 0;;
  setitem lora_pkt 6 (Z.land frame_counter 0x00FF);;
  setitem lora_pkt 7 (Z.land (Z.shiftr frame_counter 8) 0x00FF);;
  setitem lora_pkt 8 0x01;;
  (* set length of LoRa packet *)
  let lora_pkt_len := 9 in
  (* load encrypted data into lora_pkt *)
  e ← get_slice_to enc_data (Z.to_nat data_length);
  set_slice lora_pkt (Z.to_nat lora_pkt_len)
            (Z.to_nat (lora_pkt_len + data_length)) e;;
  (* recalculate packet length *)
  let lora_pkt_len := lora_pkt_len + data_length in
  (* Calculate MIC *)
  mic ← bytearray 4;
  mic ← aes_calculate_mic aes lora_pkt lora_pkt_len mic;
  (* load mic in package *)
  c ← get_slice_to mic 4;
  set_slice lora_pkt (Z.to_nat lora_pkt_len) (Z.to_nat (lora_pkt_len + 4)) c;;
  (* recalculate packet length (add MIC length) *)
  let lora_pkt_len := lora_pkt_len + 4 in
  ret (lora_pkt, lora_pkt_len).

Definition send_data (fuel : nat) (data : ref)
    (data_length frame_counter timeout : Z) : M unit :=
  pkt ← send_data_assemble data data_length frame_counter;
  send_packet fuel pkt.1 pkt.2 timeout.

(** ** Construction *)

(** [TinyLoRa(spi, cs, irq, rst, ttn_config, channel)]: [__init__] runs on a
    new instance, which has no attribute yet. *)
Definition __init__ (ttn_config : TTN) (channel : option Z) : M unit :=
  modify_self (λ _, blank);;
  modify_self (set_irq (Some IRQ));;
  emit (SwitchToInput IRQ);;
  modify_self (set_cs (Some CS));;
  emit (SwitchToOutput CS);;
  modify_self (set_rst (Some RST));;
  emit (SwitchToOutput RST);;
  emit (RstValue false);;
  emit (Delay 100);;   (* 100 us *)
  emit (RstValue true);;
  emit (Delay 5000);;  (* 5 ms *)
  (* Verify the version of the RFM module *)
  v ← _read_u8 _REG_VERSION;
  modify_self (set_version (Some v));;
  if negb (v =? 18) then raise DeviceNotDetected
  else
  (* Set Frequency registers *)
  modify_self (set_rfm None None None);;
  (* Set datarate registers *)
  modify_self (set_rate None None None);;
  set_datarate "SF7BW125";;
  (* Set regional frequency plan *)
  (if str_in "US" (country ttn_config) then
     modify_self (set_frequencies (Some (ttn_usa env)))
   else if String.eqb (country ttn_config) "AS" then
     modify_self (set_frequencies (Some (ttn_as env)))
   else if String.eqb (country ttn_config) "AU" then
     modify_self (set_frequencies (Some (ttn_au env)))
   else if String.eqb (country ttn_config) "EU" then
     modify_self (set_frequencies (Some (ttn_eu env)))
   else if String.eqb (country ttn_config) "CN" then
     modify_self (set_frequencies (Some (ttn_cn env)))
   else raise UnsupportedRegion);;
  (* Set Channel Number *)
  modify_self (set_channel_attr channel);;
  r ← randint 0 7;
  modify_self (set_tx_random (Some r));;
  match channel with
  | Some c => set_channel c  (* set single channel *)
  | None => ret tt
  end;;
  (* Init FrameCounter *)
  modify_self (set_frame_counter (Some 0));;
  (* Set up RFM9x for LoRa Mode *)
  for_each [ (_REG_OPERATING_MODE, _MODE_SLEEP);
             (_REG_OPERATING_MODE, _MODE_LORA);
             (_REG_PA_CONFIG, 0xFF);
             (_REG_PREAMBLE_DETECT, 0x25);
             (_REG_PREAMBLE_MSB, 0x00);
             (_REG_PREAMBLE_LSB, 0x08);
             (_REG_MODEM_CONFIG, 0x0C);
             (_REG_TIMER1_COEF, 0x34);
             (_REG_NODE_ADDR, 0x27);
             (_REG_IMAGE_CAL, 0x1D);
             (_REG_RSSI_CONFIG, 0x80);
             (_REG_RSSI_COLLISION, 0x00) ]
           (λ pair, _write_u8 pair.1 (Some pair.2));;
  (* Give the lora object ttn configuration *)
  modify_self (set_ttn_config (Some ttn_config)).

End Driver.

(** ** Release *)

Definition set_sf (v : option Z) (o : TinyLoRa) : TinyLoRa :=
  set_rate v (_bw o) (_modemcfg o) o.
Definition set_bw (v : option Z) (o : TinyLoRa) : TinyLoRa :=
  set_rate (_sf o) v (_modemcfg o) o.
Definition set_modemcfg (v : option Z) (o : TinyLoRa) : TinyLoRa :=
  set_rate (_sf o) (_bw o) v o.

(** [deinit]: the three pins, the frequency and the data rate become
    [None], the frame counter 0.  The SPI device, the plan, the channel and
    the credentials stay. *)
Definition deinit : M unit :=
  modify_self (set_irq None);;
  modify_self (set_rst None);;
  modify_self (set_cs None);;
  modify_self (set_frame_counter (Some 0));;
  modify_self (set_rfm_msb None);;
  modify_self (set_rfm_mid None);;
  modify_self (set_rfm_lsb None);;
  modify_self (set_sf None);;
  modify_self (set_bw None);;
  modify_self (set_modemcfg None).

(** The context manager: [__enter__] hands back the object, [__exit__]
    releases it whatever the exception it is given. *)
Definition __enter__ : M TinyLoRa := get_self.
Definition __exit__ : M unit := deinit.

(** ** A simulated environment for running the driver on examples *)

Module Sim.

(** A stand-in block cipher with 16-byte output (not AES): the key and the
    block, each cut or padded to 16 bytes, combined byte by byte. *)
Definition block (key blk : list Z) : list Z :=
  zip_with (λ k b, Z.lxor (Z.lxor k b) 0x5A) (resize 16 0 key) (resize 16 0 blk).

(** A stand-in authentication code with 16-byte output: the exclusive-or of
    all message bytes, added to each key byte modulo 256. *)
Definition cmac (key msg : list Z) : list Z :=
  (λ k, (k + foldr Z.lxor 0 msg) `mod` 256) <$> resize 16 0 key.

(** An eight-channel plan whose entries differ in the middle byte. *)
Definition plan (msb : Z) : list freq :=
  (λ k, (msb, 0x10 + Z.of_nat k, 0xC0)) <$> seq 0 8.

(** The radio answers every register read with 0x12 (the expected version),
    raises DIO0 from its [done_at]-th reading on, the clock advances one tick
    per reading, and the random source counts upwards from [seed]. *)
Definition env (done_at : nat) (seed : Z) : Env :=
  mkEnv (λ _, 18) (λ n, bool_decide (done_at ≤ n)%nat) (λ n, Z.of_nat n)
        (λ n, seed + Z.of_nat n)
        (plan 0xE1) (plan 0xE6) (plan 0xE5) (plan 0xD9) (plan 0x75)
        block cmac.

Definition credentials : TTN :=
  mkTTN [0x00; 0x11; 0x22; 0x33] (replicate 16 0) (replicate 16 0) "US".

(** The machine before construction, with one caller-owned [bytearray]
    holding [payload] at reference 0. *)
Definition boot (payload : list Z) : machine :=
  mkMachine blank (0, 0) [payload] [] 0 0 0 0.

(** The machine after [TinyLoRa(spi, cs, irq, rst, credentials, channel)]. *)
Definition ready (e : Env) (channel : option Z) (payload : list Z) : machine :=
  (__init__ e credentials channel (boot payload)).2.

(** The same environment with a frequency plan of a single channel for
    every region, and a random source that always gives 3. *)
Definition env_one_channel : Env :=
  mkEnv (λ _, 18) (λ _, true) (λ n, Z.of_nat n) (λ _, 3)
        [(0xE1, 0xF9, 0xC0)] [(0xE1, 0xF9, 0xC0)] [(0xE1, 0xF9, 0xC0)]
        [(0xE1, 0xF9, 0xC0)] [(0xE1, 0xF9, 0xC0)]
        block cmac.

(** The bytes written to the FIFO register, oldest first. *)
Definition fifo_bytes (m : machine) : list Z :=
  omap (λ e, match e with
             | SpiWrite [0x80; b] => Some b
             | _ => None
             end) (history m).

(** The events a run added to the trace of the machine it started from,
    newest first. *)
Definition added (before after : machine) : list event :=
  take (length (trace after) - length (trace before)) (trace after).

(** A single-channel driver asked to send 3 bytes of a 2-byte packet. *)
Definition short_packet_start : machine := ready (env 0 0) (Some 1) [1; 2].
Definition short_packet : outcome unit * machine :=
  send_packet (env 0 0) 5 0 3 2 short_packet_start.

(** A payload of 52 bytes, which makes a frame of 65. *)
Definition oversize_start : machine :=
  ready (env 0 0) (Some 0) (replicate 52 7).
Definition oversize : outcome unit * machine :=
  send_data (env 0 0) 1 0 52 1 2 oversize_start.

(** Construction with a region code that is none of the five. *)
Definition construct_in (region : string) : outcome unit * machine :=
  __init__ (env 0 0) (mkTTN [0x00; 0x11; 0x22; 0x33] (replicate 16 0)
                        (replicate 16 0) region) None (boot []).
Definition region_USA : outcome unit * machine := construct_in "USA".
Definition region_AUS : outcome unit * machine := construct_in "AUS".
Definition region_ASX : outcome unit * machine := construct_in "ASX".

(** A multi-channel send with the single-channel plan. *)
Definition one_channel_start : machine := ready env_one_channel None [1; 2].
Definition one_channel : outcome unit * machine :=
  send_packet env_one_channel 5 0 2 2 one_channel_start.

(** The frame-layout example of the specification: payload 01 02, frame
    counter 5, multi-channel driver, DIO0 high at its second reading. *)
Definition example_start : machine := ready (env 1 4) None [0x01; 0x02].
Definition example_send : outcome unit * machine :=
  send_data (env 1 4) 5 0 2 5 2 example_start.

(** A two-byte packet sent on channel 1; DIO0 is high at its second
    reading. *)
Definition timely_start : machine := ready (env 1 4) (Some 1) [0x01; 0x02].
Definition timely : outcome unit * machine :=
  send_packet (env 1 4) 5 0 2 2 timely_start.

(** The same packet sent in multi-channel mode. *)
Definition hopping_start : machine := ready (env 1 4) None [0x01; 0x02].
Definition hopping : outcome unit * machine :=
  send_packet (env 1 4) 5 0 2 2 hopping_start.

End Sim.

(** ** Further simulated environments *)

Module Runs.

(** The stand-in cipher and authentication code of [Sim], with every byte
    of the output reduced to [range(256)] whatever the key. *)
Definition block (key blk : list Z) : list Z :=
  (λ x, Z.land x 0xFF) <$> Sim.block key blk.

Definition cmac (key msg : list Z) : list Z :=
  (λ x, Z.land x 0xFF) <$> Sim.cmac key msg.

(** The radio of [Sim.env 1 4] with that cipher: DIO0 is high from its
    second reading on. *)
Definition env : Env :=
  mkEnv (λ _, 18) (λ n, bool_decide (1 ≤ n)%nat) (λ n, Z.of_nat n)
        (λ n, 4 + Z.of_nat n)
        (Sim.plan 0xE1) (Sim.plan 0xE6) (Sim.plan 0xE5) (Sim.plan 0xD9)
        (Sim.plan 0x75)
        block cmac.

(** No radio on the bus: every read gives 0. *)
Definition env_no_radio : Env :=
  mkEnv (λ _, 0) (λ _, false) (λ n, Z.of_nat n) (λ n, Z.of_nat n)
        (Sim.plan 0xE1) (Sim.plan 0xE6) (Sim.plan 0xE5) (Sim.plan 0xD9)
        (Sim.plan 0x75)
        block cmac.

(** A driver constructed on channel 1, with the payload 01 02 at
    reference 0. *)
Definition start : machine :=
  (__init__ env Sim.credentials (Some 1) (Sim.boot [0x01; 0x02])).2.

(** That driver released, and then asked to send its payload buffer as a
    packet. *)
Definition released : outcome unit * machine := deinit start.
Definition use_after_release : outcome unit * machine :=
  send_packet env 5 0 2 2 released.2.

(** The released driver given a channel and a data rate again, and then
    asked to send. *)
Definition reconfigured : machine :=
  (set_datarate "SF7BW125" (set_channel 1 released.2).2).2.
Definition use_after_reconfiguration : outcome unit * machine :=
  send_packet env 5 0 2 2 reconfigured.

(** [send_data] on an object that was never constructed. *)
Definition unconstructed : outcome unit * machine :=
  send_data env 5 0 2 1 2 (Sim.boot [0x01; 0x02]).

End Runs.

(** * Vocabulary of the properties *)

(** The cipher object [send_data] builds from the credentials. *)
Definition aes_of (cfg : TTN) (F : Z) : AES :=
  mkAES (dev_addr cfg) (app_key cfg) (net_key cfg) F.

(** The nine header bytes written by [send_data]. *)
Definition header (a0 a1 a2 a3 F : Z) : list Z :=
  [ _REG_DIO_MAPPING_1; a3; a2; a1; a0; 0;
    Z.land F 0xFF; Z.land (Z.shiftr F 8) 0xFF; 1 ].

Section Vocabulary.
Context (env : Env).

(** The three buffers [send_data] allocates, as it leaves them:
    [enc_data], [lora_pkt] and [mic]. *)
Definition enc_buffer (cfg : TTN) (F dl : Z) (d : list Z) : list Z :=
  encrypt env (aes_of cfg F)
    (slice_assign (replicate (Z.to_nat dl) 0) 0 (Z.to_nat dl)
       (slice_to d (Z.to_nat dl))).

Definition pkt_loaded (cfg : TTN) (a0 a1 a2 a3 F dl : Z) (d : list Z) : list Z :=
  slice_assign (header a0 a1 a2 a3 F ++ replicate 55 0)
    (Z.to_nat 9) (Z.to_nat (9 + dl))
    (slice_to (enc_buffer cfg F dl d) (Z.to_nat dl)).

(** The integrity code, where there is one. *)
Definition mic_code (a : AES) (msg : list Z) (len : Z) : list Z :=
  default [] (compute_mic env a msg len).

Definition mic_buffer (cfg : TTN) (a0 a1 a2 a3 F dl : Z) (d : list Z) : list Z :=
  slice_assign (replicate (Z.to_nat 4) 0) 0 4
    (mic_code (aes_of cfg F) (pkt_loaded cfg a0 a1 a2 a3 F dl d) (9 + dl)).

Definition pkt_buffer (cfg : TTN) (a0 a1 a2 a3 F dl : Z) (d : list Z) : list Z :=
  slice_assign (pkt_loaded cfg a0 a1 a2 a3 F dl d)
    (Z.to_nat (9 + dl)) (Z.to_nat (9 + dl + 4))
    (slice_to (mic_buffer cfg a0 a1 a2 a3 F dl d) 4).

Definition assembled (cfg : TTN) (a0 a1 a2 a3 F dl : Z) (d : list Z) (m : machine)
  : machine :=
  with_heap (heap m ++ [ enc_buffer cfg F dl d;
                         pkt_buffer cfg a0 a1 a2 a3 F dl d;
                         mic_buffer cfg a0 a1 a2 a3 F dl d ])
            (with_self (set_frame_counter (Some F)) m).

(** Lines 317-343 of [send_packet]: standby, channel, registers, FIFO. *)
Definition send_packet_program (lora_packet : ref) (packet_length : Z)
  : M unit :=
  _write_u8 _MODE_STDBY (Some 0x81);;
  emit (Delay 10000);;
  _write_u8 0x40 (Some 0x40);;
  o ← get_self;
  match _channel o with
  | None =>
      r ← randint env 0 7;
      modify_self (set_tx_random (Some r));;
      f ← frequency r; modify_self (set_rfm_lsb (Some f.2));;
      f ← frequency r; modify_self (set_rfm_mid (Some f.1.2));;
      f ← frequency r; modify_self (set_rfm_msb (Some f.1.1))
  | Some _ => ret tt
  end;;
  o ← get_self;
  for_each [ (_REG_FRF_MSB, _rfm_msb o);
             (_REG_FRF_MID, _rfm_mid o);
             (_REG_FRF_LSB, _rfm_lsb o);
             (_REG_FEI_LSB, _sf o);
             (_REG_FEI_MSB, _bw o);
             (_REG_MODEM_CONFIG, _modemcfg o);
             (_REG_PAYLOAD_LENGTH, Some packet_length);
             (_REG_FIFO_POINTER, Some _REG_FIFO_BASE_ADDR) ]
           (λ pair, _write_u8 pair.1 pair.2);;
  for_each (seq 0 (Z.to_nat packet_length))
           (λ packet_index,
              b ← getitem lora_packet packet_index;
              _write_u8 0x00 (Some b)).

(** Lines 344-355 of [send_packet]: transmit, wait, sleep, report. *)
Definition send_packet_transmit (fuel : nat) (timeout : Z) : M unit :=
  _write_u8 _REG_OPERATING_MODE (Some _MODE_TX);;
  start ← monotonic env;
  timed_out ← poll env fuel start timeout;
  _write_u8 _REG_OPERATING_MODE (Some _MODE_SLEEP);;
  if timed_out : bool then raise SendTimeout else ret tt.

End Vocabulary.

(** A relation between the machine before and after that holds for every
    run of [c], whatever the outcome. *)
Definition preserves (R : relation machine) {A} (c : M A) : Prop :=
  ∀ m, R m (c m).2.

(** Nothing but the bus, the class buffer and the input counters moves. *)
Definition fixed (m m' : machine) : Prop :=
  self m' = self m ∧ heap m' = heap m ∧ trace m `suffix_of` trace m'.

(** The [bytearray] store and the frame counter stay; events are only
    added. *)
Definition steady (m m' : machine) : Prop :=
  heap m' = heap m ∧
  frame_counter (self m') = frame_counter (self m) ∧
  trace m `suffix_of` trace m'.

(** The frequency plan stays as it is. *)
Definition same_plan (m m' : machine) : Prop :=
  _frequencies (self m') = _frequencies (self m).

(** A computation that neither diverges nor raises [e0]. *)
Definition clean (e0 : exn) {A} (c : M A) : Prop :=
  ∀ m, match (c m).1 with
       | Ret _ => True
       | Raise e => e ≠ e0
       | Diverge => False
       end.

(** The region codes for which [__init__] finds a frequency plan, and the
    plan it takes, read off its chain of tests. *)
Definition supported_region (c : string) : bool :=
  str_in "US" c || String.eqb c "AS" || String.eqb c "AU" ||
  String.eqb c "EU" || String.eqb c "CN".

Definition region_plan (env : Env) (c : string) : list freq :=
  if str_in "US" c then ttn_usa env
  else if String.eqb c "AS" then ttn_as env
  else if String.eqb c "AU" then ttn_au env
  else if String.eqb c "EU" then ttn_eu env
  else ttn_cn env.

(** The object once [__init__] has stored its three pins. *)
Definition wired : TinyLoRa :=
  set_rst (Some RST) (set_cs (Some CS) (set_irq (Some IRQ) blank)).

(** The object when [__init__] reaches the choice of the plan: the pins,
    the version and the default data rate are set, nothing else is. *)
Definition unconfigured : TinyLoRa :=
  set_rate (Some 0x74) (Some 0x72) (Some 0x04) (set_version (Some 18) wired).

(** What has crossed the hardware boundary by then: the pins are set up, the
    radio is reset, the version register is read. *)
Definition reset_and_probe : list event :=
  [ SpiRead [18]; SpiWrite [0x42]; Delay 5000; RstValue true; Delay 100;
    RstValue false; SwitchToOutput RST; SwitchToOutput CS; SwitchToInput IRQ ].

(** The events of the wait for TxDone. *)
Definition is_wait (e : event) : Prop :=
  match e with
  | IrqValue _ | Monotonic _ => True
  | _ => False
  end.

(** The value a bus event writes to the operating-mode register, if it is
    such a write. *)
Definition mode_of (e : event) : option Z :=
  match e with
  | SpiWrite [0x81; v] => Some v
  | _ => None
  end.

(** The values written to the operating-mode register by a stretch of the
    trace (given newest first, as the trace is), in the order of writing. *)
Definition mode_writes (new : list event) : list Z := omap mode_of (rev new).

(** The events of a stretch of the trace all satisfy [P]. *)
Definition adds (P : event → Prop) (m m' : machine) : Prop :=
  ∃ new, trace m' = new ++ trace m ∧ Forall P new.

(** The eight register writes of [send_packet] that follow the choice of the
    channel, newest first. *)
Definition config_writes (msb mid lsb sf bw cfg len : Z) : list event :=
  [ SpiWrite [0x8D; 0x80]; SpiWrite [0xA2; len]; SpiWrite [0xA6; cfg];
    SpiWrite [0x9D; bw]; SpiWrite [0x9E; sf];
    SpiWrite [0x88; lsb]; SpiWrite [0x87; mid]; SpiWrite [0x86; msb] ].

(** One write to the FIFO register for each of [bytes], newest first. *)
Definition fifo_writes (bytes : list Z) : list event :=
  rev ((λ b, SpiWrite [0x80; b]) <$> bytes).

(** Lines 329-343 of [send_packet]: registers and FIFO. *)
Definition send_packet_load (lora_packet : ref) (packet_length : Z) : M unit :=
  o ← get_self;
  for_each [ (_REG_FRF_MSB, _rfm_msb o);
             (_REG_FRF_MID, _rfm_mid o);
             (_REG_FRF_LSB, _rfm_lsb o);
             (_REG_FEI_LSB, _sf o);
             (_REG_FEI_MSB, _bw o);
             (_REG_MODEM_CONFIG, _modemcfg o);
             (_REG_PAYLOAD_LENGTH, Some packet_length);
             (_REG_FIFO_POINTER, Some _REG_FIFO_BASE_ADDR) ]
           (λ pair, _write_u8 pair.1 pair.2);;
  for_each (seq 0 (Z.to_nat packet_length))
           (λ packet_index,
              b ← getitem lora_packet packet_index;
              _write_u8 0x00 (Some b)).

(** All elements are bytes. *)
Definition bytes_ok (l : list Z) : Prop := Forall (λ b, is_byte b = true) l.

(** The register settings that put the radio in LoRa mode, as [__init__]
    lists them. *)
Definition lora_mode_setup : list (Z * Z) :=
  [ (_REG_OPERATING_MODE, _MODE_SLEEP);
    (_REG_OPERATING_MODE, _MODE_LORA);
    (_REG_PA_CONFIG, 0xFF);
    (_REG_PREAMBLE_DETECT, 0x25);
    (_REG_PREAMBLE_MSB, 0x00);
    (_REG_PREAMBLE_LSB, 0x08);
    (_REG_MODEM_CONFIG, 0x0C);
    (_REG_TIMER1_COEF, 0x34);
    (_REG_NODE_ADDR, 0x27);
    (_REG_IMAGE_CAL, 0x1D);
    (_REG_RSSI_CONFIG, 0x80);
    (_REG_RSSI_COLLISION, 0x00) ].

(** The bus writes they make, newest first. *)
Definition init_writes : list event :=
  rev ((λ pair, SpiWrite [Z.lor pair.1 0x80; pair.2]) <$> lora_mode_setup).

(** Lines 212-237 of [__init__]: channel, frame counter, LoRa mode,
    credentials. *)
Definition init_configure (env : Env) (ttn_config : TTN) (channel : option Z)
  : M unit :=
  modify_self (set_channel_attr channel);;
  r ← randint env 0 7;
  modify_self (set_tx_random (Some r));;
  match channel with
  | Some c => set_channel c
  | None => ret tt
  end;;
  modify_self (set_frame_counter (Some 0));;
  for_each [ (_REG_OPERATING_MODE, _MODE_SLEEP);
             (_REG_OPERATING_MODE, _MODE_LORA);
             (_REG_PA_CONFIG, 0xFF);
             (_REG_PREAMBLE_DETECT, 0x25);
             (_REG_PREAMBLE_MSB, 0x00);
             (_REG_PREAMBLE_LSB, 0x08);
             (_REG_MODEM_CONFIG, 0x0C);
             (_REG_TIMER1_COEF, 0x34);
             (_REG_NODE_ADDR, 0x27);
             (_REG_IMAGE_CAL, 0x1D);
             (_REG_RSSI_CONFIG, 0x80);
             (_REG_RSSI_COLLISION, 0x00) ]
           (λ pair, _write_u8 pair.1 (Some pair.2));;
  modify_self (set_ttn_config (Some ttn_config)).

(** The object a successful construction leaves: [rfm] is the entry of the
    plan for the channel given, if one was given, and [r] the index drawn. *)
Definition constructed (env : Env) (ttn_config : TTN) (channel : option Z)
    (rfm : option freq) (r : Z) : TinyLoRa :=
  mkTinyLoRa (Some 18)
    ((λ f : freq, f.1.1) <$> rfm) ((λ f : freq, f.1.2) <$> rfm)
    ((λ f : freq, f.2) <$> rfm)
    (Some 0x74) (Some 0x72) (Some 0x04)
    (Some (region_plan env (country ttn_config)))
    channel (Some r) (Some 0) (Some ttn_config)
    (Some IRQ) (Some CS) (Some RST).

(** A reading after which the wait for TxDone goes on: DIO0 low, or the
    clock short of the timeout. *)
Definition goes_on (start timeout : Z) (e : event) : Prop :=
  match e with
  | IrqValue level => level = false
  | Monotonic now => now - start < timeout
  | _ => False
  end.

(** The pin read by the wait for TxDone stays as it is. *)
Definition same_pins (m m' : machine) : Prop :=
  _irq (self m') = _irq (self m).

(** DIO0 and the clock have been read as often in [m'] as in [m]. *)
Definition same_readings (m m' : machine) : Prop :=
  n_irq m' = n_irq m ∧ n_clock m' = n_clock m.

(** * Properties *)

(** ** The keystream cipher *)

Section Keystream.
Context (env : Env).
Hypothesis block_size : ∀ key blk, length (aes_block env key blk) = 16%nat.

Lemma zip_lxor_length (p s : list Z) :
  (length p ≤ length s)%nat → length (zip_with Z.lxor p s) = length p.
Proof. intros Hle. rewrite length_zip_with. lia. Qed.

Lemma zip_lxor_cancel (p s : list Z) :
  (length p ≤ length s)%nat →
  zip_with Z.lxor (zip_with Z.lxor p s) s = p.
Proof.
  revert s. induction p as [|x p IH]; intros [|y s] Hle; cbn in *;
    try reflexivity; try lia.
  rewrite Z.lxor_assoc, Z.lxor_nilpotent, Z.lxor_0_r.
  f_equal. apply IH. lia.
Qed.

Lemma keystream_block_length a i : length (keystream_block env a i) = 16%nat.
Proof. apply block_size. Qed.

(** The defining equation of [encrypt_from], also at the empty input. *)
Lemma encrypt_from_step a i p :
  encrypt_from env a i p =
  zip_with Z.lxor (take 16 p) (keystream_block env a i)
  ++ encrypt_from env a (i + 1) (drop 16 p).
Proof.
  destruct p as [|x p].
  - rewrite take_nil, drop_nil. simp encrypt_from. reflexivity.
  - simp encrypt_from. reflexivity.
Qed.

Lemma encrypt_from_length a p : ∀ i, length (encrypt_from env a i p) = length p.
Proof.
  remember (length p) as n eqn:Hn. revert p Hn.
  induction n as [n IH] using lt_wf_ind. intros p Hn i; subst n.
  destruct p as [|x p]; [simp encrypt_from; reflexivity|].
  rewrite encrypt_from_step, length_app.
  rewrite zip_lxor_length
    by (rewrite keystream_block_length, length_take; lia).
  rewrite (IH (length (drop 16 (x :: p))))
    by (rewrite ?length_drop; cbn [length]; lia || reflexivity).
  rewrite length_take, length_drop. lia.
Qed.

Lemma encrypt_from_involutive a p :
  ∀ i, encrypt_from env a i (encrypt_from env a i p) = p.
Proof.
  remember (length p) as n eqn:Hn. revert p Hn.
  induction n as [n IH] using lt_wf_ind. intros p Hn i; subst n.
  destruct p as [|x p]; [simp encrypt_from; reflexivity|].
  set (l := x :: p) in *.
  rewrite (encrypt_from_step a i l).
  set (X := zip_with Z.lxor (take 16 l) (keystream_block env a i)).
  set (R := encrypt_from env a (i + 1) (drop 16 l)).
  assert (HX : length X = length (take 16 l)).
  { apply zip_lxor_length. rewrite keystream_block_length, length_take. lia. }
  assert (HR : length R = length (drop 16 l)) by apply encrypt_from_length.
  assert (Hsplit : take 16 (X ++ R) = X ∧ drop 16 (X ++ R) = R).
  { rewrite length_take in HX. rewrite length_drop in HR.
    destruct (decide (16 ≤ length l)%nat) as [Hge|Hlt].
    - assert (length X = 16%nat) as HX16 by lia.
      rewrite <- HX16.
      rewrite take_app_length, drop_app_length. done.
    - assert (R = []) as -> by (apply length_zero_iff_nil; lia).
      rewrite app_nil_r, take_ge, drop_ge by lia. done. }
  destruct Hsplit as [Ht Hd].
  rewrite encrypt_from_step, Ht, Hd.
  subst X. rewrite zip_lxor_cancel
    by (rewrite keystream_block_length, length_take; lia).
  subst R. rewrite (IH (length (drop 16 l)))
    by (rewrite ?length_drop; subst l; cbn [length]; lia || reflexivity).
  apply take_drop.
Qed.

End Keystream.

Lemma encrypt_length (env : Env) (a : AES) (p : list Z) :
  (∀ key blk, length (aes_block env key blk) = 16%nat) →
  length (encrypt env a p) = length p.
Proof. intros Hblock. apply encrypt_from_length, Hblock. Qed.

(** C2. The keystream transform keeps the length of its input, and applying
    it twice with the same credentials and frame counter gives back the
    plaintext, for every plaintext (the empty one included), whenever the
    block cipher produces 16-byte blocks. *)
Theorem encrypt_involution (env : Env) (a : AES) (p : list Z) :
  (∀ key blk, length (aes_block env key blk) = 16%nat) →
  length (encrypt env a p) = length p ∧
  encrypt env a (encrypt env a p) = p.
Proof.
  intros Hblock. unfold encrypt. split.
  - apply encrypt_from_length, Hblock.
  - apply encrypt_from_involutive, Hblock.
Qed.

(** ** Running the monad one statement at a time *)

Section Run.
Context {A B : Type} (k : A → M B) (m : machine).

Lemma run_ret (a : A) : bind (ret a) k m = k a m.
Proof. reflexivity. Qed.

Lemma run_raise (e : exn) : bind (raise e) k m = (Raise e, m).
Proof. reflexivity. Qed.

End Run.

Section RunHeap.
Context {B : Type} (m : machine).

Lemma run_bytearray (n : Z) (k : ref → M B) :
  bind (bytearray n) k m =
  if n <? 0 then (Raise ValueError, m)
  else k (length (heap m))
         (with_heap (heap m ++ [replicate (Z.to_nat n) 0]) m).
Proof. unfold bind, bytearray. destruct (n <? 0); reflexivity. Qed.

Lemma run_load (r : ref) (k : list Z → M B) :
  bind (load r) k m =
  match heap m !! r with
  | Some b => k b m
  | None => (Raise (TypeError "object is not a buffer"), m)
  end.
Proof. unfold bind, load. destruct (heap m !! r); reflexivity. Qed.

Lemma run_store (r : ref) (b : list Z) (k : unit → M B) :
  bind (store r b) k m = k tt (with_heap (<[r := b]> (heap m)) m).
Proof. reflexivity. Qed.

Lemma run_getitem (r : ref) (i : nat) (k : Z → M B) :
  bind (getitem r i) k m =
  match heap m !! r with
  | Some b => match b !! i with
              | Some v => k v m
              | None => (Raise IndexError, m)
              end
  | None => (Raise (TypeError "object is not a buffer"), m)
  end.
Proof.
  unfold bind, getitem, bind, load.
  destruct (heap m !! r) as [b|]; [|reflexivity].
  destruct (b !! i); reflexivity.
Qed.

Lemma run_setitem (r : ref) (i : nat) (v : Z) (k : unit → M B) :
  bind (setitem r i v) k m =
  match heap m !! r with
  | Some b =>
      if negb (is_byte v) then (Raise ValueError, m)
      else if decide (i < length b)%nat
           then k tt (with_heap (<[r := <[i := v]> b]> (heap m)) m)
           else (Raise IndexError, m)
  | None => (Raise (TypeError "object is not a buffer"), m)
  end.
Proof.
  unfold bind, setitem, bind, load.
  destruct (heap m !! r) as [b|]; [|reflexivity].
  destruct (negb (is_byte v)); [reflexivity|].
  destruct (decide (i < length b)%nat); reflexivity.
Qed.

Lemma run_get_slice_to (r : ref) (n : nat) (k : list Z → M B) :
  bind (get_slice_to r n) k m =
  match heap m !! r with
  | Some b => k (slice_to b n) m
  | None => (Raise (TypeError "object is not a buffer"), m)
  end.
Proof.
  unfold bind, get_slice_to, bind, load.
  destruct (heap m !! r); reflexivity.
Qed.

Lemma run_set_slice (r : ref) (i j : nat) (src : list Z) (k : unit → M B) :
  bind (set_slice r i j src) k m =
  match heap m !! r with
  | Some b => k tt (with_heap (<[r := slice_assign b i j src]> (heap m)) m)
  | None => (Raise (TypeError "object is not a buffer"), m)
  end.
Proof.
  unfold bind, set_slice, bind, load.
  destruct (heap m !! r); reflexivity.
Qed.

Lemma run_index (s : list Z) (i : nat) (k : Z → M B) :
  bind (index s i) k m =
  match s !! i with
  | Some v => k v m
  | None => (Raise IndexError, m)
  end.
Proof. unfold bind, index. destruct (s !! i); reflexivity. Qed.

Lemma run_emit (e : event) (k : unit → M B) :
  bind (emit e) k m = k tt (with_event e m).
Proof. reflexivity. Qed.

Lemma run_modify_self (f : TinyLoRa → TinyLoRa) (k : unit → M B) :
  bind (modify_self f) k m = k tt (with_self f m).
Proof. reflexivity. Qed.

Lemma run_get_self (k : TinyLoRa → M B) :
  bind get_self k m = k (self m) m.
Proof. reflexivity. Qed.

Lemma run_self_ttn_config (k : TTN → M B) :
  bind self_ttn_config k m =
  match _ttn_config (self m) with
  | Some c => k c m
  | None => (Raise AttributeError, m)
  end.
Proof.
  unfold bind, self_ttn_config, bind, get_self.
  destruct (_ttn_config (self m)); reflexivity.
Qed.

Lemma run_self_frame_counter (k : Z → M B) :
  bind self_frame_counter k m =
  match frame_counter (self m) with
  | Some c => k c m
  | None => (Raise AttributeError, m)
  end.
Proof.
  unfold bind, self_frame_counter, bind, get_self.
  destruct (frame_counter (self m)); reflexivity.
Qed.

Lemma run_aes_encrypt env (a : AES) (r : ref) (k : ref → M B) :
  bind (aes_encrypt env a r) k m =
  match heap m !! r with
  | Some p => k r (with_heap (<[r := encrypt env a p]> (heap m)) m)
  | None => (Raise (TypeError "object is not a buffer"), m)
  end.
Proof.
  unfold bind, aes_encrypt, bind, load.
  destruct (heap m !! r); reflexivity.
Qed.

Lemma run_aes_calculate_mic env (a : AES) (pkt : ref) (len : Z) (mic : ref)
    (k : ref → M B) :
  bind (aes_calculate_mic env a pkt len mic) k m =
  match heap m !! pkt with
  | Some msg =>
      if is_byte len then
        match heap m !! mic with
        | Some old =>
            k mic (with_heap
                     (<[mic := slice_assign old 0 4 (mic_code env a msg len)]>
                        (heap m)) m)
        | None => (Raise (TypeError "object is not a buffer"), m)
        end
      else (Raise ValueError, m)
  | None => (Raise (TypeError "object is not a buffer"), m)
  end.
Proof.
  unfold bind at 1. unfold aes_calculate_mic, bind at 1. unfold load.
  destruct (heap m !! pkt); [|reflexivity].
  unfold mic_code, compute_mic, block_b0.
  destruct (is_byte len); [|reflexivity].
  unfold set_slice, bind, load.
  destruct (heap m !! mic); reflexivity.
Qed.

End RunHeap.

Lemma heap0_lookup (H : list (list Z)) x L : (H ++ x :: L) !! length H = Some x.
Proof. apply list_lookup_middle. reflexivity. Qed.
Lemma heap0_insert (H : list (list Z)) x L v :
  <[length H := v]> (H ++ x :: L) = H ++ v :: L.
Proof. rewrite insert_app_r_alt by lia. rewrite Nat.sub_diag. reflexivity. Qed.
Lemma heapj_lookup (H L : list (list Z)) j : (H ++ L) !! (length H + j)%nat = L !! j.
Proof. rewrite lookup_app_r by lia. f_equal. lia. Qed.
Lemma heapj_insert (H L : list (list Z)) j v :
  <[(length H + j)%nat := v]> (H ++ L) = H ++ <[j := v]> L.
Proof. apply insert_app_r. Qed.
Lemma heap_old_lookup (H L : list (list Z)) r d :
  H !! r = Some d → (H ++ L) !! r = Some d.
Proof. apply lookup_app_l_Some. Qed.

Section Cells.
Context {A : Type}.
Lemma lookup_head (x : A) l : (x :: l) !! 0%nat = Some x.
Proof. reflexivity. Qed.
Lemma lookup_tail (x : A) l i : (x :: l) !! S i = l !! i.
Proof. reflexivity. Qed.
Lemma insert_head (x : A) l v : <[0%nat := v]> (x :: l) = v :: l.
Proof. reflexivity. Qed.
Lemma insert_tail (x : A) l i v : <[S i := v]> (x :: l) = x :: <[i := v]> l.
Proof. reflexivity. Qed.
End Cells.

Lemma bytearray_64 :
  replicate (Z.to_nat 64) 0 = [0;0;0;0;0;0;0;0;0] ++ replicate 55 0.
Proof. reflexivity. Qed.

Lemma bind_assoc {A B C} (c : M A) (f : A → M B) (g : B → M C) (m : machine) :
  bind (bind c f) g m = bind c (λ a, bind (f a) g) m.
Proof. unfold bind. destruct (c m) as [[a|e|] m1]; reflexivity. Qed.

Lemma is_byte_land_255 (x : Z) : is_byte (Z.land x 0xFF) = true.
Proof.
  unfold is_byte. change 0xFF with (Z.ones 8). rewrite Z.land_ones by lia.
  pose proof (Z.mod_pos_bound x (2 ^ 8) ltac:(lia)).
  apply andb_true_intro. split; [apply Z.leb_le | apply Z.ltb_lt]; lia.
Qed.

Lemma is_byte_land_127 (x : Z) : is_byte (Z.land x 0x7F) = true.
Proof.
  unfold is_byte. change 0x7F with (Z.ones 7). rewrite Z.land_ones by lia.
  pose proof (Z.mod_pos_bound x (2 ^ 7) ltac:(lia)).
  apply andb_true_intro. split; [apply Z.leb_le | apply Z.ltb_lt]; lia.
Qed.

(** A register write with byte-sized address and value goes through. *)
Lemma write_u8_runs address v m :
  is_byte (Z.lor address 0x80) = true → is_byte v = true →
  _write_u8 address (Some v) m =
  (Ret tt, with_event (SpiWrite [Z.lor address 0x80; v])
             (with_BUFFER (Z.lor address 0x80, v) m)).
Proof.
  intros Ha Hv. unfold _write_u8, bind, set_BUFFER. rewrite Ha, Hv.
  destruct m; reflexivity.
Qed.

Lemma run_write_u8 {B} (address v : Z) (k : unit → M B) m :
  is_byte (Z.lor address 0x80) = true → is_byte v = true →
  bind (_write_u8 address (Some v)) k m =
  k tt (with_event (SpiWrite [Z.lor address 0x80; v])
          (with_BUFFER (Z.lor address 0x80, v) m)).
Proof. intros Ha Hv. unfold bind at 1. by rewrite write_u8_runs. Qed.

Lemma run_frequency {B} (channel : Z) (k : freq → M B) m :
  bind (frequency channel) k m =
  match _frequencies (self m) with
  | Some plan =>
      match plan_lookup plan channel with
      | Some f => k f m
      | None => (Raise LookupError, m)
      end
  | None => (Raise AttributeError, m)
  end.
Proof.
  unfold bind, frequency, bind, get_self.
  destruct (_frequencies (self m)) as [plan|]; [|reflexivity].
  destruct (plan_lookup plan channel); reflexivity.
Qed.

Lemma run_set_datarate {B} datarate (k : unit → M B) m :
  bind (set_datarate datarate) k m =
  match data_rates !! datarate with
  | Some (sf, bw, cfg) =>
      k tt (with_self (set_rate (Some sf) (Some bw) (Some cfg)) m)
  | None => (Raise UnsupportedDatarate, m)
  end.
Proof.
  unfold bind, set_datarate.
  destruct (data_rates !! datarate) as [[[sf bw] cfg]|]; reflexivity.
Qed.

Lemma default_datarate : data_rates !! "SF7BW125"%string = Some (0x74, 0x72, 0x04).
Proof. vm_compute. reflexivity. Qed.

Section RunBus.
Context (env : Env).

Lemma read_u8_runs address m :
  _read_u8 env address m =
  (Ret (miso env (n_miso m)),
   mkMachine (self m) (miso env (n_miso m), (_BUFFER m).2) (heap m)
     (SpiRead [miso env (n_miso m)] :: SpiWrite [Z.land address 0x7F]
        :: trace m)
     (n_miso m + 1) (n_irq m) (n_clock m) (n_rand m)).
Proof.
  unfold _read_u8, _read_into, readinto, bind, set_BUFFER, device_read,
    device_write, emit, get_BUFFER, ret.
  rewrite is_byte_land_127. cbn. rewrite Nat.add_0_r. reflexivity.
Qed.

Lemma run_read_u8 {B} address (k : Z → M B) m :
  bind (_read_u8 env address) k m =
  k (miso env (n_miso m))
    (mkMachine (self m) (miso env (n_miso m), (_BUFFER m).2) (heap m)
       (SpiRead [miso env (n_miso m)] :: SpiWrite [Z.land address 0x7F]
          :: trace m)
       (n_miso m + 1) (n_irq m) (n_clock m) (n_rand m)).
Proof. unfold bind at 1. by rewrite read_u8_runs. Qed.

End RunBus.

(** One statement at the head of the computation is run; [tidy] brings the
    machine back to a record of its components, [heap_norm] resolves the
    accesses to the buffers allocated since the start, [use_hyps] those that
    the hypotheses decide, [in_range] the index checks of [setitem]. *)
Ltac step :=
  first [ rewrite run_ret | rewrite run_raise | rewrite run_emit
        | rewrite run_bytearray
        | rewrite run_load | rewrite run_store | rewrite run_getitem
        | rewrite run_setitem | rewrite run_get_slice_to
        | rewrite run_set_slice | rewrite run_index | rewrite run_modify_self
        | rewrite run_get_self | rewrite run_self_ttn_config
        | rewrite run_self_frame_counter | rewrite run_aes_encrypt
        | rewrite run_aes_calculate_mic | rewrite run_frequency
        | rewrite run_set_datarate | rewrite run_read_u8
        | rewrite run_write_u8 by first [reflexivity | assumption] ].

Ltac tidy :=
  unfold with_heap, with_self, with_BUFFER, with_event,
         device_address, network_key, application_key, country;
  cbn [heap self _BUFFER trace n_miso n_irq n_clock n_rand fst snd
       _version _rfm_msb _rfm_mid _rfm_lsb _sf _bw _modemcfg _frequencies
       _channel _tx_random frame_counter _ttn_config _irq _cs _rst
       set_frame_counter set_rate set_rfm set_tx_random
       set_rfm_lsb set_rfm_mid set_rfm_msb
       app length negb];
  change (64 <? 0) with false; change (4 <? 0) with false;
  change (is_byte _REG_DIO_MAPPING_1) with true;
  change (is_byte 0) with true; change (is_byte 1) with true;
  rewrite ?is_byte_land_255; cbn [negb]; cbv iota.

Ltac use_hyps :=
  repeat match goal with
         | H : ?x = _ |- context [?x] => rewrite H
         | H : ?h !! ?r = Some ?d |- context [(?h ++ ?l) !! ?r] =>
             rewrite (heap_old_lookup h l r d H)
         end.

Ltac in_range :=
  repeat match goal with
         | |- context [decide (?i < ?n)%nat] =>
             rewrite (decide_True (P := (i < n)%nat))
               by (cbn [length]; rewrite ?length_replicate; lia)
         end.

Ltac heap_norm :=
  rewrite <- ?app_assoc, ?length_app, ?bytearray_64; cbn [app length];
  rewrite ?heap0_lookup, ?heap0_insert, ?heapj_lookup, ?heapj_insert;
  rewrite ?lookup_tail, ?lookup_head, ?insert_tail, ?insert_head.

Ltac run := repeat (step; tidy; heap_norm; tidy; use_hyps; tidy; in_range; heap_norm).

(** ** What [send_data] assembles *)

Section Assemble.
Context (env : Env).

(** When the payload is a buffer, the length is not negative and, with the
    nine bytes of the header, fits the byte the integrity code has for it,
    the object has its credentials and the device address has four bytes,
    [send_data] reaches its last line with the three buffers above. *)
Lemma send_data_assemble_runs data dl F m d cfg a0 a1 a2 a3 :
  0 <= dl → 9 + dl <= 255 →
  heap m !! data = Some d →
  _ttn_config (self m) = Some cfg →
  dev_addr cfg !! 3%nat = Some a3 → is_byte a3 = true →
  dev_addr cfg !! 2%nat = Some a2 → is_byte a2 = true →
  dev_addr cfg !! 1%nat = Some a1 → is_byte a1 = true →
  dev_addr cfg !! 0%nat = Some a0 → is_byte a0 = true →
  send_data_assemble env data dl F m =
  (Ret ((length (heap m) + 1)%nat, 9 + dl + 4),
   assembled env cfg a0 a1 a2 a3 F dl d m).
Proof.
  destruct m as [o B H T n1 n2 n3 n4]; cbn [heap self].
  intros Hdl Hlen Hd Hcfg A3 B3 A2 B2 A1 B1 A0 B0.
  assert (Hb : is_byte (9 + dl) = true) by (unfold is_byte; lia).
  apply Z.ltb_ge in Hdl.
  unfold send_data_assemble. run.
  reflexivity.
Qed.

(** When the length, with the nine bytes of the header, does not fit the
    byte that the integrity code has for it, the frame is not assembled:
    the call fails where the code is computed, with nothing on the bus. *)
Lemma send_data_assemble_long data dl F m d cfg a0 a1 a2 a3 :
  255 < 9 + dl →
  heap m !! data = Some d →
  _ttn_config (self m) = Some cfg →
  dev_addr cfg !! 3%nat = Some a3 → is_byte a3 = true →
  dev_addr cfg !! 2%nat = Some a2 → is_byte a2 = true →
  dev_addr cfg !! 1%nat = Some a1 → is_byte a1 = true →
  dev_addr cfg !! 0%nat = Some a0 → is_byte a0 = true →
  ∃ m', send_data_assemble env data dl F m = (Raise ValueError, m') ∧
        trace m' = trace m.
Proof.
  destruct m as [o B H T n1 n2 n3 n4]; cbn [heap self trace].
  intros Hlen Hd Hcfg A3 B3 A2 B2 A1 B1 A0 B0.
  assert (Hb : is_byte (9 + dl) = false) by (unfold is_byte; lia).
  assert (Hdl : (dl <? 0) = false) by lia.
  unfold send_data_assemble. run.
  eexists. split; reflexivity.
Qed.

(** Conversely, these conditions are all met whenever it gets there. *)
Lemma send_data_assemble_Ret data dl F m d r m' :
  heap m !! data = Some d →
  send_data_assemble env data dl F m = (Ret r, m') →
  ∃ cfg a0 a1 a2 a3,
    0 <= dl ∧ 9 + dl <= 255 ∧ _ttn_config (self m) = Some cfg ∧
    dev_addr cfg !! 3%nat = Some a3 ∧ dev_addr cfg !! 2%nat = Some a2 ∧
    dev_addr cfg !! 1%nat = Some a1 ∧ dev_addr cfg !! 0%nat = Some a0 ∧
    r = ((length (heap m) + 1)%nat, 9 + dl + 4) ∧
    m' = assembled env cfg a0 a1 a2 a3 F dl d m.
Proof.
  destruct m as [o B H T n1 n2 n3 n4]; cbn [heap self].
  unfold send_data_assemble.
  intros Hd.
  destruct (dl <? 0) eqn:Hdl; [run; discriminate|].
  destruct (_ttn_config o) as [cfg|] eqn:Hcfg; [|run; discriminate].
  destruct (dev_addr cfg !! 3%nat) as [a3|] eqn:A3; [|run; discriminate].
  destruct (is_byte a3) eqn:B3; [|run; discriminate].
  destruct (dev_addr cfg !! 2%nat) as [a2|] eqn:A2; [|run; discriminate].
  destruct (is_byte a2) eqn:B2; [|run; discriminate].
  destruct (dev_addr cfg !! 1%nat) as [a1|] eqn:A1; [|run; discriminate].
  destruct (is_byte a1) eqn:B1; [|run; discriminate].
  destruct (dev_addr cfg !! 0%nat) as [a0|] eqn:A0; [|run; discriminate].
  destruct (is_byte a0) eqn:B0; [|run; discriminate].
  destruct (is_byte (9 + dl)) eqn:Hb; [|run; discriminate].
  run. intros [= <- <-].
  exists cfg, a0, a1, a2, a3. apply Z.ltb_ge in Hdl.
  unfold is_byte in Hb. repeat split; try done; lia.
Qed.

End Assemble.

(** ** The contents of the packet buffer *)

Section Frame.
Context (env : Env).

Lemma header_length a0 a1 a2 a3 F : length (header a0 a1 a2 a3 F) = 9%nat.
Proof. reflexivity. Qed.

(** The copy [enc_data[0:n] = data[0:n]] leaves exactly [data[0:n]]. *)
Lemma copy_payload (n : nat) (d : list Z) :
  slice_assign (replicate n 0) 0 n (slice_to d n) = take n d.
Proof.
  unfold slice_assign, slice_to.
  rewrite Nat.max_0_l, drop_replicate, Nat.sub_diag. cbn.
  apply app_nil_r.
Qed.

Lemma enc_buffer_whole cfg F (d : list Z) :
  enc_buffer env cfg F (Z.of_nat (length d)) d = encrypt env (aes_of cfg F) d.
Proof.
  unfold enc_buffer. rewrite Nat2Z.id, copy_payload, take_ge by lia.
  reflexivity.
Qed.

(** A length that fits a byte has an integrity code. *)
Lemma compute_mic_Some a (msg : list Z) (len : Z) :
  0 <= len <= 255 →
  compute_mic env a msg len = Some (mic_code env a msg len).
Proof.
  intros Hlen. unfold mic_code, compute_mic, block_b0.
  replace (is_byte len) with true by (unfold is_byte; lia).
  reflexivity.
Qed.

(** A length that does not has none. *)
Lemma compute_mic_None a (msg : list Z) (len : Z) :
  255 < len → compute_mic env a msg len = None.
Proof.
  intros Hlen. unfold compute_mic, block_b0.
  replace (is_byte len) with false by (unfold is_byte; lia).
  reflexivity.
Qed.

(** The integrity code reads no further than the length it is given. *)
Lemma mic_code_take a (msg : list Z) (len : Z) :
  mic_code env a msg len = mic_code env a (take (Z.to_nat len) msg) len.
Proof.
  unfold mic_code, compute_mic. destruct (block_b0 a len); [|reflexivity].
  rewrite take_take, Nat.min_id. reflexivity.
Qed.

Lemma mic_code_length a msg len :
  (∀ key m, length (aes_cmac env key m) = 16%nat) →
  0 <= len <= 255 →
  length (mic_code env a msg len) = 4%nat.
Proof.
  intros Hcmac Hlen. unfold mic_code, compute_mic, block_b0.
  replace (is_byte len) with true by (unfold is_byte; lia).
  cbn [default from_option id]. rewrite length_take, Hcmac. reflexivity.
Qed.

Lemma mic_code_take_4 a msg len :
  take 4 (mic_code env a msg len) = mic_code env a msg len.
Proof.
  unfold mic_code, compute_mic. destruct (block_b0 a len); [|reflexivity].
  cbn [default from_option id]. rewrite take_take. reflexivity.
Qed.

Lemma mic_buffer_code cfg a0 a1 a2 a3 F dl d :
  slice_to (mic_buffer env cfg a0 a1 a2 a3 F dl d) 4 =
  mic_code env (aes_of cfg F) (pkt_loaded env cfg a0 a1 a2 a3 F dl d) (9 + dl).
Proof.
  unfold mic_buffer, slice_assign, slice_to.
  change (take 0 _) with (@nil Z).
  change (drop _ (replicate (Z.to_nat 4) 0)) with (@nil Z).
  rewrite app_nil_l, app_nil_r.
  apply mic_code_take_4.
Qed.

Lemma pkt_loaded_split cfg a0 a1 a2 a3 F dl d :
  0 <= dl →
  pkt_loaded env cfg a0 a1 a2 a3 F dl d =
  header a0 a1 a2 a3 F
  ++ slice_to (enc_buffer env cfg F dl d) (Z.to_nat dl)
  ++ drop (9 + Z.to_nat dl) (header a0 a1 a2 a3 F ++ replicate 55 0).
Proof.
  intros Hdl. unfold pkt_loaded, slice_assign.
  change (Z.to_nat 9) with 9%nat.
  rewrite take_app_length' by reflexivity.
  replace (9 `max` Z.to_nat (9 + dl))%nat with (9 + Z.to_nat dl)%nat by lia.
  reflexivity.
Qed.

Lemma pkt_buffer_split cfg a0 a1 a2 a3 F dl d :
  0 <= dl →
  pkt_buffer env cfg a0 a1 a2 a3 F dl d =
  take (9 + Z.to_nat dl) (pkt_loaded env cfg a0 a1 a2 a3 F dl d)
  ++ mic_code env (aes_of cfg F) (pkt_loaded env cfg a0 a1 a2 a3 F dl d) (9 + dl)
  ++ drop (13 + Z.to_nat dl) (pkt_loaded env cfg a0 a1 a2 a3 F dl d).
Proof.
  intros Hdl. unfold pkt_buffer, slice_assign.
  rewrite mic_buffer_code.
  replace (Z.to_nat (9 + dl)) with (9 + Z.to_nat dl)%nat by lia.
  replace ((9 + Z.to_nat dl) `max` Z.to_nat (9 + dl + 4))%nat
    with (13 + Z.to_nat dl)%nat by lia.
  reflexivity.
Qed.

(** Whatever the payload and the cipher, offset 8 of the packet buffer holds
    the port byte written by [lora_pkt[8] = 0x01]. *)
Lemma pkt_buffer_port cfg a0 a1 a2 a3 F dl d :
  0 <= dl → pkt_buffer env cfg a0 a1 a2 a3 F dl d !! 8%nat = Some 1.
Proof.
  intros Hdl. rewrite pkt_buffer_split, pkt_loaded_split by done.
  rewrite take_app_add' by reflexivity.
  rewrite <- app_assoc. rewrite lookup_app_l by (rewrite header_length; lia).
  reflexivity.
Qed.

(** With a payload of exactly [dl] bytes, a cipher that keeps the length and
    a length that has an integrity code, the first [9 + dl + 4] bytes are
    header, ciphertext and code. *)
Lemma pkt_buffer_frame cfg a0 a1 a2 a3 F (d : list Z) :
  (∀ key blk, length (aes_block env key blk) = 16%nat) →
  (∀ key m, length (aes_cmac env key m) = 16%nat) →
  (9 + length d <= 255)%nat →
  let enc := encrypt env (aes_of cfg F) d in
  let mic := mic_code env (aes_of cfg F) (header a0 a1 a2 a3 F ++ enc)
               (9 + Z.of_nat (length d)) in
  take (9 + length d + 4)
       (pkt_buffer env cfg a0 a1 a2 a3 F (Z.of_nat (length d)) d)
  = header a0 a1 a2 a3 F ++ enc ++ mic.
Proof.
  intros Hblock Hcmac Hbound enc mic.
  assert (Henc : length enc = length d)
    by (apply encrypt_length, Hblock).
  rewrite pkt_buffer_split by lia.
  set (loaded := pkt_loaded env cfg a0 a1 a2 a3 F (Z.of_nat (length d)) d).
  assert (Hloaded : take (9 + Z.to_nat (Z.of_nat (length d))) loaded
                    = header a0 a1 a2 a3 F ++ enc).
  { subst loaded. rewrite pkt_loaded_split by lia.
    rewrite enc_buffer_whole. fold enc.
    unfold slice_to. rewrite Nat2Z.id, (take_ge enc) by lia.
    rewrite app_assoc. apply take_app_length'.
    rewrite length_app, header_length. lia. }
  rewrite (mic_code_take _ loaded).
  replace (Z.to_nat (9 + Z.of_nat (length d)))
    with (9 + Z.to_nat (Z.of_nat (length d)))%nat by lia.
  rewrite Hloaded. fold mic.
  rewrite !app_assoc. apply take_app_length'.
  rewrite !length_app, header_length, Henc.
  unfold mic. rewrite mic_code_length by (done || lia). lia.
Qed.

End Frame.

(** C1. For a payload of [N] bytes and any frame counter [F], [send_data]
    assembles a packet and is, from there on, the call of [send_packet] on
    that packet with packet length [9 + N + 4].  The first [9 + N + 4] bytes
    of the packet buffer are: the header tag 0x40; the four device-address
    bytes from index 3 down to index 0; the frame-control byte 0; [F & 0xFF]
    and [(F >> 8) & 0xFF]; the port; the [N] bytes of the encrypted payload;
    the 4 bytes of the integrity code computed over the header and the
    encrypted payload.  The length [9 + N] that the integrity code covers is
    within the byte that its leading block has for it. *)
Theorem send_data_frame_layout (env : Env) (fuel : nat) (data : ref)
    (N : nat) (F timeout : Z) (m : machine) (d : list Z) (cfg : TTN) :
  (∀ key blk, length (aes_block env key blk) = 16%nat) →
  (∀ key msg, length (aes_cmac env key msg) = 16%nat) →
  heap m !! data = Some d → length d = N →
  (9 + N <= 255)%nat →
  _ttn_config (self m) = Some cfg →
  length (dev_addr cfg) = 4%nat →
  Forall (λ b, is_byte b = true) (dev_addr cfg) →
  ∃ a0 a1 a2 a3 pkt buf enc mic m',
    dev_addr cfg = [a0; a1; a2; a3] ∧
    send_data_assemble env data (Z.of_nat N) F m
      = (Ret (pkt, 9 + Z.of_nat N + 4), m') ∧
    send_data env fuel data (Z.of_nat N) F timeout m
      = send_packet env fuel pkt (9 + Z.of_nat N + 4) timeout m' ∧
    heap m' !! pkt = Some buf ∧
    length (take (9 + N + 4) buf) = (9 + N + 4)%nat ∧
    take (9 + N + 4) buf =
      [0x40; a3; a2; a1; a0; 0; Z.land F 0xFF; Z.land (Z.shiftr F 8) 0xFF; 0x01]
      ++ enc ++ mic ∧
    enc = encrypt env (aes_of cfg F) d ∧ length enc = N ∧
    compute_mic env (aes_of cfg F)
      ([0x40; a3; a2; a1; a0; 0; Z.land F 0xFF;
        Z.land (Z.shiftr F 8) 0xFF; 0x01] ++ enc) (9 + Z.of_nat N)
      = Some mic ∧
    length mic = 4%nat.
Proof.
  intros Hblock Hcmac Hd HN Hbound Hcfg Hlen Hbytes. subst N.
  destruct (dev_addr cfg) as [|a0 [|a1 [|a2 [|a3 [|]]]]] eqn:Haddr;
    try discriminate Hlen.
  apply Forall_cons in Hbytes as [B0 Hbytes].
  apply Forall_cons in Hbytes as [B1 Hbytes].
  apply Forall_cons in Hbytes as [B2 Hbytes].
  apply Forall_cons in Hbytes as [B3 _].
  pose proof (pkt_buffer_frame env cfg a0 a1 a2 a3 F d Hblock Hcmac Hbound)
    as Hframe.
  cbv zeta in Hframe.
  assert (Henc : length (encrypt env (aes_of cfg F) d) = length d)
    by (apply encrypt_length, Hblock).
  assert (Hrun : send_data_assemble env data (Z.of_nat (length d)) F m
                 = (Ret ((length (heap m) + 1)%nat, 9 + Z.of_nat (length d) + 4),
                    assembled env cfg a0 a1 a2 a3 F (Z.of_nat (length d)) d m)).
  { apply (send_data_assemble_runs env data _ F m d cfg a0 a1 a2 a3);
      try done; try lia; rewrite Haddr; reflexivity. }
  eexists a0, a1, a2, a3, _, _, _, _, _.
  split; [reflexivity|]. split; [exact Hrun|]. split.
  { unfold send_data, bind. rewrite Hrun. reflexivity. }
  split.
  { unfold assembled. cbn [heap with_heap with_self].
    rewrite heapj_lookup. reflexivity. }
  split; [|split; [exact Hframe|]].
  - rewrite Hframe, !length_app, Henc, mic_code_length by (done || lia).
    reflexivity.
  - split; [reflexivity|]. split; [exact Henc|].
    split; [apply compute_mic_Some; lia|].
    apply mic_code_length; [exact Hcmac | lia].
Qed.

(** C10. Every frame that [send_data] hands to [send_packet] carries port 1
    at offset 8. *)
Theorem send_data_port_is_one (env : Env) (data : ref) (dl F : Z)
    (m : machine) (d : list Z) (pkt : ref) (len : Z) (m' : machine) :
  heap m !! data = Some d →
  send_data_assemble env data dl F m = (Ret (pkt, len), m') →
  ∃ buf, heap m' !! pkt = Some buf ∧
         take (Z.to_nat len) buf !! 8%nat = Some 0x01.
Proof.
  intros Hd Hrun.
  destruct (send_data_assemble_Ret env data dl F m d _ _ Hd Hrun)
    as (cfg & a0 & a1 & a2 & a3 & Hdl & _ & _ & _ & _ & _ & _
        & [= -> ->] & ->).
  eexists. split.
  - unfold assembled. cbn [heap with_heap with_self].
    rewrite heapj_lookup. reflexivity.
  - rewrite lookup_take_lt by lia. apply pkt_buffer_port, Hdl.
Qed.

(** ** What a computation leaves alone *)

Create HintDb quiet.

#[local] Instance fixed_preorder : PreOrder fixed.
Proof.
  split.
  - intros m. repeat split; reflexivity.
  - intros m1 m2 m3 (S1 & H1 & T1) (S2 & H2 & T2).
    repeat split; [congruence | congruence | by etrans].
Qed.

#[local] Instance steady_preorder : PreOrder steady.
Proof.
  split.
  - intros m. repeat split; reflexivity.
  - intros m1 m2 m3 (H1 & F1 & T1) (H2 & F2 & T2).
    repeat split; [congruence | congruence | by etrans].
Qed.

Lemma fixed_steady m m' : fixed m m' → steady m m'.
Proof. intros (S & H & T). repeat split; [done | by rewrite S | done]. Qed.

Section Preserves.
Context (R : relation machine) `{!PreOrder R}.

Lemma preserves_ret {A} (a : A) : preserves R (ret a).
Proof. intros m. reflexivity. Qed.

Lemma preserves_raise {A} (e : exn) : preserves R (raise e : M A).
Proof. intros m. reflexivity. Qed.

Lemma preserves_diverge {A} : preserves R (diverge : M A).
Proof. intros m. reflexivity. Qed.

Lemma preserves_bind {A B} (c : M A) (k : A → M B) :
  preserves R c → (∀ a, preserves R (k a)) → preserves R (bind c k).
Proof.
  intros Hc Hk m. unfold bind. specialize (Hc m).
  destruct (c m) as [[a|e|] m1]; cbn in *; [|done..].
  etrans; [exact Hc | apply Hk].
Qed.

Lemma preserves_for_each {A} (xs : list A) (body : A → M unit) :
  (∀ x, preserves R (body x)) → preserves R (for_each xs body).
Proof.
  intros Hbody. induction xs as [|x xs IH]; cbn [for_each].
  - apply preserves_ret.
  - apply preserves_bind; [apply Hbody | intros _; exact IH].
Qed.

End Preserves.

Lemma preserves_fixed_steady {A} (c : M A) :
  preserves fixed c → preserves steady c.
Proof. intros Hc m. apply fixed_steady, Hc. Qed.

Lemma steady_modify_self f :
  (∀ o, frame_counter (f o) = frame_counter o) →
  preserves steady (modify_self f).
Proof. intros Hf m. repeat split; cbn; [apply Hf | reflexivity]. Qed.

#[local] Instance same_plan_preorder : PreOrder same_plan.
Proof.
  split; [by intros m | intros m1 m2 m3 H1 H2]. unfold same_plan in *.
  congruence.
Qed.

Lemma fixed_same_plan {A} (c : M A) :
  preserves fixed c → preserves same_plan c.
Proof. intros Hc m. destruct (Hc m) as (Hs & _). unfold same_plan. by rewrite Hs. Qed.

Lemma same_plan_modify_self f :
  (∀ o, _frequencies (f o) = _frequencies o) →
  preserves same_plan (modify_self f).
Proof. intros Hf m. apply Hf. Qed.

(** Goes through a computation statement by statement; what is left are the
    statements that do not keep the relation. *)
Ltac keeps :=
  repeat lazymatch goal with
    | |- preserves _ (bind _ _) =>
        apply preserves_bind; [apply _ | | intros ?]
    | |- preserves _ (for_each _ _) =>
        apply preserves_for_each; [apply _ | intros ?]
    | |- preserves _ (ret _) => apply preserves_ret, _
    | |- preserves _ (raise _) => apply preserves_raise, _
    | |- preserves _ (match ?x with _ => _ end) => destruct x
    | |- preserves _ (set_channel _) => unfold set_channel
    | |- preserves steady (modify_self _) =>
        apply steady_modify_self; intros []; reflexivity
    | |- preserves same_plan (modify_self _) =>
        apply same_plan_modify_self; intros []; reflexivity
    | |- preserves fixed _ => solve [auto with quiet]
    | |- preserves steady _ =>
        apply preserves_fixed_steady; solve [auto with quiet]
    | |- preserves same_plan _ =>
        apply fixed_same_plan; solve [auto with quiet]
    end.

Lemma suffix_cons_r' {A} (x : A) (l : list A) : l `suffix_of` x :: l.
Proof. by exists [x]. Qed.

Section Quiet.
Context (env : Env).

Ltac fixed_now :=
  intros m; repeat split; cbn;
  first [reflexivity | apply suffix_cons_r'].

Lemma fixed_emit e : preserves fixed (emit e).
Proof. fixed_now. Qed.

Lemma fixed_get_self : preserves fixed get_self.
Proof. fixed_now. Qed.

Lemma fixed_get_BUFFER : preserves fixed get_BUFFER.
Proof. fixed_now. Qed.

Lemma fixed_set_BUFFER i v : preserves fixed (set_BUFFER i v).
Proof.
  unfold set_BUFFER. destruct v as [x|]; [|apply preserves_raise, _].
  destruct (negb (is_byte x)); [apply preserves_raise, _|].
  fixed_now.
Qed.

Lemma fixed_write_u8 address val : preserves fixed (_write_u8 address val).
Proof.
  unfold _write_u8, device_write.
  repeat (apply preserves_bind; [apply _ | | intros ?]);
    auto using fixed_set_BUFFER, fixed_get_BUFFER, fixed_emit.
Qed.

Lemma fixed_randint lo hi : preserves fixed (randint env lo hi).
Proof. fixed_now. Qed.

Lemma fixed_monotonic : preserves fixed (monotonic env).
Proof. fixed_now. Qed.

Lemma fixed_irq_value : preserves fixed (irq_value env).
Proof.
  intros m. unfold irq_value. destruct (_irq (self m)); [|reflexivity].
  repeat split; cbn; apply suffix_cons_r'.
Qed.

Lemma fixed_load r : preserves fixed (load r).
Proof. intros m. unfold load. destruct (heap m !! r); reflexivity. Qed.

Lemma fixed_getitem r i : preserves fixed (getitem r i).
Proof.
  unfold getitem. apply preserves_bind; [apply _ | apply fixed_load |].
  intros b. destruct (b !! i); [apply preserves_ret | apply preserves_raise];
    apply _.
Qed.

Lemma fixed_frequency channel : preserves fixed (frequency channel).
Proof.
  unfold frequency. apply preserves_bind; [apply _ | apply fixed_get_self |].
  intros o. destruct (_frequencies o) as [plan|]; [|apply preserves_raise, _].
  destruct (plan_lookup plan channel);
    [apply preserves_ret | apply preserves_raise]; apply _.
Qed.

Lemma fixed_poll fuel start timeout : preserves fixed (poll env fuel start timeout).
Proof.
  induction fuel as [|fuel IH]; cbn [poll]; [apply preserves_diverge, _|].
  apply preserves_bind; [apply _ | apply fixed_irq_value |].
  intros [|]; [apply preserves_ret, _|].
  apply preserves_bind; [apply _ | apply fixed_monotonic |].
  intros now. destruct (now - start >=? timeout);
    [apply preserves_ret, _ | exact IH].
Qed.

Hint Resolve fixed_emit fixed_get_self fixed_write_u8 fixed_randint
  fixed_monotonic fixed_irq_value fixed_getitem fixed_frequency fixed_poll
  : quiet.

(** [send_packet] never touches a [bytearray] or the frame counter. *)
Lemma steady_send_packet fuel pkt len timeout :
  preserves steady (send_packet env fuel pkt len timeout).
Proof.
  unfold send_packet.
  keeps.
Qed.

End Quiet.

#[local] Hint Resolve fixed_emit fixed_get_self fixed_write_u8 fixed_randint
  fixed_monotonic fixed_irq_value fixed_getitem fixed_frequency fixed_poll
  : quiet.

Section Effects.
Context (env : Env).

(** On every path through its first part, [send_data] only adds buffers to
    the store, and sets the frame counter to the value it was given as soon
    as the length has been accepted. *)
Lemma send_data_assemble_effect data dl F m d :
  heap m !! data = Some d →
  (∃ L, heap (send_data_assemble env data dl F m).2 = heap m ++ L) ∧
  frame_counter (self (send_data_assemble env data dl F m).2)
  = (if dl <? 0 then frame_counter (self m) else Some F).
Proof.
  destruct m as [o B H T n1 n2 n3 n4]; cbn [heap self].
  intros Hd. unfold send_data_assemble.
  assert (Hnil : ∃ L : list (list Z), H = H ++ L)
    by (exists []; by rewrite app_nil_r).
  destruct (dl <? 0) eqn:Hdl; [run; by split|].
  destruct (_ttn_config o) as [cfg|] eqn:Hcfg; [|run; split; by eauto].
  destruct (dev_addr cfg !! 3%nat) as [a3|] eqn:A3; [|run; split; by eauto].
  destruct (is_byte a3) eqn:B3; [|run; split; by eauto].
  destruct (dev_addr cfg !! 2%nat) as [a2|] eqn:A2; [|run; split; by eauto].
  destruct (is_byte a2) eqn:B2; [|run; split; by eauto].
  destruct (dev_addr cfg !! 1%nat) as [a1|] eqn:A1; [|run; split; by eauto].
  destruct (is_byte a1) eqn:B1; [|run; split; by eauto].
  destruct (dev_addr cfg !! 0%nat) as [a0|] eqn:A0; [|run; split; by eauto].
  destruct (is_byte a0) eqn:B0; [|run; split; by eauto].
  destruct (is_byte (9 + dl)) eqn:Hb; run; split; by eauto.
Qed.

End Effects.

(** C9. A call of [send_data] changes neither the caller's payload buffer
    (nor any other buffer that existed before the call): the payload is
    copied into a fresh buffer, and only that copy is encrypted.  The frame
    counter is not advanced either: the only assignment to the object's
    counter stores the value the caller passed. *)
Theorem send_data_leaves_payload_and_counter (env : Env) (fuel : nat)
    (data : ref) (dl F timeout : Z) (m : machine) (d : list Z) :
  heap m !! data = Some d →
  let m' := (send_data env fuel data dl F timeout m).2 in
  heap m' !! data = Some d ∧
  (∀ r b, heap m !! r = Some b → heap m' !! r = Some b) ∧
  frame_counter (self m') = (if dl <? 0 then frame_counter (self m) else Some F).
Proof.
  intros Hd m'.
  destruct (send_data_assemble_effect env data dl F m d Hd) as [[L HL] Hfc].
  assert (Hm' : heap m' = heap m ++ L ∧
                frame_counter (self m') =
                (if dl <? 0 then frame_counter (self m) else Some F)).
  { subst m'. unfold send_data, bind.
    destruct (send_data_assemble env data dl F m) as [[[pkt len]|e|] m1];
      cbn [snd] in *; [|done..].
    destruct (steady_send_packet env fuel pkt len timeout m1) as (Hh & Hf & _).
    cbn [fst snd]. by rewrite Hh, Hf. }
  destruct Hm' as [Hheap Hcounter].
  split; [|split; [|exact Hcounter]].
  - rewrite Hheap. by apply lookup_app_l_Some.
  - intros r b Hr. rewrite Hheap. by apply lookup_app_l_Some.
Qed.

(** ** The two phases of [send_packet] *)

Section Phases.
Context (env : Env).

Lemma send_packet_phases fuel pkt len timeout m :
  send_packet env fuel pkt len timeout m =
  bind (send_packet_program env pkt len)
       (λ _, send_packet_transmit env fuel timeout) m.
Proof.
  unfold send_packet, send_packet_program, bind.
  repeat match goal with
         | |- context [match ?c ?x with _ => _ end] =>
             lazymatch type of (c x) with
             | (outcome _ * machine)%type =>
                 destruct (c x) as [[?|?|] ?]; try reflexivity
             end
         end.
Qed.

End Phases.

(** ** Which exceptions a computation can raise *)

Section Clean.
Context (env : Env).
Context (e0 : exn) (He0 : e0 = SendTimeout ∨ e0 = UnsupportedRegion).

Lemma clean_ret {A} (a : A) : clean e0 (ret a).
Proof. intros m. exact I. Qed.

Lemma clean_raise {A} (e : exn) : e ≠ e0 → clean e0 (raise e : M A).
Proof. intros He m. exact He. Qed.

Lemma clean_bind {A B} (c : M A) (k : A → M B) :
  clean e0 c → (∀ a, clean e0 (k a)) → clean e0 (bind c k).
Proof.
  intros Hc Hk m. unfold bind. specialize (Hc m).
  destruct (c m) as [[a|e|] m1]; cbn in *; [apply Hk | done | done].
Qed.

Lemma clean_for_each {A} (xs : list A) (body : A → M unit) :
  (∀ x, clean e0 (body x)) → clean e0 (for_each xs body).
Proof.
  intros Hbody. induction xs as [|x xs IH]; cbn [for_each].
  - apply clean_ret.
  - apply clean_bind; [apply Hbody | intros _; exact IH].
Qed.

Lemma clean_total {A} (c : M A) : (∀ m, ∃ a, (c m).1 = Ret a) → clean e0 c.
Proof. intros Hc m. destruct (Hc m) as [a ->]. exact I. Qed.

Ltac other_error := destruct He0 as [-> | ->]; discriminate.

Lemma clean_set_BUFFER i v : clean e0 (set_BUFFER i v).
Proof.
  unfold set_BUFFER. destruct v as [x|]; [|apply clean_raise; other_error].
  destruct (negb (is_byte x)); [apply clean_raise; other_error|].
  apply clean_total. by eexists.
Qed.

Lemma clean_write_u8 address val : clean e0 (_write_u8 address val).
Proof.
  unfold _write_u8.
  repeat (apply clean_bind; [|intros ?]); try apply clean_set_BUFFER;
    apply clean_total; by eexists.
Qed.

Lemma clean_getitem r i : clean e0 (getitem r i).
Proof.
  intros m. unfold getitem, bind, load.
  destruct (heap m !! r) as [b|]; [|cbn; other_error].
  destruct (b !! i); [done | cbn; other_error].
Qed.

Lemma clean_frequency channel : clean e0 (frequency channel).
Proof.
  intros m. unfold frequency, bind, get_self.
  destruct (_frequencies (self m)) as [plan|]; [|cbn; other_error].
  destruct (plan_lookup plan channel); [done | cbn; other_error].
Qed.

Lemma clean_set_channel channel : clean e0 (set_channel channel).
Proof.
  unfold set_channel. apply clean_bind; [apply clean_frequency|].
  intros f. apply clean_total. by eexists.
Qed.

End Clean.

Ltac cleans He0 :=
  repeat lazymatch goal with
    | |- clean _ (bind _ _) => apply clean_bind; [|intros ?]
    | |- clean _ (for_each _ _) => apply clean_for_each; intros ?
    | |- clean _ (_write_u8 _ _) => by apply clean_write_u8
    | |- clean _ (set_channel _) => by apply clean_set_channel
    | |- clean _ (getitem _ _) => by apply clean_getitem
    | |- clean _ (frequency _) => by apply clean_frequency
    | |- clean _ (ret _) => apply clean_ret
    | |- clean _ (match ?x with _ => _ end) => destruct x
    | |- clean _ _ => apply clean_total; intros ?; by eexists
    end.

Section CleanProgram.
Context (env : Env).

Lemma clean_send_packet_program pkt len :
  clean SendTimeout (send_packet_program env pkt len).
Proof.
  assert (He0 : SendTimeout = SendTimeout ∨ SendTimeout = UnsupportedRegion)
    by (by left).
  unfold send_packet_program.
  cleans He0.
Qed.

Lemma steady_send_packet_program pkt len :
  preserves steady (send_packet_program env pkt len).
Proof.
  unfold send_packet_program.
  keeps.
Qed.

End CleanProgram.

(** ** The wait for TxDone and the return to sleep *)

Section Transmit.
Context (env : Env).

(** When the wait ends, it has only read DIO0 and the clock; it ends on a
    high DIO0 with [timed_out] false, or on a clock reading at least
    [timeout] after [start] with [timed_out] true.  The one exception it can
    raise is that of reading DIO0 on an object whose [_irq] is [None], at
    the first round, with nothing read. *)
Lemma poll_spec fuel start timeout : ∀ m,
  match poll env fuel start timeout m with
  | (Ret timed_out, m') =>
      is_Some (_irq (self m)) ∧
      ∃ waits,
        trace m' = waits ++ trace m ∧ Forall is_wait waits ∧
        if timed_out
        then ∃ now w, waits = Monotonic now :: w ∧ timeout <= now - start
        else ∃ w, waits = IrqValue true :: w
  | (Raise e, m') => e = AttributeError ∧ _irq (self m) = None ∧ m' = m
  | (Diverge, _) => True
  end.
Proof.
  induction fuel as [|fuel IH]; intros m; [exact I|].
  cbn [poll]. unfold bind at 1. unfold irq_value at 1.
  destruct (_irq (self m)) as [p|] eqn:Hpin; [|done].
  destruct (irq_level env (n_irq m)) eqn:Hirq.
  { split; [by eexists|]. exists [IrqValue true].
    split; [reflexivity|]. split; [repeat constructor|]. by eexists. }
  unfold bind at 1. unfold monotonic at 1.
  set (now := clock env _).
  destruct (now - start >=? timeout) eqn:Hlate.
  { split; [by eexists|]. exists [Monotonic now; IrqValue false].
    split; [reflexivity|]. split; [repeat constructor|].
    exists now, [IrqValue false]. split; [done|]. lia. }
  match goal with |- context [poll env fuel start timeout ?x] =>
    specialize (IH x); destruct (poll env fuel start timeout x) as [[b|e|] m']
  end; try done.
  - destruct IH as (_ & waits & Htrace & Hwaits & Hend).
    split; [by eexists|].
    exists (waits ++ [Monotonic now; IrqValue false]). split; [|split].
    + rewrite Htrace, <- app_assoc. reflexivity.
    + apply Forall_app. split; [done|]. repeat constructor.
    + destruct b.
      * destruct Hend as (t & w & -> & Ht). eauto.
      * destruct Hend as (w & ->). eauto.
  - destruct IH as (_ & Hnone & _). cbn [self] in Hnone. congruence.
Qed.

(** The wait ends as soon as DIO0 is read high or a clock reading reaches
    the timeout: [k + 1] iterations are enough if that happens at the
    [k]-th reading from now. *)
Lemma poll_returns start timeout : ∀ k m,
  is_Some (_irq (self m)) →
  irq_level env (n_irq m + k) = true ∨
  timeout <= clock env (n_clock m + k) - start →
  ∃ timed_out m', poll env (S k) start timeout m = (Ret timed_out, m').
Proof.
  induction k as [|k IH]; intros m [p Hpin] Hk; cbn [poll];
    unfold bind at 1; unfold irq_value at 1; rewrite Hpin;
    (destruct (irq_level env (n_irq m)) eqn:Hirq; [by eauto|]);
    unfold bind at 1; unfold monotonic at 1; cbn [n_clock];
    (destruct (clock env (n_clock m) - start >=? timeout) eqn:Hlate;
       [by eauto|]).
  - rewrite !Nat.add_0_r in Hk. rewrite Z.geb_leb, Z.leb_gt in Hlate.
    destruct Hk as [Hk|Hk]; [congruence|lia].
  - apply IH; [by exists p|]. cbn [n_irq n_clock].
    rewrite <- !Nat.add_succ_comm in Hk. exact Hk.
Qed.

(** The last lines of [send_packet]: Transmit is written and the clock
    read; then either the wait ends and Sleep is written, or, on an object
    whose [_irq] is [None], the first reading of DIO0 fails and nothing
    more is done. *)
Lemma send_packet_transmit_spec fuel timeout m :
  match send_packet_transmit env fuel timeout m with
  | (Diverge, _) => True
  | (Raise AttributeError, m') =>
      _irq (self m) = None ∧
      ∃ start,
        trace m' = Monotonic start :: SpiWrite [0x81; _MODE_TX] :: trace m
  | (o, m') =>
      is_Some (_irq (self m)) ∧
      ∃ start waits,
        trace m' = SpiWrite [0x81; _MODE_SLEEP] :: waits
                   ++ Monotonic start :: SpiWrite [0x81; _MODE_TX] :: trace m ∧
        Forall is_wait waits ∧
        match o with
        | Ret _ => ∃ w, waits = IrqValue true :: w
        | Raise e =>
            e = SendTimeout ∧
            ∃ now w, waits = Monotonic now :: w ∧ timeout <= now - start
        | Diverge => False
        end
  end.
Proof.
  unfold send_packet_transmit.
  unfold bind at 1. rewrite write_u8_runs by reflexivity.
  unfold bind at 1. unfold monotonic at 1.
  set (start := clock env _).
  unfold bind at 1.
  match goal with |- context [poll env fuel start timeout ?x] =>
    pose proof (poll_spec fuel start timeout x) as Hpoll;
    destruct (poll env fuel start timeout x) as [[b|e|] m']
  end; try done.
  - destruct Hpoll as (Hpin & waits & Htrace & Hwaits & Hend).
    unfold bind at 1. rewrite write_u8_runs by reflexivity.
    destruct b; cbn; (split; [exact Hpin|]); exists start, waits;
      rewrite Htrace; cbn; eauto.
  - destruct Hpoll as (-> & Hpin & ->). split; [exact Hpin|]. by exists start.
Qed.

End Transmit.

(** C3, as the code has it.  Whenever [send_packet] returns normally or
    fails with the timeout error, the last thing it did on the bus was to
    write Sleep to the operating-mode register, after the wait that followed
    the switch to Transmit: the wait ended on a high DIO0 when the call
    returns normally, and on a clock reading at least [timeout] after its
    start when the call fails with the timeout error. *)
Theorem send_packet_sleeps_after_wait (env : Env) (fuel : nat) (pkt : ref)
    (len timeout : Z) (m : machine) (o : outcome unit) (m' : machine) :
  send_packet env fuel pkt len timeout m = (o, m') →
  o = Ret tt ∨ o = Raise SendTimeout →
  ∃ start waits before,
    trace m' = SpiWrite [0x81; _MODE_SLEEP] :: waits
               ++ Monotonic start :: SpiWrite [0x81; _MODE_TX] :: before ∧
    trace m `suffix_of` before ∧
    Forall is_wait waits ∧
    match o with
    | Ret _ => ∃ w, waits = IrqValue true :: w
    | _ => ∃ now w, waits = Monotonic now :: w ∧ timeout <= now - start
    end.
Proof.
  intros Hrun Ho. rewrite send_packet_phases in Hrun. unfold bind in Hrun.
  pose proof (clean_send_packet_program env pkt len m) as Hclean.
  pose proof (steady_send_packet_program env pkt len m) as (_ & _ & Hpre).
  destruct (send_packet_program env pkt len m) as [[[]|e|] m1];
    cbn [fst snd] in Hclean, Hpre.
  - pose proof (send_packet_transmit_spec env fuel timeout m1) as Hspec.
    rewrite Hrun in Hspec.
    destruct Ho as [-> | ->];
      destruct Hspec as (_ & start & waits & Ht & Hw & Hend);
      exists start, waits, (trace m1); repeat split; try done.
    by destruct Hend as [_ Hend].
  - injection Hrun as <- <-. destruct Ho as [Ho|Ho]; [done|].
    injection Ho as ->. done.
  - injection Hrun as <- <-. by destruct Ho.
Qed.

(** ** Channel selection in multi-channel mode *)

Section Channel.
Context (env : Env).

Lemma preserves_fixed_transmit fuel timeout :
  preserves fixed (send_packet_transmit env fuel timeout).
Proof.
  unfold send_packet_transmit.
  keeps.
Qed.

Lemma randint_0_7 (e : Z) : 0 <= 0 + e `mod` (7 - 0 + 1) < 8.
Proof.
  change (7 - 0 + 1) with 8. pose proof (Z.mod_pos_bound e 8). lia.
Qed.

Lemma plan_lookup_drawn (plan : list freq) (e : Z) :
  (8 ≤ length plan)%nat →
  ∃ f, plan !! Z.to_nat (e `mod` 8) = Some f ∧
       plan_lookup plan (0 + e `mod` (7 - 0 + 1)) = Some f.
Proof.
  intros Hlen. pose proof (randint_0_7 e) as Hr.
  change (0 + e `mod` (7 - 0 + 1)) with (e `mod` 8) in *.
  destruct (lookup_lt_is_Some_2 plan (Z.to_nat (e `mod` 8))) as [f Hf]; [lia|].
  exists f. split; [exact Hf|].
  unfold plan_lookup. by rewrite (proj2 (Z.ltb_ge _ 0)) by lia.
Qed.

Ltac choose_channel Hch Hplan Hlook :=
  unfold send_packet_program;
  rewrite run_write_u8 by reflexivity;
  rewrite run_emit;
  rewrite run_write_u8 by reflexivity;
  rewrite run_get_self; tidy; rewrite Hch;
  rewrite ?bind_assoc; unfold bind at 1, randint at 1; tidy;
  rewrite ?bind_assoc, run_modify_self; tidy;
  rewrite ?bind_assoc, run_frequency; tidy; rewrite Hplan, Hlook;
  rewrite ?bind_assoc, run_modify_self; tidy;
  rewrite ?bind_assoc, run_frequency; tidy; rewrite Hplan, Hlook;
  rewrite ?bind_assoc, run_modify_self; tidy;
  rewrite ?bind_assoc, run_frequency; tidy; rewrite Hplan, Hlook;
  rewrite ?bind_assoc, run_modify_self; tidy.

Ltac rest_is_fixed := keeps.

(** In multi-channel mode with a plan of at least eight entries, the first
    phase draws an index below 8 and stores that entry of the plan in the
    frequency attributes. *)
Lemma program_chooses_channel pkt len m plan f :
  _channel (self m) = None →
  _frequencies (self m) = Some plan →
  plan_lookup plan (0 + entropy env (n_rand m) `mod` (7 - 0 + 1)) = Some f →
  self (send_packet_program env pkt len m).2
  = set_rfm (Some f.1.1) (Some f.1.2) (Some f.2)
      (set_tx_random (Some (entropy env (n_rand m) `mod` 8)) (self m)).
Proof.
  intros Hch Hplan Hlook.
  assert (∃ (rest : M unit) m5,
            send_packet_program env pkt len m = rest m5 ∧
            preserves fixed rest ∧
            self m5 = set_rfm (Some f.1.1) (Some f.1.2) (Some f.2)
                        (set_tx_random (Some (entropy env (n_rand m) `mod` 8))
                           (self m)))
    as (rest & m5 & -> & Hrest & Hself).
  { destruct m as [o B H T n1 n2 n3 n4]; cbn [self n_rand trace] in *.
    choose_channel Hch Hplan Hlook.
    eexists _, _. split; [reflexivity|]. split; [|reflexivity].
    rest_is_fixed. }
  destruct (Hrest m5) as (Hs & _). by rewrite Hs.
Qed.

(** When moreover the entries of the plan are bytes, it then writes the
    chosen entry to the three FRF registers. *)
Lemma program_writes_channel pkt len m plan f :
  _channel (self m) = None →
  _frequencies (self m) = Some plan →
  plan_lookup plan (0 + entropy env (n_rand m) `mod` (7 - 0 + 1)) = Some f →
  is_byte f.1.1 = true → is_byte f.1.2 = true → is_byte f.2 = true →
  ∃ after,
    trace (send_packet_program env pkt len m).2
    = after ++ SpiWrite [0x88; f.2] :: SpiWrite [0x87; f.1.2]
        :: SpiWrite [0x86; f.1.1]
        :: Randint (entropy env (n_rand m) `mod` 8)
        :: SpiWrite [0xC0; 0x40] :: Delay 10000 :: SpiWrite [0x81; 0x81]
        :: trace m.
Proof.
  intros Hch Hplan Hlook Bmsb Bmid Blsb.
  assert (∃ (rest : M unit) m5,
            send_packet_program env pkt len m = rest m5 ∧
            preserves fixed rest ∧
            trace m5 = SpiWrite [0x88; f.2] :: SpiWrite [0x87; f.1.2]
              :: SpiWrite [0x86; f.1.1]
              :: Randint (entropy env (n_rand m) `mod` 8)
              :: SpiWrite [0xC0; 0x40] :: Delay 10000 :: SpiWrite [0x81; 0x81]
              :: trace m)
    as (rest & m5 & -> & Hrest & Htrace).
  { destruct m as [o B H T n1 n2 n3 n4]; cbn [self n_rand trace] in *.
    choose_channel Hch Hplan Hlook.
    rewrite run_get_self. tidy. cbn [for_each]. tidy.
    rewrite ?bind_assoc, run_write_u8 by done. tidy.
    rewrite ?bind_assoc, run_write_u8 by done. tidy.
    rewrite ?bind_assoc, run_write_u8 by done. tidy.
    eexists _, _. split; [reflexivity|]. split; [|reflexivity].
    rest_is_fixed. }
  destruct (Hrest m5) as (_ & _ & [after Ht]).
  exists after. by rewrite Ht, Htrace.
Qed.

End Channel.

(** C7, as the code has it.  In multi-channel mode the channel index is drawn
    from 0..7 whatever the plan, so it is within the plan whenever the plan
    has at least eight entries.  The entry at that index is then stored in
    the frequency attributes and, its three parts being bytes, written to the
    registers FRF_MSB, FRF_MID, FRF_LSB for this send. *)
Theorem multi_channel_frequency_in_plan (env : Env) (fuel : nat) (pkt : ref)
    (len timeout : Z) (m : machine) (plan : list freq) :
  _channel (self m) = None →
  _frequencies (self m) = Some plan →
  (8 ≤ length plan)%nat →
  let r := entropy env (n_rand m) `mod` 8 in
  let m' := (send_packet env fuel pkt len timeout m).2 in
  ∃ f,
    (Z.to_nat r < length plan)%nat ∧ plan !! Z.to_nat r = Some f ∧
    _tx_random (self m') = Some r ∧
    (_rfm_msb (self m'), _rfm_mid (self m'), _rfm_lsb (self m'))
      = (Some f.1.1, Some f.1.2, Some f.2) ∧
    (is_byte f.1.1 = true → is_byte f.1.2 = true → is_byte f.2 = true →
     ∃ after,
       trace m' = after ++ SpiWrite [0x88; f.2] :: SpiWrite [0x87; f.1.2]
                    :: SpiWrite [0x86; f.1.1] :: Randint r
                    :: SpiWrite [0xC0; 0x40] :: Delay 10000
                    :: SpiWrite [0x81; 0x81] :: trace m).
Proof.
  intros Hch Hplan Hlen r m'.
  destruct (plan_lookup_drawn plan (entropy env (n_rand m)) Hlen)
    as (f & Hf & Hlook).
  pose proof (program_chooses_channel env pkt len m plan f Hch Hplan Hlook)
    as Hself.
  pose proof (program_writes_channel env pkt len m plan f Hch Hplan Hlook)
    as Hwrites.
  assert (Hm' : self m' = self (send_packet_program env pkt len m).2 ∧
                trace (send_packet_program env pkt len m).2
                  `suffix_of` trace m').
  { subst m'. rewrite send_packet_phases. unfold bind.
    destruct (send_packet_program env pkt len m) as [[[]|e|] m1];
      cbn [snd]; [|done..].
    destruct (preserves_fixed_transmit env fuel timeout m1) as (Hs & _ & Ht).
    done. }
  destruct Hm' as [Hs [later Ht]].
  exists f. split; [by apply lookup_lt_Some in Hf|]. split; [exact Hf|].
  rewrite Hs, Hself. split; [reflexivity|]. split; [reflexivity|].
  intros Bmsb Bmid Blsb.
  destruct (Hwrites Bmsb Bmid Blsb) as [after Hafter].
  exists (later ++ after). by rewrite Ht, Hafter, <- app_assoc.
Qed.

(** ** Construction *)

Section Init.
Context (env : Env).

Lemma init_rest_same_plan (channel : option Z) (ttn_config : TTN)
    (rest : M unit) :
  rest =
    (modify_self (set_channel_attr channel);;
     r ← randint env 0 7;
     modify_self (set_tx_random (Some r));;
     match channel with
     | Some c => set_channel c
     | None => ret tt
     end;;
     modify_self (set_frame_counter (Some 0));;
     for_each [ (_REG_OPERATING_MODE, _MODE_SLEEP);
                (_REG_OPERATING_MODE, _MODE_LORA);
                (_REG_PA_CONFIG, 0xFF);
                (_REG_PREAMBLE_DETECT, 0x25);
                (_REG_PREAMBLE_MSB, 0x00);
                (_REG_PREAMBLE_LSB, 0x08);
                (_REG_MODEM_CONFIG, 0x0C);
                (_REG_TIMER1_COEF, 0x34);
                (_REG_NODE_ADDR, 0x27);
                (_REG_IMAGE_CAL, 0x1D);
                (_REG_RSSI_CONFIG, 0x80);
                (_REG_RSSI_COLLISION, 0x00) ]
              (λ pair, _write_u8 pair.1 (Some pair.2));;
     modify_self (set_ttn_config (Some ttn_config)))%M →
  preserves same_plan rest ∧ clean UnsupportedRegion rest.
Proof.
  intros ->.
  assert (He0 : UnsupportedRegion = SendTimeout
                ∨ UnsupportedRegion = UnsupportedRegion) by (by right).
  split.
  - keeps.
  - cleans He0.
Qed.

(** With the expected version on the bus, [__init__] either stops at the
    choice of the plan, or goes on from there with the plan chosen. *)
Lemma init_reaches_plan ttn_config channel m :
  miso env (n_miso m) = 18 →
  let m5 := mkMachine unconfigured (18, (_BUFFER m).2) (heap m)
              (reset_and_probe ++ trace m)
              (n_miso m + 1) (n_irq m) (n_clock m) (n_rand m) in
  if supported_region (country ttn_config)
  then ∃ rest,
         __init__ env ttn_config channel m
         = rest (with_self (set_frequencies
                              (Some (region_plan env (country ttn_config)))) m5)
         ∧ preserves same_plan rest ∧ clean UnsupportedRegion rest
  else __init__ env ttn_config channel m = (Raise UnsupportedRegion, m5).
Proof.
  intros Hversion. destruct m as [o B H T n1 n2 n3 n4]; cbn [n_miso] in *.
  unfold __init__.
  do 12 (step; tidy). rewrite Hversion.
  step; tidy.
  change (negb (18 =? 18)) with false. cbv iota.
  do 3 (step; tidy). rewrite default_datarate. tidy.
  unfold supported_region, region_plan, country.
  destruct (str_in "US" (region ttn_config));
    [|destruct (String.eqb (region ttn_config) "AS");
      [|destruct (String.eqb (region ttn_config) "AU");
        [|destruct (String.eqb (region ttn_config) "EU");
          [|destruct (String.eqb (region ttn_config) "CN")]]]];
    cbn [orb]; cbv iota; step; tidy; try reflexivity;
    (eexists; split; [reflexivity|]; eapply init_rest_same_plan; reflexivity).
Qed.

End Init.

(** What [__init__] does with the region code, branch by branch.  With the
    radio answering the version check, the chain of tests ends in a
    frequency plan when the first test, a substring test for "US", or one of
    the four equality tests with "AS", "AU", "EU", "CN" succeeds.  For every
    other code construction fails with the unsupported-region error, and at
    that point no plan, channel, random channel index, frequency, frame
    counter or credentials are set on the object, no random number has been
    drawn and nothing has been written to the radio beyond the address of
    the version register. *)
Theorem init_region_selection (env : Env) (ttn_config : TTN)
    (channel : option Z) (m : machine) :
  miso env (n_miso m) = 18 →
  let res := __init__ env ttn_config channel m in
  if supported_region (country ttn_config)
  then res.1 ≠ Raise UnsupportedRegion ∧
       _frequencies (self res.2)
       = Some (region_plan env (country ttn_config))
  else res.1 = Raise UnsupportedRegion ∧
       self res.2 = unconfigured ∧
       n_rand res.2 = n_rand m ∧
       trace res.2 = reset_and_probe ++ trace m.
Proof.
  intros Hversion res. subst res.
  pose proof (init_reaches_plan env ttn_config channel m Hversion) as Hinit.
  cbv zeta in Hinit.
  destruct (supported_region (country ttn_config)).
  - destruct Hinit as (rest & -> & Hplan & Hclean).
    match goal with |- context [rest ?m5] =>
      specialize (Hplan m5); specialize (Hclean m5);
      destruct (rest m5) as [[[]|e|] m6]
    end; cbn [fst snd] in *; unfold same_plan in Hplan; rewrite Hplan;
      split; try done.
    intros [= ->]. done.
  - rewrite Hinit. done.
Qed.

(** ** Data rate *)

(** C5. A name that is not in the table makes [set_datarate] fail with the
    unsupported-datarate error and leaves the machine, and so the three
    data-rate attributes, as it was; a name in the table sets the three
    attributes to the table's triple, and nothing else. *)
Theorem set_datarate_all_or_nothing (datarate : string) (m : machine) :
  match data_rates !! datarate with
  | None => set_datarate datarate m = (Raise UnsupportedDatarate, m)
  | Some (sf, bw, cfg) =>
      ∃ m', set_datarate datarate m = (Ret tt, m') ∧
            (_sf (self m'), _bw (self m'), _modemcfg (self m'))
              = (Some sf, Some bw, Some cfg) ∧
            set_rate (_sf (self m)) (_bw (self m)) (_modemcfg (self m))
                     (self m') = self m ∧
            with_self (λ _, self m) m' = m
  end.
Proof.
  unfold set_datarate.
  destruct (data_rates !! datarate) as [[[sf bw] cfg]|]; [|reflexivity].
  eexists. split; [reflexivity|].
  destruct m as [[] B H T n1 n2 n3 n4]. repeat split.
Qed.

(** The names in the table are the seven profiles of the source. *)
Lemma data_rates_names (datarate : string) :
  is_Some (data_rates !! datarate) ↔
  datarate ∈ [ "SF7BW125"; "SF7BW250"; "SF8BW125"; "SF9BW125"; "SF10BW125";
               "SF11BW125"; "SF12BW125" ]%string.
Proof.
  unfold data_rates. rewrite <- elem_of_dom, dom_list_to_map_L.
  rewrite elem_of_list_to_set. reflexivity.
Qed.

(** ** Register protocol *)

Lemma read_address_bit (address : Z) : Z.testbit (Z.land address 0x7F) 7 = false.
Proof. rewrite Z.land_spec. apply andb_false_r. Qed.

Lemma write_address_bit (address : Z) : Z.testbit (Z.lor address 0x80) 7 = true.
Proof. rewrite Z.lor_spec. apply orb_true_r. Qed.

Section Registers.
Context (env : Env).

(** The only bytes [_read_into] sends are the address with bit 7 cleared. *)
Lemma read_into_sends address buf len m :
  ∃ new, trace (_read_into env address buf len m).2 = new ++ trace m ∧
         ∀ bytes, SpiWrite bytes ∈ new → bytes = [Z.land address 0x7F].
Proof.
  assert (Hnone : ∃ new : list event, trace m = new ++ trace m ∧
            ∀ bytes, SpiWrite bytes ∈ new → bytes = [Z.land address 0x7F]).
  { exists []. split; [reflexivity|]. intros bytes Hin. by apply elem_of_nil in Hin. }
  assert (Hsent0 : ∀ T, T = SpiWrite [Z.land address 0x7F] :: trace m →
            ∃ new : list event, T = new ++ trace m ∧
              ∀ bytes, SpiWrite bytes ∈ new → bytes = [Z.land address 0x7F]).
  { intros T ->. exists [SpiWrite [Z.land address 0x7F]].
    split; [reflexivity|].
    intros bytes Hin%list_elem_of_singleton. by injection Hin. }
  assert (Hsent1 : ∀ bs T,
            T = SpiRead bs :: SpiWrite [Z.land address 0x7F] :: trace m →
            ∃ new : list event, T = new ++ trace m ∧
              ∀ bytes, SpiWrite bytes ∈ new → bytes = [Z.land address 0x7F]).
  { intros bs T ->. exists [SpiRead bs; SpiWrite [Z.land address 0x7F]].
    split; [reflexivity|].
    intros bytes [Hin|Hin%list_elem_of_singleton]%elem_of_cons;
      [discriminate | by injection Hin]. }
  unfold _read_into.
  assert (Hbody : ∀ k m1, trace m1 = trace m →
    ∃ new, trace (bind (set_BUFFER 0 (Some (Z.land address 0x7F)))
                    (λ _, bind get_BUFFER (λ b, bind (device_write [b.1])
                       (λ _, readinto env buf k))) m1).2 = new ++ trace m ∧
           ∀ bytes, SpiWrite bytes ∈ new → bytes = [Z.land address 0x7F]).
  { intros k [o B H T n1 n2 n3 n4] Hm1. cbn [trace] in Hm1. subst T.
    unfold bind at 1, set_BUFFER. rewrite is_byte_land_127.
    set (a := Z.land address 0x7F) in *.
    unfold readinto, bind, get_BUFFER, device_write, emit, device_read, load,
      store, ret.
    destruct buf as [|r]; cbn.
    - destruct (_ <$> seq 0 (k `min` 2)) as [|x [|y l']]; cbn;
        by eapply Hsent1.
    - destruct (H !! r) as [old|]; cbn; [by eapply Hsent1 | by eapply Hsent0]. }
  destruct len as [n|].
  - unfold bind at 1, ret. by apply Hbody.
  - destruct buf as [|r].
    + unfold bind at 1, ret. by apply Hbody.
    + unfold bind at 1. unfold bind at 1, load.
      destruct (heap m !! r) as [old|]; cbn [fst snd ret]; [by apply Hbody|].
      exact Hnone.
Qed.

End Registers.

(** C8. A read sends the register address with its high bit cleared: the
    only bytes [_read_into] (and with it [_read_u8]) writes to the bus are
    [A & 0x7F], whose bit 7 is 0.  A write that goes through sends exactly
    two bytes, [A | 0x80], whose bit 7 is 1, and then the data byte; a write
    that fails sends nothing. *)
Theorem register_address_high_bit (env : Env) (address : Z) :
  (∀ buf len m,
     ∃ new, trace (_read_into env address buf len m).2 = new ++ trace m ∧
            ∀ bytes, SpiWrite bytes ∈ new → bytes = [Z.land address 0x7F]) ∧
  (∀ m, trace (_read_u8 env address m).2
        = SpiRead [miso env (n_miso m)] :: SpiWrite [Z.land address 0x7F]
            :: trace m) ∧
  Z.testbit (Z.land address 0x7F) 7 = false ∧
  (∀ val m,
     match _write_u8 address val m with
     | (Ret _, m') =>
         ∃ v, val = Some v ∧ is_byte v = true ∧
              trace m' = SpiWrite [Z.lor address 0x80; v] :: trace m
     | (_, m') => trace m' = trace m
     end) ∧
  Z.testbit (Z.lor address 0x80) 7 = true.
Proof.
  split; [intros; apply read_into_sends|].
  split; [intros m; by rewrite read_u8_runs|].
  split; [apply read_address_bit|].
  split; [|apply write_address_bit].
  intros val m. unfold _write_u8, bind, set_BUFFER.
  destruct (is_byte (Z.lor address 0x80)); cbn [negb]; [|reflexivity].
  destruct val as [v|]; [|reflexivity].
  destruct (is_byte v) eqn:Hv; cbn [negb]; [|reflexivity].
  exists v. done.
Qed.

(** ** Frames longer than the FIFO *)

Section Oversize.
Context (env : Env).

(** Past 64 bytes the packet buffer is exactly as long as the frame. *)
Lemma pkt_buffer_grows cfg a0 a1 a2 a3 F (d : list Z) :
  (∀ key blk, length (aes_block env key blk) = 16%nat) →
  (∀ key m, length (aes_cmac env key m) = 16%nat) →
  (64 ≤ 9 + length d + 4)%nat →
  (9 + length d <= 255)%nat →
  length (pkt_buffer env cfg a0 a1 a2 a3 F (Z.of_nat (length d)) d)
  = (9 + length d + 4)%nat.
Proof.
  intros Hblock Hcmac Hbig Hbound.
  rewrite pkt_buffer_split, !length_app, length_take, length_drop by lia.
  rewrite mic_code_length by (done || lia).
  rewrite pkt_loaded_split, !length_app, length_drop, length_app by lia.
  rewrite header_length, length_replicate, enc_buffer_whole.
  unfold slice_to. rewrite length_take, Nat2Z.id.
  replace (length (encrypt env (aes_of cfg F) d)) with (length d)
    by (symmetry; apply encrypt_length, Hblock).
  lia.
Qed.

(** The first thing [send_packet] does is to write Standby to the radio. *)
Lemma send_packet_starts fuel pkt len timeout m :
  ∃ later, trace (send_packet env fuel pkt len timeout m).2
           = later ++ SpiWrite [0x81; 0x81] :: trace m.
Proof.
  assert (∃ (rest : M unit) m1,
            send_packet env fuel pkt len timeout m = rest m1 ∧
            preserves steady rest ∧
            trace m1 = SpiWrite [0x81; 0x81] :: trace m)
    as (rest & m1 & -> & Hrest & Htrace).
  { unfold send_packet. rewrite run_write_u8 by reflexivity.
    eexists _, _. split; [reflexivity|]. split; [|reflexivity]. keeps. }
  destruct (Hrest m1) as (_ & _ & [later Hlater]).
  exists later. by rewrite Hlater, Htrace.
Qed.

(** Past 255 bytes of header and payload there is no integrity code: the
    call fails before [send_packet], with nothing on the bus. *)
Lemma send_data_length_beyond_a_byte fuel data dl F timeout m d cfg :
  255 < 9 + dl →
  heap m !! data = Some d →
  _ttn_config (self m) = Some cfg →
  length (dev_addr cfg) = 4%nat →
  Forall (λ b, is_byte b = true) (dev_addr cfg) →
  ∃ m', send_data env fuel data dl F timeout m = (Raise ValueError, m') ∧
        trace m' = trace m.
Proof.
  intros Hlong Hd Hcfg Hlen Hbytes.
  destruct (dev_addr cfg) as [|a0 [|a1 [|a2 [|a3 [|]]]]] eqn:Haddr;
    try discriminate Hlen.
  apply Forall_cons in Hbytes as [B0 Hbytes].
  apply Forall_cons in Hbytes as [B1 Hbytes].
  apply Forall_cons in Hbytes as [B2 Hbytes].
  apply Forall_cons in Hbytes as [B3 _].
  destruct (send_data_assemble_long env data dl F m d cfg a0 a1 a2 a3)
    as (m' & Hrun & Htrace); try done; try (by rewrite Haddr).
  exists m'. split; [|exact Htrace].
  unfold send_data, bind. by rewrite Hrun.
Qed.

End Oversize.

(** C4, as the code has it.  The driver has no size check: for a payload
    that makes the frame longer than the 64-byte FIFO, while the length
    [9 + N] covered by the integrity code still fits its byte, [send_data]
    assembles the whole frame of [9 + N + 4] bytes (the packet buffer grows
    to that length), calls [send_packet] with it, and so starts driving the
    radio. *)
Theorem send_data_oversize_is_sent (env : Env) (fuel : nat) (data : ref)
    (N : nat) (F timeout : Z) (m : machine) (d : list Z) (cfg : TTN) :
  (∀ key blk, length (aes_block env key blk) = 16%nat) →
  (∀ key msg, length (aes_cmac env key msg) = 16%nat) →
  heap m !! data = Some d → length d = N →
  _ttn_config (self m) = Some cfg →
  length (dev_addr cfg) = 4%nat →
  Forall (λ b, is_byte b = true) (dev_addr cfg) →
  (64 < 9 + N + 4)%nat →
  (9 + N <= 255)%nat →
  ∃ pkt buf m1 later,
    send_data_assemble env data (Z.of_nat N) F m
      = (Ret (pkt, 9 + Z.of_nat N + 4), m1) ∧
    heap m1 !! pkt = Some buf ∧ length buf = (9 + N + 4)%nat ∧
    send_data env fuel data (Z.of_nat N) F timeout m
      = send_packet env fuel pkt (9 + Z.of_nat N + 4) timeout m1 ∧
    trace (send_data env fuel data (Z.of_nat N) F timeout m).2
      = later ++ SpiWrite [0x81; 0x81] :: trace m.
Proof.
  intros Hblock Hcmac Hd HN Hcfg Hlen Hbytes Hbig Hbound. subst N.
  destruct (dev_addr cfg) as [|a0 [|a1 [|a2 [|a3 [|]]]]] eqn:Haddr;
    try discriminate Hlen.
  apply Forall_cons in Hbytes as [B0 Hbytes].
  apply Forall_cons in Hbytes as [B1 Hbytes].
  apply Forall_cons in Hbytes as [B2 Hbytes].
  apply Forall_cons in Hbytes as [B3 _].
  assert (Hrun : send_data_assemble env data (Z.of_nat (length d)) F m
                 = (Ret ((length (heap m) + 1)%nat, 9 + Z.of_nat (length d) + 4),
                    assembled env cfg a0 a1 a2 a3 F (Z.of_nat (length d)) d m)).
  { apply send_data_assemble_runs; try done; try lia; by rewrite Haddr. }
  assert (Hsend : send_data env fuel data (Z.of_nat (length d)) F timeout m
                  = send_packet env fuel (length (heap m) + 1)%nat
                      (9 + Z.of_nat (length d) + 4) timeout
                      (assembled env cfg a0 a1 a2 a3 F (Z.of_nat (length d)) d m)).
  { unfold send_data, bind. by rewrite Hrun. }
  destruct (send_packet_starts env fuel (length (heap m) + 1)%nat
              (9 + Z.of_nat (length d) + 4) timeout
              (assembled env cfg a0 a1 a2 a3 F (Z.of_nat (length d)) d m))
    as [later Hlater].
  eexists _, _, _, later. split; [exact Hrun|]. split.
  { unfold assembled. cbn [heap with_heap with_self].
    rewrite heapj_lookup. reflexivity. }
  split; [apply pkt_buffer_grows; done || lia|].
  split; [exact Hsend|].
  rewrite Hsend, Hlater. reflexivity.
Qed.

(** * The properties on the simulated radio *)

Lemma sim_block_length (key blk : list Z) : length (Sim.block key blk) = 16%nat.
Proof. unfold Sim.block. rewrite length_zip_with, !length_resize. lia. Qed.

Lemma sim_cmac_length (key msg : list Z) : length (Sim.cmac key msg) = 16%nat.
Proof. unfold Sim.cmac. rewrite length_fmap, length_resize. reflexivity. Qed.

(** C3 fails as stated: a call of [send_packet] whose packet is shorter than
    the length it is given ends with [IndexError] while the FIFO is loaded,
    and nothing it did on the bus is a write of Sleep. *)
Lemma send_packet_without_sleep :
  Sim.short_packet.1 = Raise IndexError ∧
  trace Sim.short_packet.2
    = Sim.added Sim.short_packet_start Sim.short_packet.2
      ++ trace Sim.short_packet_start ∧
  head (Sim.added Sim.short_packet_start Sim.short_packet.2)
    = Some (SpiWrite [0x80; 2]) ∧
  SpiWrite [0x81; _MODE_SLEEP]
    ∉ Sim.added Sim.short_packet_start Sim.short_packet.2.
Proof.
  split; [vm_compute; reflexivity|].
  split; [vm_compute; reflexivity|].
  split; [vm_compute; reflexivity|].
  apply (bool_decide_eq_false_1 _). vm_compute. reflexivity.
Qed.

(** C4 fails as stated: a payload of 52 bytes makes a frame of 65 bytes;
    [send_data] returns normally, having announced 65 bytes to the radio,
    loaded 65 bytes into the FIFO and switched to Transmit. *)
Lemma oversize_payload_is_transmitted :
  (64 < 9 + 52 + 4)%nat ∧
  Sim.oversize.1 = Ret tt ∧
  SpiWrite [Z.lor _REG_PAYLOAD_LENGTH 0x80; 65]
    ∈ Sim.added Sim.oversize_start Sim.oversize.2 ∧
  length (Sim.fifo_bytes Sim.oversize.2) = 65%nat ∧
  SpiWrite [0x81; _MODE_TX] ∈ Sim.added Sim.oversize_start Sim.oversize.2.
Proof.
  split; [lia|].
  split; [vm_compute; reflexivity|].
  split; [apply (bool_decide_eq_true_1 _); vm_compute; reflexivity|].
  split; [vm_compute; reflexivity|].
  apply (bool_decide_eq_true_1 _). vm_compute. reflexivity.
Qed.

(** C6.  The code departs from the claim at the first test of the region
    chain: it asks whether the code contains "US", where the four tests
    after it ask whether the code is "AS", "AU", "EU" or "CN".  "USA" and
    "AUS" are none of the five codes, yet construction returns and the plan
    is the US one; "ASX", which the equality tests see, is refused. *)
Lemma region_USA_is_accepted :
  ("USA" ∉ ["US"; "AS"; "AU"; "EU"; "CN"])%string ∧
  Sim.region_USA.1 = Ret tt ∧
  _frequencies (self Sim.region_USA.2) = Some (ttn_usa (Sim.env 0 0)) ∧
  ("AUS" ∉ ["US"; "AS"; "AU"; "EU"; "CN"])%string ∧
  Sim.region_AUS.1 = Ret tt ∧
  _frequencies (self Sim.region_AUS.2) = Some (ttn_usa (Sim.env 0 0)) ∧
  Sim.region_ASX.1 = Raise UnsupportedRegion ∧
  _frequencies (self Sim.region_ASX.2) = None.
Proof.
  assert (Hout : ∀ c : string,
            bool_decide (c ∈ ["US"; "AS"; "AU"; "EU"; "CN"]%string) = false →
            c ∉ ["US"; "AS"; "AU"; "EU"; "CN"]%string)
    by (intros c Hc Hin; by rewrite (bool_decide_eq_true_2 _ Hin) in Hc).
  split; [apply Hout; vm_compute; reflexivity|].
  split; [vm_compute; reflexivity|].
  split; [vm_compute; reflexivity|].
  split; [apply Hout; vm_compute; reflexivity|].
  repeat split; vm_compute; reflexivity.
Qed.

(** C7 fails as stated: with a plan of one channel the index drawn in
    multi-channel mode can be 3, the lookup fails, and no frequency is
    programmed. *)
Lemma one_channel_plan_index_out_of_range :
  _channel (self Sim.one_channel_start) = None ∧
  _frequencies (self Sim.one_channel_start) = Some [(0xE1, 0xF9, 0xC0)] ∧
  (1 ≤ length [(0xE1, 0xF9, 0xC0)])%nat ∧
  _tx_random (self Sim.one_channel.2) = Some 3 ∧
  [(0xE1, 0xF9, 0xC0)] !! 3%nat = @None freq ∧
  Sim.one_channel.1 = Raise LookupError ∧
  Sim.added Sim.one_channel_start Sim.one_channel.2
    = [Randint 3; SpiWrite [0xC0; 0x40]; Delay 10000; SpiWrite [0x81; 0x81]].
Proof. repeat split; vm_compute; reflexivity. Qed.

(** The frame-layout example of the specification, on the simulated radio:
    payload 01 02 and frame counter 5 give a frame of 15 bytes. *)
Lemma send_data_frame_layout_witness :
  ∃ a0 a1 a2 a3 pkt buf enc mic m',
    dev_addr Sim.credentials = [a0; a1; a2; a3] ∧
    send_data_assemble (Sim.env 1 4) 0 (Z.of_nat 2) 5 Sim.example_start
      = (Ret (pkt, 9 + Z.of_nat 2 + 4), m') ∧
    send_data (Sim.env 1 4) 5 0 (Z.of_nat 2) 5 2 Sim.example_start
      = send_packet (Sim.env 1 4) 5 pkt (9 + Z.of_nat 2 + 4) 2 m' ∧
    heap m' !! pkt = Some buf ∧
    length (take (9 + 2 + 4) buf) = (9 + 2 + 4)%nat ∧
    take (9 + 2 + 4) buf =
      [0x40; a3; a2; a1; a0; 0; Z.land 5 0xFF; Z.land (Z.shiftr 5 8) 0xFF; 0x01]
      ++ enc ++ mic ∧
    enc = encrypt (Sim.env 1 4) (aes_of Sim.credentials 5) [0x01; 0x02] ∧
    length enc = 2%nat ∧
    compute_mic (Sim.env 1 4) (aes_of Sim.credentials 5)
      ([0x40; a3; a2; a1; a0; 0; Z.land 5 0xFF;
        Z.land (Z.shiftr 5 8) 0xFF; 0x01] ++ enc) (9 + Z.of_nat 2)
      = Some mic ∧
    length mic = 4%nat.
Proof.
  apply (send_data_frame_layout (Sim.env 1 4) 5 0 2 5 2 Sim.example_start
           [0x01; 0x02] Sim.credentials).
  - exact sim_block_length.
  - exact sim_cmac_length.
  - vm_compute. reflexivity.
  - reflexivity.
  - lia.
  - vm_compute. reflexivity.
  - reflexivity.
  - repeat constructor.
Defined.

Lemma encrypt_involution_witness :
  length (encrypt (Sim.env 0 0) (aes_of Sim.credentials 5)
            [0x41; 0x42; 1; 2; 3; 4; 5; 6; 7; 8; 9; 10; 11; 12; 13; 14; 15; 16])
  = 18%nat ∧
  encrypt (Sim.env 0 0) (aes_of Sim.credentials 5)
    (encrypt (Sim.env 0 0) (aes_of Sim.credentials 5)
       [0x41; 0x42; 1; 2; 3; 4; 5; 6; 7; 8; 9; 10; 11; 12; 13; 14; 15; 16])
  = [0x41; 0x42; 1; 2; 3; 4; 5; 6; 7; 8; 9; 10; 11; 12; 13; 14; 15; 16].
Proof.
  apply (encrypt_involution (Sim.env 0 0) (aes_of Sim.credentials 5)
           [0x41; 0x42; 1; 2; 3; 4; 5; 6; 7; 8; 9; 10; 11; 12; 13; 14; 15; 16]).
  exact sim_block_length.
Defined.

Lemma send_packet_sleeps_after_wait_witness :
  ∃ start waits before,
    trace Sim.timely.2
      = SpiWrite [0x81; _MODE_SLEEP] :: waits
        ++ Monotonic start :: SpiWrite [0x81; _MODE_TX] :: before ∧
    trace Sim.timely_start `suffix_of` before ∧
    Forall is_wait waits ∧
    ∃ w, waits = IrqValue true :: w.
Proof.
  apply (send_packet_sleeps_after_wait (Sim.env 1 4) 5 0 2 2
           Sim.timely_start (Ret tt) Sim.timely.2).
  - vm_compute. reflexivity.
  - left. reflexivity.
Defined.

Lemma init_region_selection_witness :
  (__init__ (Sim.env 0 0) Sim.credentials None (Sim.boot [])).1
    ≠ Raise UnsupportedRegion ∧
  _frequencies (self (__init__ (Sim.env 0 0) Sim.credentials None
                        (Sim.boot [])).2)
    = Some (region_plan (Sim.env 0 0) "US").
Proof.
  exact (init_region_selection (Sim.env 0 0) Sim.credentials None
           (Sim.boot []) eq_refl).
Defined.

Lemma multi_channel_frequency_in_plan_witness :
  ∃ f,
    (Z.to_nat (entropy (Sim.env 1 4) (n_rand Sim.hopping_start) `mod` 8)
     < length (Sim.plan 0xE1))%nat ∧
    Sim.plan 0xE1
      !! Z.to_nat (entropy (Sim.env 1 4) (n_rand Sim.hopping_start) `mod` 8)
      = Some f ∧
    _tx_random (self Sim.hopping.2)
      = Some (entropy (Sim.env 1 4) (n_rand Sim.hopping_start) `mod` 8) ∧
    (_rfm_msb (self Sim.hopping.2), _rfm_mid (self Sim.hopping.2),
     _rfm_lsb (self Sim.hopping.2))
      = (Some f.1.1, Some f.1.2, Some f.2) ∧
    (is_byte f.1.1 = true → is_byte f.1.2 = true → is_byte f.2 = true →
     ∃ after,
       trace Sim.hopping.2
       = after ++ SpiWrite [0x88; f.2] :: SpiWrite [0x87; f.1.2]
           :: SpiWrite [0x86; f.1.1]
           :: Randint (entropy (Sim.env 1 4) (n_rand Sim.hopping_start) `mod` 8)
           :: SpiWrite [0xC0; 0x40] :: Delay 10000
           :: SpiWrite [0x81; 0x81] :: trace Sim.hopping_start).
Proof.
  apply (multi_channel_frequency_in_plan (Sim.env 1 4) 5 0 2 2
           Sim.hopping_start (Sim.plan 0xE1)).
  - vm_compute. reflexivity.
  - vm_compute. reflexivity.
  - vm_compute. lia.
Defined.

Lemma send_data_oversize_is_sent_witness :
  ∃ pkt buf m1 later,
    send_data_assemble (Sim.env 0 0) 0 (Z.of_nat 52) 1 Sim.oversize_start
      = (Ret (pkt, 9 + Z.of_nat 52 + 4), m1) ∧
    heap m1 !! pkt = Some buf ∧ length buf = (9 + 52 + 4)%nat ∧
    send_data (Sim.env 0 0) 1 0 (Z.of_nat 52) 1 2 Sim.oversize_start
      = send_packet (Sim.env 0 0) 1 pkt (9 + Z.of_nat 52 + 4) 2 m1 ∧
    trace (send_data (Sim.env 0 0) 1 0 (Z.of_nat 52) 1 2 Sim.oversize_start).2
      = later ++ SpiWrite [0x81; 0x81] :: trace Sim.oversize_start.
Proof.
  apply (send_data_oversize_is_sent (Sim.env 0 0) 1 0 52 1 2
           Sim.oversize_start (replicate 52 7) Sim.credentials).
  - exact sim_block_length.
  - exact sim_cmac_length.
  - vm_compute. reflexivity.
  - reflexivity.
  - vm_compute. reflexivity.
  - reflexivity.
  - repeat constructor.
  - lia.
  - lia.
Defined.

Lemma send_data_leaves_payload_and_counter_witness :
  heap Sim.example_send.2 !! 0%nat = Some [0x01; 0x02] ∧
  (∀ r b, heap Sim.example_start !! r = Some b →
          heap Sim.example_send.2 !! r = Some b) ∧
  frame_counter (self Sim.example_send.2)
  = (if 2 <? 0 then frame_counter (self Sim.example_start) else Some 5).
Proof.
  apply (send_data_leaves_payload_and_counter (Sim.env 1 4) 5 0 2 5 2
           Sim.example_start [0x01; 0x02]).
  vm_compute. reflexivity.
Defined.

Lemma send_data_port_is_one_witness :
  ∃ buf,
    heap (send_data_assemble (Sim.env 1 4) 0 2 5 Sim.example_start).2 !! 2%nat
      = Some buf ∧
    take (Z.to_nat 15) buf !! 8%nat = Some 0x01.
Proof.
  apply (send_data_port_is_one (Sim.env 1 4) 0 2 5 Sim.example_start
           [0x01; 0x02] 2 15
           (send_data_assemble (Sim.env 1 4) 0 2 5 Sim.example_start).2).
  - vm_compute. reflexivity.
  - vm_compute. reflexivity.
Defined.

(** The example of the specification in full: the 15 bytes loaded into the
    FIFO, with 05 00 at offsets 6 and 7. *)
Lemma example_frame :
  Sim.example_send.1 = Ret tt ∧
  Sim.fifo_bytes Sim.example_send.2
  = [0x40; 0x33; 0x22; 0x11; 0x00; 0x00; 0x05; 0x00; 0x01]
    ++ encrypt (Sim.env 1 4) (aes_of Sim.credentials 5) [0x01; 0x02]
    ++ mic_code (Sim.env 1 4) (aes_of Sim.credentials 5)
         ([0x40; 0x33; 0x22; 0x11; 0x00; 0x00; 0x05; 0x00; 0x01]
          ++ encrypt (Sim.env 1 4) (aes_of Sim.credentials 5) [0x01; 0x02])
         11 ∧
  length (Sim.fifo_bytes Sim.example_send.2) = 15%nat.
Proof. repeat split; vm_compute; reflexivity. Qed.

(** The unknown data rate of the specification's example. *)
Lemma unknown_datarate (m : machine) :
  set_datarate "SF99BW999" m = (Raise UnsupportedDatarate, m).
Proof.
  unfold set_datarate.
  replace (data_rates !! "SF99BW999"%string) with (@None (Z * Z * Z))
    by (vm_compute; reflexivity).
  reflexivity.
Qed.

(** * Further properties of the driver *)

#[local] Instance adds_preorder (P : event → Prop) : PreOrder (adds P).
Proof.
  split.
  - intros m. by exists [].
  - intros m1 m2 m3 (n1 & H1 & F1) (n2 & H2 & F2).
    exists (n2 ++ n1). split; [by rewrite H2, H1, app_assoc|].
    by apply Forall_app.
Qed.

#[local] Instance same_pins_preorder : PreOrder same_pins.
Proof.
  split; [by intros m | intros m1 m2 m3 H1 H2]. unfold same_pins in *.
  congruence.
Qed.

Lemma fixed_same_pins {A} (c : M A) :
  preserves fixed c → preserves same_pins c.
Proof.
  intros Hc m. destruct (Hc m) as (Hs & _). unfold same_pins. by rewrite Hs.
Qed.

Lemma same_pins_modify_self f :
  (∀ o, _irq (f o) = _irq o) → preserves same_pins (modify_self f).
Proof. intros Hf m. apply Hf. Qed.

(** [send_packet] assigns to no pin attribute before it transmits. *)
Lemma program_keeps_pins env pkt len :
  preserves same_pins (send_packet_program env pkt len).
Proof.
  unfold send_packet_program.
  repeat lazymatch goal with
    | |- preserves _ (bind _ _) =>
        apply preserves_bind; [apply _ | | intros ?]
    | |- preserves _ (for_each _ _) =>
        apply preserves_for_each; [apply _ | intros ?]
    | |- preserves _ (ret _) => apply preserves_ret, _
    | |- preserves _ (match ?x with _ => _ end) => destruct x
    | |- preserves same_pins (modify_self _) =>
        apply same_pins_modify_self; intros []; reflexivity
    | |- preserves same_pins _ =>
        apply fixed_same_pins; solve [auto with quiet]
    end.
Qed.

Section Adds.
Context (env : Env) (P : event → Prop).

Lemma adds_same {A} (c : M A) :
  (∀ m, trace (c m).2 = trace m) → preserves (adds P) c.
Proof. intros Hc m. exists []. by rewrite Hc. Qed.

Lemma adds_one {A} (c : M A) :
  (∀ m, trace (c m).2 = trace m ∨ ∃ e, trace (c m).2 = e :: trace m ∧ P e) →
  preserves (adds P) c.
Proof.
  intros Hc m. destruct (Hc m) as [H|(e & H & He)].
  - exists []. by rewrite H.
  - exists [e]. by rewrite H; repeat constructor.
Qed.

Lemma adds_emit e : P e → preserves (adds P) (emit e).
Proof. intros He. apply adds_one. intros m. right. by exists e. Qed.

Lemma adds_get_self : preserves (adds P) get_self.
Proof. by apply adds_same. Qed.

Lemma adds_modify_self f : preserves (adds P) (modify_self f).
Proof. by apply adds_same. Qed.

Lemma adds_write_u8 address val :
  (∀ v, P (SpiWrite [Z.lor address 0x80; v])) →
  preserves (adds P) (_write_u8 address val).
Proof.
  intros HP. apply adds_one. intros m.
  unfold _write_u8, bind, set_BUFFER.
  destruct (is_byte (Z.lor address 0x80)); cbn [negb]; [|by left].
  destruct val as [v|]; [|by left].
  destruct (is_byte v); cbn [negb]; [|by left].
  right. eexists. split; [reflexivity|]. apply HP.
Qed.

Lemma adds_randint lo hi : (∀ r, P (Randint r)) → preserves (adds P) (randint env lo hi).
Proof. intros HP. apply adds_one. intros m. right. eexists. split; [reflexivity|]. apply HP. Qed.

Lemma adds_getitem r i : preserves (adds P) (getitem r i).
Proof.
  apply adds_same. intros m. unfold getitem, bind, load.
  destruct (heap m !! r) as [b|]; [|reflexivity]. by destruct (b !! i).
Qed.

Lemma adds_frequency channel : preserves (adds P) (frequency channel).
Proof.
  apply adds_same. intros m. unfold frequency, bind, get_self.
  destruct (_frequencies (self m)) as [plan|]; [|reflexivity].
  by destruct (plan_lookup plan channel).
Qed.

Lemma adds_poll fuel start timeout :
  (∀ v, P (IrqValue v)) → (∀ t, P (Monotonic t)) →
  preserves (adds P) (poll env fuel start timeout).
Proof.
  intros Hirq Hclock.
  induction fuel as [|fuel IH]; cbn [poll]; [apply preserves_diverge, _|].
  apply preserves_bind; [apply _ | |].
  { apply adds_one. intros m. unfold irq_value.
    destruct (_irq (self m)); [|by left].
    right. eexists. split; [reflexivity|]. apply Hirq. }
  intros [|]; [apply preserves_ret, _|].
  apply preserves_bind; [apply _ | |].
  { apply adds_one. intros m. right. eexists. split; [reflexivity|]. apply Hclock. }
  intros now. destruct (now - start >=? timeout);
    [apply preserves_ret, _ | exact IH].
Qed.

End Adds.

Lemma mode_writes_app (new old : list event) :
  mode_writes (new ++ old) = mode_writes old ++ mode_writes new.
Proof. unfold mode_writes. by rewrite rev_app_distr, omap_app. Qed.

Lemma mode_writes_none (new : list event) :
  Forall (λ e, mode_of e = None) new → mode_writes new = [].
Proof.
  unfold mode_writes. induction 1 as [|e l He _ IH]; [reflexivity|].
  cbn [rev]. rewrite omap_app, IH. cbn. by rewrite He.
Qed.

Lemma is_wait_mode_of e : is_wait e → mode_of e = None.
Proof. by destruct e. Qed.

Section Modes.
Context (env : Env).

Ltac not_a_mode_write :=
  repeat lazymatch goal with
    | |- preserves _ (bind _ _) => apply preserves_bind; [apply _ | | intros ?]
    | |- preserves _ (for_each _ _) =>
        apply preserves_for_each; [apply _ | intros ?]
    | |- preserves _ (ret _) => apply preserves_ret, _
    | |- preserves _ (match ?x with _ => _ end) => destruct x
    | |- preserves _ (emit _) => by apply adds_emit
    | |- preserves _ get_self => apply adds_get_self
    | |- preserves _ (modify_self _) => apply adds_modify_self
    | |- preserves _ (randint _ _ _) => by apply adds_randint
    | |- preserves _ (frequency _) => apply adds_frequency
    | |- preserves _ (getitem _ _) => apply adds_getitem
    | |- preserves _ (_write_u8 _ _) => by apply adds_write_u8
    end.

(** The first phase writes to the operating-mode register once: Standby. *)
Lemma program_modes pkt len m :
  ∃ new, trace (send_packet_program env pkt len m).2 = new ++ trace m ∧
         mode_writes new = [0x81].
Proof.
  assert (∃ (rest : M unit) m1,
            send_packet_program env pkt len m = rest m1 ∧
            preserves (adds (λ e, mode_of e = None)) rest ∧
            trace m1 = SpiWrite [0x81; 0x81] :: trace m)
    as (rest & m1 & -> & Hrest & Htrace).
  { unfold send_packet_program. rewrite run_write_u8 by reflexivity.
    eexists _, _. split; [reflexivity|]. split; [|reflexivity].
    cbn [for_each fst snd]. not_a_mode_write. }
  destruct (Hrest m1) as (new & Hnew & Hnone).
  exists (new ++ [SpiWrite [0x81; 0x81]]). split.
  - by rewrite Hnew, Htrace, <- app_assoc.
  - rewrite mode_writes_app, (mode_writes_none new) by done. reflexivity.
Qed.

(** The second phase writes Transmit, and Sleep once the wait is over.  On
    an object whose [_irq] is [None] the wait fails at its first reading of
    DIO0: Sleep is not written. *)
Lemma transmit_modes fuel timeout m o m' :
  send_packet_transmit env fuel timeout m = (o, m') →
  ∃ new, trace m' = new ++ trace m ∧
    match o with
    | Ret _ => mode_writes new = [_MODE_TX; _MODE_SLEEP]
    | Raise e =>
        (e = SendTimeout ∧ mode_writes new = [_MODE_TX; _MODE_SLEEP]) ∨
        (e = AttributeError ∧ _irq (self m) = None ∧
         mode_writes new = [_MODE_TX])
    | Diverge => mode_writes new = [_MODE_TX]
    end.
Proof.
  unfold send_packet_transmit.
  unfold bind at 1. rewrite write_u8_runs by reflexivity.
  unfold bind at 1. unfold monotonic at 1.
  set (start := clock env _).
  unfold bind at 1.
  match goal with |- context [poll env fuel start timeout ?x] =>
    pose proof (adds_poll env is_wait fuel start timeout
                  (λ _, I) (λ _, I) x) as (waits & Htrace & Hwaits);
    pose proof (poll_spec env fuel start timeout x) as Hpoll;
    destruct (poll env fuel start timeout x) as [[b|e|] m1]
  end; cbn [fst snd trace self with_event with_BUFFER] in *.
  - unfold bind at 1. rewrite write_u8_runs by reflexivity.
    assert (Hm : mode_writes (SpiWrite [0x81; _MODE_SLEEP] :: waits
                   ++ [Monotonic start; SpiWrite [0x81; _MODE_TX]])
                 = [_MODE_TX; _MODE_SLEEP]).
    { change (SpiWrite [0x81; _MODE_SLEEP] :: waits ++ ?l)
        with ([SpiWrite [0x81; _MODE_SLEEP]] ++ waits ++ l).
      rewrite !mode_writes_app, (mode_writes_none waits); [reflexivity|].
      eapply Forall_impl; [exact Hwaits | apply is_wait_mode_of]. }
    destruct b; intros [= <- <-];
      exists (SpiWrite [0x81; _MODE_SLEEP] :: waits
              ++ [Monotonic start; SpiWrite [0x81; _MODE_TX]]);
      cbn [trace with_event with_BUFFER]; rewrite Htrace; cbn [app];
      rewrite <- app_assoc; [split; [done|]; by left | done].
  - destruct Hpoll as (-> & Hpin & ->). intros [= <- <-].
    exists [Monotonic start; SpiWrite [0x81; _MODE_TX]].
    split; [reflexivity|]. right. done.
  - intros [= <- <-].
    exists (waits ++ [Monotonic start; SpiWrite [0x81; _MODE_TX]]).
    rewrite Htrace, <- app_assoc. split; [done|].
    rewrite mode_writes_app, (mode_writes_none waits); [reflexivity|].
    eapply Forall_impl; [exact Hwaits | apply is_wait_mode_of].
Qed.

End Modes.

(** X1. Whatever the state of the driver, the packet and the environment, a
    call of [send_packet] writes to the operating-mode register in one
    order only: Standby first; Transmit next, only when every register and
    the FIFO have been loaded without an exception; Sleep last, when the wait
    has ended.  A call that fails while programming has written Standby and
    nothing else; one that is still waiting has written Standby and
    Transmit.  One more failure leaves the radio in Transmit: on an object
    whose [_irq] is [None] (a driver that was released, and then given a
    channel and a data rate again) the first reading of DIO0 fails with
    [AttributeError], after Standby and Transmit and without Sleep. *)
Theorem send_packet_mode_sequence (env : Env) (fuel : nat) (pkt : ref)
    (len timeout : Z) (m : machine) :
  ∃ new,
    trace (send_packet env fuel pkt len timeout m).2 = new ++ trace m ∧
    match (send_packet env fuel pkt len timeout m).1 with
    | Ret _ => mode_writes new = [0x81; _MODE_TX; _MODE_SLEEP]
    | Raise e =>
        (e = SendTimeout → mode_writes new = [0x81; _MODE_TX; _MODE_SLEEP]) ∧
        (e ≠ SendTimeout →
           mode_writes new = [0x81] ∨
           (e = AttributeError ∧ _irq (self m) = None ∧
            mode_writes new = [0x81; _MODE_TX]))
    | Diverge => mode_writes new = [0x81; _MODE_TX]
    end.
Proof.
  rewrite send_packet_phases. unfold bind.
  pose proof (clean_send_packet_program env pkt len m) as Hclean.
  pose proof (program_keeps_pins env pkt len m) as Hpins.
  destruct (program_modes env pkt len m) as (new1 & Ht1 & Hm1).
  destruct (send_packet_program env pkt len m) as [[[]|e|] m1];
    cbn [fst snd] in *.
  - destruct (send_packet_transmit env fuel timeout m1) as [o m2] eqn:Hrun.
    destruct (transmit_modes env fuel timeout m1 o m2 Hrun) as (new2 & Ht2 & Hm2).
    exists (new2 ++ new1). split; [by cbn; rewrite Ht2, Ht1, app_assoc|].
    rewrite mode_writes_app, Hm1.
    destruct o as [[]|e|]; cbn [fst snd] in *.
    + by rewrite Hm2.
    + destruct Hm2 as [[-> Hm2]|(-> & Hnone & Hm2)]; rewrite Hm2.
      * done.
      * split; [done|]. intros _. right.
        unfold same_pins in Hpins. by rewrite <- Hpins.
    + by rewrite Hm2.
  - exists new1. split; [done|]. split; [done|]. intros _. by left.
  - done.
Qed.

(** ** Loading the FIFO *)

Lemma fifo_writes_cons b l :
  fifo_writes (b :: l) = fifo_writes l ++ [SpiWrite [0x80; b]].
Proof. reflexivity. Qed.

Section Load.
Context (env : Env).

(** With the whole range inside the buffer, the loop writes each byte of
    the range to the FIFO register, in order. *)
Lemma fifo_loop_runs pkt buf : ∀ n i m,
  heap m !! pkt = Some buf →
  (i + n ≤ length buf)%nat →
  bytes_ok (take n (drop i buf)) →
  ∃ B, for_each (seq i n)
         (λ k, b ← getitem pkt k; _write_u8 0x00 (Some b)) m
       = (Ret tt,
          mkMachine (self m) B (heap m)
            (fifo_writes (take n (drop i buf)) ++ trace m)
            (n_miso m) (n_irq m) (n_clock m) (n_rand m)).
Proof.
  induction n as [|n IH]; intros i m Hbuf Hlen Hbytes.
  { exists (_BUFFER m). by destruct m. }
  destruct (lookup_lt_is_Some_2 buf i) as [v Hv]; [lia|].
  rewrite (drop_S _ _ _ Hv) in Hbytes. cbn [take] in Hbytes.
  apply Forall_cons in Hbytes as [Bv Hbytes].
  cbn [seq for_each]. rewrite bind_assoc, run_getitem, Hbuf, Hv.
  rewrite run_write_u8 by done.
  match goal with |- context [for_each _ _ ?x] =>
    destruct (IH (S i) x) as [B HB]; [done | cbn; lia | done |]
  end.
  exists B. rewrite HB. cbn [self heap trace n_miso n_irq n_clock n_rand
    with_event with_BUFFER].
  rewrite (drop_S _ _ _ Hv). cbn [take].
  by rewrite fifo_writes_cons, <- app_assoc.
Qed.

(** With the range reaching past the end of the buffer, the loop writes the
    bytes there are and fails at the first index outside the buffer. *)
Lemma fifo_loop_short pkt buf : ∀ n i m,
  heap m !! pkt = Some buf →
  (i ≤ length buf)%nat → (length buf < i + n)%nat →
  bytes_ok (drop i buf) →
  ∃ B, for_each (seq i n)
         (λ k, b ← getitem pkt k; _write_u8 0x00 (Some b)) m
       = (Raise IndexError,
          mkMachine (self m) B (heap m)
            (fifo_writes (drop i buf) ++ trace m)
            (n_miso m) (n_irq m) (n_clock m) (n_rand m)).
Proof.
  induction n as [|n IH]; intros i m Hbuf Hi Hlen Hbytes; [lia|].
  cbn [seq for_each]. rewrite bind_assoc, run_getitem, Hbuf.
  destruct (buf !! i) as [v|] eqn:Hv.
  - rewrite (drop_S _ _ _ Hv) in Hbytes.
    apply Forall_cons in Hbytes as [Bv Hbytes].
    apply lookup_lt_Some in Hv as Hlt.
    rewrite run_write_u8 by done.
    match goal with |- context [for_each _ _ ?x] =>
      destruct (IH (S i) x) as [B HB]; [done | cbn; lia | cbn; lia | done |]
    end.
    exists B. rewrite HB. cbn [self heap trace n_miso n_irq n_clock n_rand
      with_event with_BUFFER].
    rewrite (drop_S _ _ _ Hv).
    by rewrite fifo_writes_cons, <- app_assoc.
  - apply lookup_ge_None in Hv. rewrite drop_ge by lia.
    exists (_BUFFER m). by destruct m.
Qed.

End Load.

Section Program.
Context (env : Env).

Lemma program_then_load pkt len :
  send_packet_program env pkt len =
  (_write_u8 _MODE_STDBY (Some 0x81);;
   emit (Delay 10000);;
   _write_u8 0x40 (Some 0x40);;
   o ← get_self;
   match _channel o with
   | None =>
       r ← randint env 0 7;
       modify_self (set_tx_random (Some r));;
       f ← frequency r; modify_self (set_rfm_lsb (Some f.2));;
       f ← frequency r; modify_self (set_rfm_mid (Some f.1.2));;
       f ← frequency r; modify_self (set_rfm_msb (Some f.1.1))
   | Some _ => ret tt
   end;;
   send_packet_load pkt len).
Proof. reflexivity. Qed.

(** The six attribute writes, the length and the FIFO pointer. *)
Lemma config_runs {B} pkt len (k : unit → M B) m msb mid lsb sf bw cfg :
  _rfm_msb (self m) = Some msb → _rfm_mid (self m) = Some mid →
  _rfm_lsb (self m) = Some lsb →
  _sf (self m) = Some sf → _bw (self m) = Some bw →
  _modemcfg (self m) = Some cfg →
  bytes_ok [msb; mid; lsb; sf; bw; cfg; len] →
  bind (send_packet_load pkt len) k m =
  bind (for_each (seq 0 (Z.to_nat len))
          (λ packet_index,
             b ← getitem pkt packet_index; _write_u8 0x00 (Some b))) k
    (mkMachine (self m) (0x8D, 0x80) (heap m)
       (config_writes msb mid lsb sf bw cfg len ++ trace m)
       (n_miso m) (n_irq m) (n_clock m) (n_rand m)).
Proof.
  destruct m as [o B0 H T n1 n2 n3 n4]; cbn [self heap trace].
  intros Hmsb Hmid Hlsb Hsf Hbw Hcfg Hbytes.
  repeat (apply Forall_cons in Hbytes as [? Hbytes]).
  unfold send_packet_load.
  rewrite !bind_assoc, run_get_self. tidy.
  rewrite Hmsb, Hmid, Hlsb, Hsf, Hbw, Hcfg. cbn [for_each fst snd].
  do 8 (rewrite ?bind_assoc, run_write_u8 by done; tidy).
  rewrite ?bind_assoc, run_ret. reflexivity.
Qed.

Lemma load_runs pkt len m msb mid lsb sf bw cfg buf :
  _rfm_msb (self m) = Some msb → _rfm_mid (self m) = Some mid →
  _rfm_lsb (self m) = Some lsb →
  _sf (self m) = Some sf → _bw (self m) = Some bw →
  _modemcfg (self m) = Some cfg →
  bytes_ok [msb; mid; lsb; sf; bw; cfg; len] →
  heap m !! pkt = Some buf →
  (Z.to_nat len ≤ length buf)%nat →
  bytes_ok (take (Z.to_nat len) buf) →
  ∃ B, send_packet_load pkt len m =
       (Ret tt,
        mkMachine (self m) B (heap m)
          (fifo_writes (take (Z.to_nat len) buf)
           ++ config_writes msb mid lsb sf bw cfg len ++ trace m)
          (n_miso m) (n_irq m) (n_clock m) (n_rand m)).
Proof.
  intros Hmsb Hmid Hlsb Hsf Hbw Hcfg Hbytes Hbuf Hlen Hpkt.
  pose proof (config_runs pkt len ret m msb mid lsb sf bw cfg
                Hmsb Hmid Hlsb Hsf Hbw Hcfg Hbytes) as Hrun.
  assert (Hret : ∀ (c : M unit) x, bind c ret x = c x).
  { intros c x. unfold bind, ret. by destruct (c x) as [[[]| |] ?]. }
  rewrite !Hret in Hrun. rewrite Hrun.
  match goal with |- context [for_each _ _ ?x] =>
    destruct (fifo_loop_runs pkt buf (Z.to_nat len) 0 x) as [B HB];
      [done | cbn; lia | done |]
  end.
  exists B. rewrite HB. reflexivity.
Qed.

End Program.

Section Traffic.
Context (env : Env).

(** In single-channel mode the first phase goes from the three preliminary
    events straight to the registers. *)
Lemma program_single {B} pkt len (k : unit → M B) m c :
  _channel (self m) = Some c →
  bind (send_packet_program env pkt len) k m =
  bind (send_packet_load pkt len) k
    (mkMachine (self m) (0xC0, 0x40) (heap m)
       (SpiWrite [0xC0; 0x40] :: Delay 10000 :: SpiWrite [0x81; 0x81]
          :: trace m)
       (n_miso m) (n_irq m) (n_clock m) (n_rand m)).
Proof.
  destruct m as [o B0 H T n1 n2 n3 n4]; cbn [self heap trace].
  intros Hch. rewrite program_then_load.
  rewrite ?bind_assoc, run_write_u8 by reflexivity. tidy.
  rewrite ?bind_assoc, run_emit. tidy.
  rewrite ?bind_assoc, run_write_u8 by reflexivity. tidy.
  rewrite ?bind_assoc, run_get_self. tidy. rewrite Hch.
  rewrite ?bind_assoc, run_ret. reflexivity.
Qed.

(** In multi-channel mode it first draws the channel and stores the entry
    of the plan. *)
Lemma program_multi {B} pkt len (k : unit → M B) m plan f :
  _channel (self m) = None →
  _frequencies (self m) = Some plan →
  plan_lookup plan (0 + entropy env (n_rand m) `mod` (7 - 0 + 1)) = Some f →
  bind (send_packet_program env pkt len) k m =
  bind (send_packet_load pkt len) k
    (mkMachine
       (set_rfm (Some f.1.1) (Some f.1.2) (Some f.2)
          (set_tx_random (Some (entropy env (n_rand m) `mod` 8)) (self m)))
       (0xC0, 0x40) (heap m)
       (Randint (entropy env (n_rand m) `mod` 8)
          :: SpiWrite [0xC0; 0x40] :: Delay 10000 :: SpiWrite [0x81; 0x81]
          :: trace m)
       (n_miso m) (n_irq m) (n_clock m) (S (n_rand m))).
Proof.
  destruct m as [o B0 H T n1 n2 n3 n4]; cbn [self heap trace n_rand].
  intros Hch Hplan Hlook. rewrite program_then_load.
  rewrite ?bind_assoc, run_write_u8 by reflexivity. tidy.
  rewrite ?bind_assoc, run_emit. tidy.
  rewrite ?bind_assoc, run_write_u8 by reflexivity. tidy.
  rewrite ?bind_assoc, run_get_self. tidy. rewrite Hch.
  rewrite ?bind_assoc; unfold bind at 1, randint at 1; tidy.
  rewrite ?bind_assoc, run_modify_self; tidy.
  rewrite ?bind_assoc, run_frequency; tidy; rewrite Hplan, Hlook.
  rewrite ?bind_assoc, run_modify_self; tidy.
  rewrite ?bind_assoc, run_frequency; tidy; rewrite Hplan, Hlook.
  rewrite ?bind_assoc, run_modify_self; tidy.
  rewrite ?bind_assoc, run_frequency; tidy; rewrite Hplan, Hlook.
  rewrite ?bind_assoc, run_modify_self; tidy.
  destruct o; reflexivity.
Qed.

(** On an object that has its [_irq], whatever the outcome, the second
    phase adds the write of Transmit, then readings of DIO0 and the clock,
    then at most the write of Sleep. *)
Lemma transmit_traffic fuel timeout m o m' :
  is_Some (_irq (self m)) →
  send_packet_transmit env fuel timeout m = (o, m') →
  (o = Ret tt ∨ o = Raise SendTimeout ∨ o = Diverge) ∧
  self m' = self m ∧ heap m' = heap m ∧
  ∃ wait, trace m' = wait ++ SpiWrite [0x81; _MODE_TX] :: trace m ∧
          Forall (λ e, is_wait e ∨ e = SpiWrite [0x81; _MODE_SLEEP]) wait.
Proof.
  intros [p Hpin] Hrun.
  destruct (preserves_fixed_transmit env fuel timeout m) as (Hs & Hh & _).
  rewrite Hrun in Hs, Hh. cbn [snd] in Hs, Hh.
  revert Hrun. unfold send_packet_transmit.
  unfold bind at 1. rewrite write_u8_runs by reflexivity.
  unfold bind at 1. unfold monotonic at 1.
  set (start := clock env _).
  unfold bind at 1.
  match goal with |- context [poll env fuel start timeout ?x] =>
    pose proof (adds_poll env is_wait fuel start timeout
                  (λ _, I) (λ _, I) x) as (waits & Htrace & Hwaits);
    pose proof (poll_spec env fuel start timeout x) as Hpoll;
    destruct (poll env fuel start timeout x) as [[b|e|] m1]
  end; cbn [fst snd trace self with_event with_BUFFER] in *;
    [| destruct Hpoll as (_ & Hnone & _); congruence |].
  - unfold bind at 1. rewrite write_u8_runs by reflexivity.
    assert (Hw : Forall (λ e, is_wait e ∨ e = SpiWrite [0x81; _MODE_SLEEP])
                   (SpiWrite [0x81; _MODE_SLEEP] :: waits ++ [Monotonic start])).
    { constructor; [by right|]. apply Forall_app. split.
      - eapply Forall_impl; [exact Hwaits | by left].
      - repeat constructor. }
    destruct b; intros [= <- <-]; (split; [by auto|]);
      (split; [done|]); (split; [done|]);
      exists (SpiWrite [0x81; _MODE_SLEEP] :: waits ++ [Monotonic start]);
      (split; [|exact Hw]);
      cbn [trace with_event with_BUFFER]; rewrite Htrace; cbn [app];
      by rewrite <- app_assoc.
  - intros [= <- <-]. split; [by auto|]. split; [done|]. split; [done|].
    exists (waits ++ [Monotonic start]). split.
    + by rewrite Htrace, <- app_assoc.
    + apply Forall_app. split.
      * eapply Forall_impl; [exact Hwaits | by left].
      * repeat constructor.
Qed.

End Traffic.

(** The whole of a single-channel send whose registers and FIFO can be
    loaded, on an object that has its [_irq]. *)
Lemma single_channel_send (env : Env) (fuel : nat)
    (pkt : ref) (len timeout : Z) (m : machine) (c msb mid lsb sf bw cfg : Z)
    (buf : list Z) :
  is_Some (_irq (self m)) →
  _channel (self m) = Some c →
  (_rfm_msb (self m), _rfm_mid (self m), _rfm_lsb (self m))
    = (Some msb, Some mid, Some lsb) →
  (_sf (self m), _bw (self m), _modemcfg (self m))
    = (Some sf, Some bw, Some cfg) →
  bytes_ok [msb; mid; lsb; sf; bw; cfg; len] →
  heap m !! pkt = Some buf →
  (Z.to_nat len ≤ length buf)%nat →
  bytes_ok (take (Z.to_nat len) buf) →
  ∃ o m' wait,
    send_packet env fuel pkt len timeout m = (o, m') ∧
    (o = Ret tt ∨ o = Raise SendTimeout ∨ o = Diverge) ∧
    self m' = self m ∧ heap m' = heap m ∧
    trace m' = wait ++ SpiWrite [0x81; _MODE_TX]
                 :: fifo_writes (take (Z.to_nat len) buf)
                 ++ config_writes msb mid lsb sf bw cfg len
                 ++ SpiWrite [0xC0; 0x40] :: Delay 10000
                 :: SpiWrite [0x81; 0x81] :: trace m ∧
    Forall (λ e, is_wait e ∨ e = SpiWrite [0x81; _MODE_SLEEP]) wait.
Proof.
  intros Hpin Hch [= Hmsb Hmid Hlsb] [= Hsf Hbw Hcfg] Hbytes Hbuf Hlen Hpkt.
  rewrite send_packet_phases, (program_single env pkt len _ m c Hch).
  match goal with |- context [bind (send_packet_load pkt len) _ ?x] =>
    destruct (load_runs pkt len x msb mid lsb sf bw cfg buf) as [B HB];
      try done
  end.
  unfold bind at 1. rewrite HB. cbn [self heap trace n_miso n_irq n_clock n_rand].
  match goal with |- context [send_packet_transmit env fuel timeout ?x] =>
    destruct (send_packet_transmit env fuel timeout x) as [o m'] eqn:Hrun;
    destruct (transmit_traffic env fuel timeout x o m' Hpin Hrun)
      as (Ho & Hs & Hh & wait & Ht & Hw)
  end.
  exists o, m', wait. cbn [self heap trace] in *.
  done.
Qed.

(** X2. Single-channel mode, the [_irq] pin, the frequency and the
    data-rate attributes set (as they are from construction until [deinit]),
    the length a byte and within the packet buffer: [send_packet] draws no random
    number and puts on the bus, in this order, Standby, the 10 ms delay, the
    DIO mapping, the three stored frequency bytes, the three stored data-rate
    bytes, the length, the FIFO pointer, the first [len] bytes of the packet
    one by one, and Transmit; after that come only readings of DIO0 and the
    clock and the write of Sleep.  The object and the buffers are unchanged,
    and the call returns, fails with the timeout error, or is still waiting
    when the fuel runs out. *)
Theorem send_packet_single_channel_traffic (env : Env) (fuel : nat)
    (pkt : ref) (len timeout : Z) (m : machine) (c msb mid lsb sf bw cfg : Z)
    (buf : list Z) :
  is_Some (_irq (self m)) →
  _channel (self m) = Some c →
  (_rfm_msb (self m), _rfm_mid (self m), _rfm_lsb (self m))
    = (Some msb, Some mid, Some lsb) →
  (_sf (self m), _bw (self m), _modemcfg (self m))
    = (Some sf, Some bw, Some cfg) →
  bytes_ok [msb; mid; lsb; sf; bw; cfg; len] →
  heap m !! pkt = Some buf →
  (Z.to_nat len ≤ length buf)%nat →
  bytes_ok (take (Z.to_nat len) buf) →
  ∃ o m' wait,
    send_packet env fuel pkt len timeout m = (o, m') ∧
    (o = Ret tt ∨ o = Raise SendTimeout ∨ o = Diverge) ∧
    self m' = self m ∧ heap m' = heap m ∧
    trace m' = wait ++ SpiWrite [0x81; _MODE_TX]
                 :: fifo_writes (take (Z.to_nat len) buf)
                 ++ config_writes msb mid lsb sf bw cfg len
                 ++ SpiWrite [0xC0; 0x40] :: Delay 10000
                 :: SpiWrite [0x81; 0x81] :: trace m ∧
    Forall (λ e, is_wait e ∨ e = SpiWrite [0x81; _MODE_SLEEP]) wait.
Proof. apply single_channel_send. Qed.


(** ** Construction, step by step *)

Section Construct.
Context (env : Env).

(** With the expected version and a supported region, [__init__] gets to
    line 212 with the default data rate and the plan of the region. *)
Lemma init_reaches_configure ttn_config channel m :
  miso env (n_miso m) = 18 →
  supported_region (country ttn_config) = true →
  __init__ env ttn_config channel m =
  init_configure env ttn_config channel
    (mkMachine
       (set_frequencies (Some (region_plan env (country ttn_config)))
          unconfigured)
       (18, (_BUFFER m).2) (heap m) (reset_and_probe ++ trace m)
       (n_miso m + 1) (n_irq m) (n_clock m) (n_rand m)).
Proof.
  intros Hversion. destruct m as [o B H T n1 n2 n3 n4]; cbn [n_miso] in *.
  unfold __init__.
  do 12 (step; tidy). rewrite Hversion.
  step; tidy.
  change (negb (18 =? 18)) with false. cbv iota.
  do 3 (step; tidy). rewrite default_datarate. tidy.
  unfold supported_region, region_plan, country.
  destruct (str_in "US" (region ttn_config));
    [|destruct (String.eqb (region ttn_config) "AS");
      [|destruct (String.eqb (region ttn_config) "AU");
        [|destruct (String.eqb (region ttn_config) "EU");
          [|destruct (String.eqb (region ttn_config) "CN")]]]];
    cbn [orb]; intros Hregion; try discriminate Hregion;
    step; tidy; reflexivity.
Qed.

(** From there, with no channel or a channel of the plan, it runs to its
    end. *)
Lemma init_configure_runs ttn_config channel m plan rfm :
  _frequencies (self m) = Some plan →
  match channel with
  | Some c => ∃ f, plan_lookup plan c = Some f ∧ rfm = Some f
  | None => rfm = None
  end →
  init_configure env ttn_config channel m =
  (Ret tt,
   mkMachine
     (set_ttn_config (Some ttn_config)
        (set_frame_counter (Some 0)
           (match rfm with
            | Some f => set_rfm (Some f.1.1) (Some f.1.2) (Some f.2)
            | None => λ o, o
            end
              (set_tx_random (Some (entropy env (n_rand m) `mod` 8))
                 (set_channel_attr channel (self m))))))
     (0x8F, 0x00) (heap m)
     (init_writes ++ Randint (entropy env (n_rand m) `mod` 8) :: trace m)
     (n_miso m) (n_irq m) (n_clock m) (S (n_rand m))).
Proof.
  destruct m as [o B H T n1 n2 n3 n4]; cbn [self heap trace n_rand n_miso n_irq n_clock].
  intros Hplan Hch. unfold init_configure.
  step; tidy. unfold bind at 1, randint at 1; tidy.
  step; tidy.
  destruct channel as [c|].
  - destruct Hch as (f & Hf & ->).
    unfold set_channel. rewrite ?bind_assoc. step; tidy.
    cbn [set_channel_attr _frequencies]. rewrite Hplan, Hf.
    step; tidy. step; tidy. cbn [for_each fst snd].
    do 12 (rewrite ?bind_assoc, run_write_u8 by reflexivity; tidy).
    rewrite ?bind_assoc, run_ret. reflexivity.
  - subst rfm. step; tidy. step; tidy. cbn [for_each fst snd].
    do 12 (rewrite ?bind_assoc, run_write_u8 by reflexivity; tidy).
    rewrite ?bind_assoc, run_ret. reflexivity.
Qed.

(** With a channel past the end of the plan it stops at [set_channel]. *)
Lemma init_configure_stops ttn_config c m plan :
  _frequencies (self m) = Some plan →
  plan_lookup plan c = None →
  init_configure env ttn_config (Some c) m =
  (Raise LookupError,
   mkMachine
     (set_tx_random (Some (entropy env (n_rand m) `mod` 8))
        (set_channel_attr (Some c) (self m)))
     (_BUFFER m) (heap m)
     (Randint (entropy env (n_rand m) `mod` 8) :: trace m)
     (n_miso m) (n_irq m) (n_clock m) (S (n_rand m))).
Proof.
  destruct m as [o B H T n1 n2 n3 n4]; cbn [self heap trace n_rand n_miso n_irq n_clock _BUFFER].
  intros Hplan Hc. unfold init_configure.
  step; tidy. unfold bind at 1, randint at 1; tidy.
  step; tidy.
  unfold set_channel. rewrite ?bind_assoc. step; tidy.
  cbn [_frequencies set_channel_attr]. rewrite Hplan, Hc.
  reflexivity.
Qed.

End Construct.

(** X4. The version check comes first.  When the radio answers the read of
    the version register with anything but 18, construction fails with the
    module-not-detected error, whatever the region code and the channel: the
    pins have been stored and set up, the radio reset and the version read,
    and nothing else has happened; the object has its three pins and its
    version attribute and no other. *)
Theorem init_version_mismatch (env : Env) (ttn_config : TTN)
    (channel : option Z) (m : machine) :
  miso env (n_miso m) ≠ 18 →
  __init__ env ttn_config channel m =
  (Raise DeviceNotDetected,
   mkMachine (set_version (Some (miso env (n_miso m))) wired)
     (miso env (n_miso m), (_BUFFER m).2) (heap m)
     (SpiRead [miso env (n_miso m)] :: SpiWrite [0x42] :: Delay 5000
        :: RstValue true :: Delay 100 :: RstValue false
        :: SwitchToOutput RST :: SwitchToOutput CS :: SwitchToInput IRQ
        :: trace m)
     (n_miso m + 1) (n_irq m) (n_clock m) (n_rand m)).
Proof.
  intros Hversion%Z.eqb_neq.
  destruct m as [o B0 H T n1 n2 n3 n4];
    cbn [n_miso _BUFFER heap trace n_irq n_clock n_rand] in *.
  unfold __init__.
  do 13 (step; tidy).
  rewrite Hversion. reflexivity.
Qed.

(** X5. A successful construction.  With the expected version, a supported
    region and either no channel or a channel of the region's plan,
    [__init__] returns; the object has its three pins, version 18, the
    data rate SF7BW125,
    the plan of the region, the channel as given, the frequency bytes of that
    channel (none in multi-channel mode), the index drawn, frame counter 0
    and the credentials; one random number has been drawn; and after the
    reset and the version read the bus has seen exactly the twelve writes
    that put the radio in LoRa mode, Sleep first. *)
Theorem init_constructs (env : Env) (ttn_config : TTN) (channel : option Z)
    (rfm : option freq) (m : machine) :
  miso env (n_miso m) = 18 →
  supported_region (country ttn_config) = true →
  match channel with
  | Some c =>
      0 <= c ∧ is_Some rfm ∧
      region_plan env (country ttn_config) !! Z.to_nat c = rfm
  | None => rfm = None
  end →
  __init__ env ttn_config channel m =
  (Ret tt,
   mkMachine
     (constructed env ttn_config channel rfm (entropy env (n_rand m) `mod` 8))
     (0x8F, 0x00) (heap m)
     (init_writes ++ Randint (entropy env (n_rand m) `mod` 8)
        :: reset_and_probe ++ trace m)
     (n_miso m + 1) (n_irq m) (n_clock m) (S (n_rand m))).
Proof.
  intros Hversion Hregion Hch.
  rewrite init_reaches_configure by done.
  erewrite (init_configure_runs env ttn_config channel _ _ rfm);
    [|reflexivity|].
  - cbn [self heap trace n_miso n_irq n_clock n_rand].
    by destruct rfm as [[[msb mid] lsb]|].
  - destruct channel as [c|]; [|done].
    destruct Hch as (Hc & [f ->] & Hf). exists f. split; [|done].
    unfold plan_lookup. by rewrite (proj2 (Z.ltb_ge c 0)) by lia.
Qed.

(** X6. A channel number past the end of the region's plan makes
    construction fail at [set_channel] with the lookup error of the plan.
    By then the plan, the channel and the index drawn are attributes of the
    object, but the frame counter and the credentials are not, and no
    register has been written: the radio has been reset and its version
    read, and that is all. *)
Theorem init_channel_beyond_plan (env : Env) (ttn_config : TTN) (c : Z)
    (m : machine) :
  miso env (n_miso m) = 18 →
  supported_region (country ttn_config) = true →
  Z.of_nat (length (region_plan env (country ttn_config))) <= c →
  ∃ m',
    __init__ env ttn_config (Some c) m = (Raise LookupError, m') ∧
    trace m' = Randint (entropy env (n_rand m) `mod` 8)
                 :: reset_and_probe ++ trace m ∧
    _frequencies (self m') = Some (region_plan env (country ttn_config)) ∧
    _channel (self m') = Some c ∧
    (_rfm_msb (self m'), _rfm_mid (self m'), _rfm_lsb (self m'))
      = (None, None, None) ∧
    frame_counter (self m') = None ∧ _ttn_config (self m') = None.
Proof.
  intros Hversion Hregion Hc.
  rewrite init_reaches_configure by done.
  erewrite init_configure_stops; [|reflexivity|].
  - eexists. split; [reflexivity|]. done.
  - unfold plan_lookup. rewrite (proj2 (Z.ltb_ge c 0)) by lia.
    apply lookup_ge_None. lia.
Qed.

(** X7. [set_channel] is all or nothing.  For a channel number from 0 up,
    an entry of the plan at that index becomes the three frequency
    attributes and nothing else changes (in particular not the channel
    attribute that decides between single- and multi-channel mode); with no
    entry at that index the call fails with the lookup error and leaves the
    machine as it was. *)
Theorem set_channel_all_or_nothing (channel : Z) (m : machine)
    (plan : list freq) :
  _frequencies (self m) = Some plan →
  0 <= channel →
  match plan !! Z.to_nat channel with
  | Some f =>
      set_channel channel m =
      (Ret tt, with_self (set_rfm (Some f.1.1) (Some f.1.2) (Some f.2)) m) ∧
      _channel (self (set_channel channel m).2) = _channel (self m)
  | None => set_channel channel m = (Raise LookupError, m)
  end.
Proof.
  intros Hplan Hc. unfold set_channel.
  rewrite run_frequency, Hplan. unfold plan_lookup.
  rewrite (proj2 (Z.ltb_ge channel 0)) by lia.
  destruct (plan !! Z.to_nat channel) as [f|]; [|reflexivity].
  split; [reflexivity|]. by destruct m as [[] ? ? ? ? ? ? ?].
Qed.


(** ** The wait for TxDone, reading by reading *)

#[local] Instance same_readings_preorder : PreOrder same_readings.
Proof.
  split; [by intros m | intros m1 m2 m3 [H1 H2] [H3 H4]].
  split; congruence.
Qed.

Section Wait.
Context (env : Env).

(** When the wait ends, every reading but the last ones was one after which
    it goes on; it ends on the first high DIO0, or on the first clock reading
    that reaches the timeout. *)
Lemma poll_rounds fuel start timeout : ∀ m timed_out m',
  poll env fuel start timeout m = (Ret timed_out, m') →
  ∃ last early,
    trace m' = last ++ early ++ trace m ∧
    Forall (goes_on start timeout) early ∧
    if timed_out
    then ∃ now, last = [Monotonic now; IrqValue false] ∧ timeout <= now - start
    else last = [IrqValue true].
Proof.
  induction fuel as [|fuel IH]; intros m b m'; [discriminate|].
  cbn [poll]. unfold bind at 1. unfold irq_value at 1.
  destruct (_irq (self m)) as [p|]; [|discriminate].
  destruct (irq_level env (n_irq m)) eqn:Hirq.
  { intros [= <- <-]. exists [IrqValue true], []. by repeat split. }
  unfold bind at 1. unfold monotonic at 1.
  set (now := clock env _).
  destruct (now - start >=? timeout) eqn:Hlate.
  { intros [= <- <-]. exists [Monotonic now; IrqValue false], [].
    split; [reflexivity|]. split; [constructor|].
    exists now. split; [done|]. lia. }
  intros Hrun. apply IH in Hrun as (last & early & Htrace & Hearly & Hend).
  cbn [trace] in Htrace.
  exists last, (early ++ [Monotonic now; IrqValue false]).
  split; [by rewrite Htrace, <- app_assoc|]. split; [|exact Hend].
  apply Forall_app. split; [done|].
  rewrite Z.geb_leb, Z.leb_gt in Hlate. by repeat constructor.
Qed.

(** On an object that has its [_irq]: if DIO0 is high at the [k]-th
    reading from now, or the clock has reached the timeout by then, the wait
    ends, and the same way for every bound above [k] on the number of
    rounds. *)
Lemma poll_settles start timeout : ∀ k m,
  is_Some (_irq (self m)) →
  irq_level env (n_irq m + k) = true ∨
  timeout <= clock env (n_clock m + k) - start →
  ∃ timed_out m', ∀ fuel, (k < fuel)%nat →
    poll env fuel start timeout m = (Ret timed_out, m').
Proof.
  induction k as [|k IH]; intros m [p Hpin] Hk.
  - rewrite !Nat.add_0_r in Hk.
    destruct (irq_level env (n_irq m)) eqn:Hirq.
    { eexists _, _. intros [|fuel] Hfuel; [lia|].
      cbn [poll]. unfold bind at 1. unfold irq_value at 1.
      rewrite Hpin, Hirq. reflexivity. }
    destruct Hk as [Hk|Hk]; [congruence|].
    eexists _, _. intros [|fuel] Hfuel; [lia|].
    cbn [poll]. unfold bind at 1. unfold irq_value at 1. rewrite Hpin, Hirq.
    unfold bind at 1. unfold monotonic at 1. cbn [n_clock].
    rewrite (proj2 (Z.geb_le _ _)) by lia. reflexivity.
  - destruct (irq_level env (n_irq m)) eqn:Hirq.
    { eexists _, _. intros [|fuel] Hfuel; [lia|].
      cbn [poll]. unfold bind at 1. unfold irq_value at 1.
      rewrite Hpin, Hirq. reflexivity. }
    destruct (clock env (n_clock m) - start >=? timeout) eqn:Hlate.
    { eexists _, _. intros [|fuel] Hfuel; [lia|].
      cbn [poll]. unfold bind at 1. unfold irq_value at 1.
      rewrite Hpin, Hirq.
      unfold bind at 1. unfold monotonic at 1. cbn [n_clock].
      rewrite Hlate. reflexivity. }
    destruct (IH (mkMachine (self m) (_BUFFER m) (heap m)
                    (Monotonic (clock env (n_clock m))
                       :: IrqValue false :: trace m)
                    (n_miso m) (S (n_irq m)) (S (n_clock m)) (n_rand m)))
      as (b & m' & Hrest).
    { by exists p. }
    { cbn [n_irq n_clock]. rewrite <- !Nat.add_succ_comm in Hk. exact Hk. }
    exists b, m'. intros [|fuel] Hfuel; [lia|].
    cbn [poll]. unfold bind at 1. unfold irq_value at 1. rewrite Hpin, Hirq.
    unfold bind at 1. unfold monotonic at 1. cbn [n_clock].
    rewrite Hlate. apply Hrest. lia.
Qed.

Lemma same_readings_by {A} (c : M A) :
  (∀ m, n_irq (c m).2 = n_irq m ∧ n_clock (c m).2 = n_clock m) →
  preserves same_readings c.
Proof. intros Hc m. apply Hc. Qed.

Lemma same_readings_write_u8 address val :
  preserves same_readings (_write_u8 address val).
Proof.
  apply same_readings_by. intros m. unfold _write_u8, bind, set_BUFFER.
  destruct (is_byte (Z.lor address 0x80)); cbn [negb]; [|done].
  destruct val as [v|]; [|done].
  by destruct (is_byte v).
Qed.

Lemma same_readings_getitem r i : preserves same_readings (getitem r i).
Proof.
  apply same_readings_by. intros m. unfold getitem, bind, load.
  destruct (heap m !! r) as [b|]; [|done]. by destruct (b !! i).
Qed.

Lemma same_readings_frequency channel :
  preserves same_readings (frequency channel).
Proof.
  apply same_readings_by. intros m. unfold frequency, bind, get_self.
  destruct (_frequencies (self m)) as [plan|]; [|done].
  by destruct (plan_lookup plan channel).
Qed.

(** The first phase of [send_packet] reads neither DIO0 nor the clock. *)
Lemma same_readings_program pkt len :
  preserves same_readings (send_packet_program env pkt len).
Proof.
  unfold send_packet_program.
  repeat lazymatch goal with
    | |- preserves _ (bind _ _) => apply preserves_bind; [apply _ | | intros ?]
    | |- preserves _ (for_each _ _) =>
        apply preserves_for_each; [apply _ | intros ?]
    | |- preserves _ (ret _) => apply preserves_ret, _
    | |- preserves _ (match ?x with _ => _ end) => destruct x
    | |- preserves _ (frequency _) => apply same_readings_frequency
    | |- preserves _ (getitem _ _) => apply same_readings_getitem
    | |- preserves _ (_write_u8 _ _) => apply same_readings_write_u8
    | |- preserves _ _ => by apply same_readings_by
    end.
Qed.

(** The second phase ends the same way for every bound above [k]. *)
Lemma transmit_settles timeout k m :
  irq_level env (n_irq m + k) = true ∨
  timeout <= clock env (n_clock m + 1 + k) - clock env (n_clock m) →
  ∃ o m', o ≠ Diverge ∧ ∀ fuel, (k < fuel)%nat →
    send_packet_transmit env fuel timeout m = (o, m').
Proof.
  intros Hk. unfold send_packet_transmit.
  destruct (_irq (self m)) as [p|] eqn:Hpin; cycle 1.
  { eexists (Raise AttributeError), _. split; [done|].
    intros [|fuel] Hfuel; [lia|].
    unfold bind at 1. rewrite write_u8_runs by reflexivity.
    unfold bind at 1. unfold monotonic at 1.
    unfold bind at 1. cbn [poll]. unfold bind at 1. unfold irq_value at 1.
    cbn [self with_event with_BUFFER]. rewrite Hpin. reflexivity. }
  destruct (poll_settles (clock env (n_clock m)) timeout k
              (mkMachine (self m) (Z.lor _REG_OPERATING_MODE 0x80, _MODE_TX)
                 (heap m)
                 (Monotonic (clock env (n_clock m))
                    :: SpiWrite [Z.lor _REG_OPERATING_MODE 0x80; _MODE_TX]
                    :: trace m)
                 (n_miso m) (n_irq m) (S (n_clock m)) (n_rand m)))
    as (b & m1 & Hpoll).
  { by exists p. }
  { cbn [n_irq n_clock]. by rewrite Nat.add_1_r in Hk. }
  eexists (if b then Raise SendTimeout else Ret tt), _.
  split; [by destruct b|]. intros fuel Hfuel.
  unfold bind at 1. rewrite write_u8_runs by reflexivity.
  unfold bind at 1. unfold monotonic at 1.
  unfold bind at 1.
  destruct m as [o B H T n1 n2 n3 n4].
  cbn [self _BUFFER heap trace n_miso n_irq n_clock n_rand with_event
       with_BUFFER] in *.
  rewrite (Hpoll fuel Hfuel).
  unfold bind at 1. rewrite write_u8_runs by reflexivity.
  destruct b; reflexivity.
Qed.

End Wait.

(** X9. The wait of [send_packet] is exact.  In every call that returns or
    fails with the timeout error, DIO0 was low at each reading before the
    last, and each clock reading before the last was short of the timeout:
    the call returns at the first high reading of DIO0, and times out at the
    first clock reading that is [timeout] or more after the start, DIO0
    having been read low just before.  DIO0 is read before the clock in
    every round, so a high DIO0 wins over an expired timeout. *)
Theorem send_packet_wait_is_exact (env : Env) (fuel : nat) (pkt : ref)
    (len timeout : Z) (m : machine) (o : outcome unit) (m' : machine) :
  send_packet env fuel pkt len timeout m = (o, m') →
  o = Ret tt ∨ o = Raise SendTimeout →
  ∃ start last early before,
    trace m' = SpiWrite [0x81; _MODE_SLEEP] :: last ++ early
               ++ Monotonic start :: SpiWrite [0x81; _MODE_TX] :: before ∧
    trace m `suffix_of` before ∧
    Forall (goes_on start timeout) early ∧
    match o with
    | Ret _ => last = [IrqValue true]
    | _ => ∃ now, last = [Monotonic now; IrqValue false] ∧
                  timeout <= now - start
    end.
Proof.
  intros Hrun Ho. rewrite send_packet_phases in Hrun. unfold bind in Hrun.
  pose proof (clean_send_packet_program env pkt len m) as Hclean.
  pose proof (steady_send_packet_program env pkt len m) as (_ & _ & Hpre).
  destruct (send_packet_program env pkt len m) as [[[]|e|] m1];
    cbn [fst snd] in Hclean, Hpre.
  - revert Hrun. unfold send_packet_transmit.
    unfold bind at 1. rewrite write_u8_runs by reflexivity.
    unfold bind at 1. unfold monotonic at 1.
    set (start := clock env _).
    unfold bind at 1.
    match goal with |- context [poll env fuel start timeout ?x] =>
      pose proof (poll_rounds env fuel start timeout x) as Hpoll;
      pose proof (poll_spec env fuel start timeout x) as Hspec;
      destruct (poll env fuel start timeout x) as [[b|e|] m2]
    end.
    + destruct (Hpoll b m2 eq_refl) as (last & early & Htrace & Hearly & Hend).
      unfold bind at 1. rewrite write_u8_runs by reflexivity.
      cbn [trace with_event with_BUFFER] in Htrace.
      destruct b; intros [= <- <-];
        exists start, last, early, (trace m1);
        cbn [trace with_event with_BUFFER]; rewrite Htrace;
        done.
    + destruct Hspec as (-> & _). intros [= <- <-].
      by destruct Ho.
    + intros [= <- <-]. by destruct Ho.
  - injection Hrun as <- <-. destruct Ho as [Ho|Ho]; [done|].
    injection Ho as ->. done.
  - injection Hrun as <- <-. by destruct Ho.
Qed.

(** X10. [send_packet] comes to an end.  If DIO0 is high at its [k]-th
    reading from the start of the call, or the clock has moved on by
    [timeout] at the [k]-th reading after the one that starts the wait, the
    call does not go on for ever: it has the same outcome and leaves the
    same machine for every bound above [k] on the number of rounds of the
    wait. *)
Theorem send_packet_returns (env : Env) (pkt : ref) (len timeout : Z)
    (m : machine) (k : nat) :
  irq_level env (n_irq m + k) = true ∨
  timeout <= clock env (n_clock m + 1 + k) - clock env (n_clock m) →
  ∃ o m', o ≠ Diverge ∧ ∀ fuel, (k < fuel)%nat →
    send_packet env fuel pkt len timeout m = (o, m').
Proof.
  intros Hk.
  pose proof (clean_send_packet_program env pkt len m) as Hclean.
  pose proof (same_readings_program env pkt len m) as [Hirq Hclock].
  destruct (send_packet_program env pkt len m) as [[[]|e|] m1] eqn:Hprog;
    cbn [fst snd] in Hclean, Hirq, Hclock.
  - rewrite <- Hirq, <- Hclock in Hk.
    destruct (transmit_settles env timeout k m1 Hk) as (o & m' & Ho & Hrun).
    exists o, m'. split; [exact Ho|]. intros fuel Hfuel.
    rewrite send_packet_phases. unfold bind. rewrite Hprog.
    by apply Hrun.
  - exists (Raise e), m1. split; [done|]. intros fuel _.
    rewrite send_packet_phases. unfold bind. by rewrite Hprog.
  - done.
Qed.

(** ** After release *)

Section Released.
Context (env : Env).

(** [deinit] always returns; it clears the three pins, sets the frame
    counter to 0, clears the frequency and data-rate attributes, and touches
    nothing else. *)
Lemma deinit_runs m :
  ∃ o, deinit m =
       (Ret tt,
        mkMachine o (_BUFFER m) (heap m) (trace m)
          (n_miso m) (n_irq m) (n_clock m) (n_rand m)) ∧
       (_irq o, _rst o, _cs o) = (None, None, None) ∧
       frame_counter o = Some 0 ∧
       (_rfm_msb o, _rfm_mid o, _rfm_lsb o) = (None, None, None) ∧
       (_sf o, _bw o, _modemcfg o) = (None, None, None) ∧
       (_version o, _frequencies o, _channel o, _tx_random o, _ttn_config o)
       = (_version (self m), _frequencies (self m), _channel (self m),
          _tx_random (self m), _ttn_config (self m)).
Proof.
  destruct m as [[] B H T n1 n2 n3 n4]. eexists.
  split; [vm_compute; reflexivity|]. done.
Qed.

(** A register write followed by something that fails, fails. *)
Lemma write_u8_then {B} address val (k : unit → M B) m :
  (∀ m1, self m1 = self m → trace m `suffix_of` trace m1 →
         ∃ e m', k tt m1 = (Raise e, m')) →
  ∃ e m', bind (_write_u8 address val) k m = (Raise e, m').
Proof.
  intros Hk. unfold bind.
  pose proof (fixed_write_u8 address val m) as (Hs & _ & Ht).
  assert (He0 : SendTimeout = SendTimeout ∨ SendTimeout = UnsupportedRegion)
    by (by left).
  pose proof (clean_write_u8 SendTimeout He0 address val m) as Hclean.
  destruct (_write_u8 address val m) as [[[]|e|] m1]; cbn [fst snd] in *.
  - by apply Hk.
  - by eauto.
  - done.
Qed.

(** Without a spreading factor the registers cannot be loaded. *)
Lemma load_needs_rate pkt len m :
  _sf (self m) = None →
  ∃ e m', send_packet_load pkt len m = (Raise e, m').
Proof.
  intros Hsf. unfold send_packet_load.
  rewrite run_get_self, Hsf. cbn [for_each fst snd].
  rewrite ?bind_assoc. apply write_u8_then. intros m1 _ _.
  rewrite ?bind_assoc. apply write_u8_then. intros m2 _ _.
  rewrite ?bind_assoc. apply write_u8_then. intros m3 _ _.
  rewrite ?bind_assoc. unfold bind at 1. unfold _write_u8.
  unfold bind at 1. unfold set_BUFFER at 1.
  change (negb (is_byte (Z.lor _REG_FEI_LSB 128))) with false. cbv iota.
  by eauto.
Qed.

Lemma program_needs_rate pkt len m :
  _sf (self m) = None →
  ∃ e m', send_packet_program env pkt len m = (Raise e, m').
Proof.
  intros Hsf.
  assert (Hret : ∀ (c : M unit) x, bind c ret x = c x).
  { intros c x. unfold bind, ret. by destruct (c x) as [[[]| |] ?]. }
  destruct (_channel (self m)) as [c|] eqn:Hch.
  { pose proof (program_single env pkt len ret m c Hch) as Hrun.
    rewrite !Hret in Hrun. rewrite Hrun. by apply load_needs_rate. }
  destruct (_frequencies (self m)) as [plan|] eqn:Hplan.
  - destruct (plan_lookup plan (0 + entropy env (n_rand m) `mod` (7 - 0 + 1)))
      as [f|] eqn:Hlook.
    + pose proof (program_multi env pkt len ret m plan f Hch Hplan Hlook)
        as Hrun.
      rewrite !Hret in Hrun. rewrite Hrun. apply load_needs_rate.
      cbn [self]. by destruct (self m).
    + destruct m as [o B H T n1 n2 n3 n4]; cbn [self n_rand] in *.
      rewrite program_then_load.
      rewrite ?bind_assoc, run_write_u8 by reflexivity. tidy.
      rewrite ?bind_assoc, run_emit. tidy.
      rewrite ?bind_assoc, run_write_u8 by reflexivity. tidy.
      rewrite ?bind_assoc, run_get_self. tidy. rewrite Hch.
      rewrite ?bind_assoc; unfold bind at 1, randint at 1; tidy.
      rewrite ?bind_assoc, run_modify_self; tidy.
      rewrite ?bind_assoc, run_frequency; tidy. rewrite Hplan, Hlook.
      by eauto.
  - destruct m as [o B H T n1 n2 n3 n4]; cbn [self n_rand] in *.
    rewrite program_then_load.
    rewrite ?bind_assoc, run_write_u8 by reflexivity. tidy.
    rewrite ?bind_assoc, run_emit. tidy.
    rewrite ?bind_assoc, run_write_u8 by reflexivity. tidy.
    rewrite ?bind_assoc, run_get_self. tidy. rewrite Hch.
    rewrite ?bind_assoc; unfold bind at 1, randint at 1; tidy.
    rewrite ?bind_assoc, run_modify_self; tidy.
    rewrite ?bind_assoc, run_frequency; tidy. rewrite Hplan.
    by eauto.
Qed.

(** In single-channel mode without a frequency, the first register write
    after the three preliminary events fails. *)
Lemma program_needs_frequency pkt len m c :
  _channel (self m) = Some c →
  _rfm_msb (self m) = None →
  ∃ msg B,
    send_packet_program env pkt len m =
    (Raise (TypeError msg),
     mkMachine (self m) B (heap m)
       (SpiWrite [0xC0; 0x40] :: Delay 10000 :: SpiWrite [0x81; 0x81]
          :: trace m)
       (n_miso m) (n_irq m) (n_clock m) (n_rand m)).
Proof.
  intros Hch Hmsb.
  assert (Hret : ∀ (c : M unit) x, bind c ret x = c x).
  { intros c0 x. unfold bind, ret. by destruct (c0 x) as [[[]| |] ?]. }
  pose proof (program_single env pkt len ret m c Hch) as Hrun.
  rewrite !Hret in Hrun. rewrite Hrun.
  unfold send_packet_load. rewrite run_get_self. cbn [self].
  rewrite Hmsb. cbn [for_each fst snd].
  rewrite ?bind_assoc. unfold bind at 1. unfold _write_u8.
  unfold bind at 1. unfold set_BUFFER at 1.
  change (negb (is_byte (Z.lor _REG_FRF_MSB 128))) with false. cbv iota.
  by eexists _, _.
Qed.

End Released.


(** ** From [send_data] to the FIFO *)

Lemma is_byte_spec (x : Z) : is_byte x = true ↔ 0 <= x < 256.
Proof.
  unfold is_byte. rewrite andb_true_iff, Z.leb_le, Z.ltb_lt. reflexivity.
Qed.

(** The exclusive-or of two bytes is a byte. *)
Lemma log2_byte (x : Z) : 0 <= x < 256 → Z.log2 x < 8.
Proof.
  intros Hx. destruct (Z.eq_dec x 0) as [->|Hne]; [reflexivity|].
  apply Z.log2_lt_pow2; lia.
Qed.

Lemma lxor_byte (x y : Z) :
  is_byte x = true → is_byte y = true → is_byte (Z.lxor x y) = true.
Proof.
  intros Hx%is_byte_spec Hy%is_byte_spec. apply is_byte_spec.
  assert (0 <= Z.lxor x y) as Hpos by (apply Z.lxor_nonneg; lia).
  split; [exact Hpos|].
  destruct (Z.eq_dec (Z.lxor x y) 0) as [->|Hne]; [lia|].
  change 256 with (2 ^ 8). apply Z.log2_lt_pow2; [lia|].
  pose proof (Z.log2_lxor x y ltac:(lia) ltac:(lia)).
  pose proof (log2_byte x Hx). pose proof (log2_byte y Hy). lia.
Qed.

Lemma zip_lxor_bytes (p s : list Z) :
  bytes_ok p → bytes_ok s → bytes_ok (zip_with Z.lxor p s).
Proof.
  intros Hp. revert s. induction Hp as [|x p Hx _ IH]; intros s Hs.
  - constructor.
  - destruct Hs as [|y s Hy Hs]; [constructor|].
    cbn. constructor; [by apply lxor_byte | by apply IH].
Qed.

Section Bytes.
Context (env : Env).
Hypothesis block_bytes : ∀ key blk, bytes_ok (aes_block env key blk).

(** Over a block cipher that gives bytes, the ciphertext of bytes is
    bytes. *)
Lemma encrypt_from_bytes a p : ∀ i,
  bytes_ok p → bytes_ok (encrypt_from env a i p).
Proof.
  remember (length p) as n eqn:Hn. revert p Hn.
  induction n as [n IH] using lt_wf_ind. intros p Hn i Hp; subst n.
  destruct p as [|x p]; [simp encrypt_from; constructor|].
  rewrite encrypt_from_step. apply Forall_app. split.
  - apply zip_lxor_bytes; [by apply Forall_take | apply block_bytes].
  - apply (IH (length (drop 16 (x :: p))));
      [rewrite length_drop; cbn [length]; lia | reflexivity
      | by apply Forall_drop].
Qed.

End Bytes.

Section SendData.
Context (env : Env).

(** The frame [send_data] hands over consists of bytes. *)
Lemma frame_bytes cfg a0 a1 a2 a3 F (d : list Z) :
  (∀ key blk, bytes_ok (aes_block env key blk)) →
  (∀ key msg, bytes_ok (aes_cmac env key msg)) →
  bytes_ok [a0; a1; a2; a3] → bytes_ok d →
  bytes_ok (header a0 a1 a2 a3 F
            ++ encrypt env (aes_of cfg F) d
            ++ mic_code env (aes_of cfg F)
                 (header a0 a1 a2 a3 F ++ encrypt env (aes_of cfg F) d)
                 (9 + Z.of_nat (length d))).
Proof.
  intros Hblock Hcmac Haddr Hd.
  repeat (apply Forall_cons in Haddr as [? Haddr]).
  apply Forall_app. split; [|apply Forall_app; split].
  - unfold header. repeat constructor; try done; apply is_byte_land_255.
  - by apply encrypt_from_bytes.
  - unfold mic_code, compute_mic.
    destruct (block_b0 _ _); [apply Forall_take, Hcmac | constructor].
Qed.

(** [send_data] in single-channel mode, from the payload to the bus. *)
Lemma send_data_single_channel fuel data F timeout m d cfg a0 a1 a2 a3
    c msb mid lsb sf bw cfgb :
  (∀ key blk, length (aes_block env key blk) = 16%nat) →
  (∀ key blk, bytes_ok (aes_block env key blk)) →
  (∀ key msg, length (aes_cmac env key msg) = 16%nat) →
  (∀ key msg, bytes_ok (aes_cmac env key msg)) →
  heap m !! data = Some d → bytes_ok d →
  (9 + length d + 4 ≤ 255)%nat →
  _ttn_config (self m) = Some cfg →
  dev_addr cfg = [a0; a1; a2; a3] → bytes_ok [a0; a1; a2; a3] →
  is_Some (_irq (self m)) →
  _channel (self m) = Some c →
  (_rfm_msb (self m), _rfm_mid (self m), _rfm_lsb (self m))
    = (Some msb, Some mid, Some lsb) →
  (_sf (self m), _bw (self m), _modemcfg (self m))
    = (Some sf, Some bw, Some cfgb) →
  bytes_ok [msb; mid; lsb; sf; bw; cfgb] →
  let enc := encrypt env (aes_of cfg F) d in
  ∃ mic o m' wait,
    compute_mic env (aes_of cfg F) (header a0 a1 a2 a3 F ++ enc)
      (9 + Z.of_nat (length d)) = Some mic ∧
    send_data env fuel data (Z.of_nat (length d)) F timeout m = (o, m') ∧
    (o = Ret tt ∨ o = Raise SendTimeout ∨ o = Diverge) ∧
    trace m' = wait ++ SpiWrite [0x81; _MODE_TX]
                 :: fifo_writes (header a0 a1 a2 a3 F ++ enc ++ mic)
                 ++ config_writes msb mid lsb sf bw cfgb
                      (9 + Z.of_nat (length d) + 4)
                 ++ SpiWrite [0xC0; 0x40] :: Delay 10000
                 :: SpiWrite [0x81; 0x81] :: trace m ∧
    Forall (λ e, is_wait e ∨ e = SpiWrite [0x81; _MODE_SLEEP]) wait.
Proof.
  intros Hblock Bblock Hcmac Bcmac Hd Bd Hlen Hcfg Haddr Baddr Hpin Hch Hrfm
    Hrate Hbytes enc.
  set (mic := mic_code env (aes_of cfg F) (header a0 a1 a2 a3 F ++ enc)
                (9 + Z.of_nat (length d))).
  assert (Hbound : (9 + length d <= 255)%nat) by lia.
  pose proof (pkt_buffer_frame env cfg a0 a1 a2 a3 F d Hblock Hcmac Hbound)
    as Hframe.
  cbv zeta in Hframe. fold enc in Hframe. fold mic in Hframe.
  pose proof (frame_bytes cfg a0 a1 a2 a3 F d Bblock Bcmac Baddr Bd) as Bframe.
  fold enc in Bframe. fold mic in Bframe.
  assert (Henc : length enc = length d) by (apply encrypt_length, Hblock).
  assert (Hmic : length mic = 4%nat)
    by (apply mic_code_length; [exact Hcmac | lia]).
  assert (Hcode : compute_mic env (aes_of cfg F) (header a0 a1 a2 a3 F ++ enc)
                    (9 + Z.of_nat (length d)) = Some mic)
    by (apply compute_mic_Some; lia).
  set (buf := pkt_buffer env cfg a0 a1 a2 a3 F (Z.of_nat (length d)) d) in *.
  assert (Hn : Z.to_nat (9 + Z.of_nat (length d) + 4) = (9 + length d + 4)%nat)
    by lia.
  assert (Hbuf : (9 + length d + 4 ≤ length buf)%nat).
  { assert (length (take (9 + length d + 4) buf) = (9 + length d + 4)%nat)
      as Htake by (rewrite Hframe, !length_app, header_length, Henc, Hmic; lia).
    rewrite length_take in Htake. lia. }
  pose proof Baddr as Baddr'.
  repeat (apply Forall_cons in Baddr' as [? Baddr']).
  assert (Hrun : send_data_assemble env data (Z.of_nat (length d)) F m
                 = (Ret ((length (heap m) + 1)%nat,
                         9 + Z.of_nat (length d) + 4),
                    assembled env cfg a0 a1 a2 a3 F (Z.of_nat (length d)) d m)).
  { apply send_data_assemble_runs; try done; try lia; by rewrite Haddr. }
  unfold send_data, bind. rewrite Hrun. cbn [fst snd].
  set (m1 := assembled env cfg a0 a1 a2 a3 F (Z.of_nat (length d)) d m).
  destruct (single_channel_send env fuel (length (heap m) + 1)%nat
              (9 + Z.of_nat (length d) + 4) timeout m1
              c msb mid lsb sf bw cfgb buf)
    as (o & m' & wait & Hsend & Ho & _ & _ & Htrace & Hwait).
  - subst m1. unfold assembled. cbn [self with_heap with_self].
    destruct (self m); cbn in *. exact Hpin.
  - subst m1. unfold assembled. cbn [self with_heap with_self].
    by destruct (self m).
  - subst m1. unfold assembled. cbn [self with_heap with_self].
    destruct (self m); cbn in *. exact Hrfm.
  - subst m1. unfold assembled. cbn [self with_heap with_self].
    destruct (self m); cbn in *. exact Hrate.
  - repeat (apply Forall_cons in Hbytes as [? Hbytes]).
    repeat constructor; try done. apply is_byte_spec. lia.
  - subst m1. unfold assembled. cbn [heap with_heap with_self].
    rewrite heapj_lookup. reflexivity.
  - rewrite Hn. exact Hbuf.
  - rewrite Hn, Hframe. exact Bframe.
  - exists mic, o, m', wait. split; [exact Hcode|].
    split; [exact Hsend|]. split; [exact Ho|].
    split; [|exact Hwait].
    rewrite Htrace, Hn, Hframe. reflexivity.
Qed.

End SendData.

(** X12. [send_data] in single-channel mode, from the payload to the bus, on
    an object that has its [_irq] pin.  For a payload of [N] bytes with
    [9 + N + 4] at most 255, credentials with a four-byte device address,
    and a block cipher and authentication code that give 16 bytes each, the
    integrity code is defined and the bytes written to the FIFO are, in
    order, exactly the frame: the nine header bytes, the [N] bytes of the
    encrypted payload and the four bytes of the integrity code.  Before them
    the radio is put in Standby and given the stored frequency and data
    rate, the frame length [9 + N + 4] and the FIFO pointer; after them comes
    Transmit, then only the wait and Sleep. *)
Theorem send_data_transmits_the_frame (env : Env) (fuel : nat) (data : ref)
    (F timeout : Z) (m : machine) (d : list Z) (cfg : TTN)
    (a0 a1 a2 a3 c msb mid lsb sf bw cfgb : Z) :
  (∀ key blk, length (aes_block env key blk) = 16%nat) →
  (∀ key blk, bytes_ok (aes_block env key blk)) →
  (∀ key msg, length (aes_cmac env key msg) = 16%nat) →
  (∀ key msg, bytes_ok (aes_cmac env key msg)) →
  heap m !! data = Some d → bytes_ok d →
  (9 + length d + 4 ≤ 255)%nat →
  _ttn_config (self m) = Some cfg →
  dev_addr cfg = [a0; a1; a2; a3] → bytes_ok [a0; a1; a2; a3] →
  is_Some (_irq (self m)) →
  _channel (self m) = Some c →
  (_rfm_msb (self m), _rfm_mid (self m), _rfm_lsb (self m))
    = (Some msb, Some mid, Some lsb) →
  (_sf (self m), _bw (self m), _modemcfg (self m))
    = (Some sf, Some bw, Some cfgb) →
  bytes_ok [msb; mid; lsb; sf; bw; cfgb] →
  let enc := encrypt env (aes_of cfg F) d in
  ∃ mic o m' wait,
    compute_mic env (aes_of cfg F) (header a0 a1 a2 a3 F ++ enc)
      (9 + Z.of_nat (length d)) = Some mic ∧
    send_data env fuel data (Z.of_nat (length d)) F timeout m = (o, m') ∧
    (o = Ret tt ∨ o = Raise SendTimeout ∨ o = Diverge) ∧
    trace m' = wait ++ SpiWrite [0x81; _MODE_TX]
                 :: fifo_writes (header a0 a1 a2 a3 F ++ enc ++ mic)
                 ++ config_writes msb mid lsb sf bw cfgb
                      (9 + Z.of_nat (length d) + 4)
                 ++ SpiWrite [0xC0; 0x40] :: Delay 10000
                 :: SpiWrite [0x81; 0x81] :: trace m ∧
    Forall (λ e, is_wait e ∨ e = SpiWrite [0x81; _MODE_SLEEP]) wait.
Proof. apply send_data_single_channel. Qed.

(** ** Operations in sequence *)

(** Every triple of the data-rate table consists of bytes. *)
Lemma data_rates_bytes datarate sf bw cfg :
  data_rates !! datarate = Some (sf, bw, cfg) → bytes_ok [sf; bw; cfg].
Proof.
  unfold data_rates. intros Hin%elem_of_list_to_map_2.
  repeat (apply elem_of_cons in Hin as [[= -> -> -> ->]|Hin];
          [by repeat constructor|]).
  by apply elem_of_nil in Hin.
Qed.

(** X13. A data rate set with [set_datarate] is the one the next send
    programs.  For each name of the table, in single-channel mode with the
    [_irq] pin and the frequency attributes set, [set_datarate] followed by
    [send_packet] writes
    the three bytes of the table's entry to the registers 0x1E, 0x1D and
    0x26, between the frequency and the length, and then loads the FIFO and
    transmits as usual. *)
Theorem set_datarate_then_send_packet (env : Env) (fuel : nat) (pkt : ref)
    (len timeout : Z) (m : machine) (datarate : string)
    (c msb mid lsb sf bw cfg : Z) (buf : list Z) :
  data_rates !! datarate = Some (sf, bw, cfg) →
  is_Some (_irq (self m)) →
  _channel (self m) = Some c →
  (_rfm_msb (self m), _rfm_mid (self m), _rfm_lsb (self m))
    = (Some msb, Some mid, Some lsb) →
  bytes_ok [msb; mid; lsb; len] →
  heap m !! pkt = Some buf →
  (Z.to_nat len ≤ length buf)%nat →
  bytes_ok (take (Z.to_nat len) buf) →
  ∃ m1 o m' wait,
    set_datarate datarate m = (Ret tt, m1) ∧
    send_packet env fuel pkt len timeout m1 = (o, m') ∧
    (o = Ret tt ∨ o = Raise SendTimeout ∨ o = Diverge) ∧
    trace m' = wait ++ SpiWrite [0x81; _MODE_TX]
                 :: fifo_writes (take (Z.to_nat len) buf)
                 ++ [ SpiWrite [0x8D; 0x80]; SpiWrite [0xA2; len];
                      SpiWrite [0xA6; cfg]; SpiWrite [0x9D; bw];
                      SpiWrite [0x9E; sf];
                      SpiWrite [0x88; lsb]; SpiWrite [0x87; mid];
                      SpiWrite [0x86; msb] ]
                 ++ SpiWrite [0xC0; 0x40] :: Delay 10000
                 :: SpiWrite [0x81; 0x81] :: trace m ∧
    Forall (λ e, is_wait e ∨ e = SpiWrite [0x81; _MODE_SLEEP]) wait.
Proof.
  intros Hrate Hpin Hch Hrfm Hbytes Hbuf Hlen Hpkt.
  pose proof (data_rates_bytes datarate sf bw cfg Hrate) as Brate.
  repeat (apply Forall_cons in Hbytes as [? Hbytes]).
  repeat (apply Forall_cons in Brate as [? Brate]).
  set (m1 := with_self (set_rate (Some sf) (Some bw) (Some cfg)) m).
  assert (Hpin1 : is_Some (_irq (self m1)))
    by (subst m1; by destruct m as [[]]).
  assert (Hch1 : _channel (self m1) = Some c)
    by (subst m1; by destruct m as [[]]).
  assert (Hrfm1 : (_rfm_msb (self m1), _rfm_mid (self m1), _rfm_lsb (self m1))
                  = (Some msb, Some mid, Some lsb))
    by (subst m1; by destruct m as [[]]).
  assert (Hrate1 : (_sf (self m1), _bw (self m1), _modemcfg (self m1))
                   = (Some sf, Some bw, Some cfg))
    by (subst m1; by destruct m as [[]]).
  assert (Hbytes1 : bytes_ok [msb; mid; lsb; sf; bw; cfg; len])
    by (by repeat constructor).
  destruct (single_channel_send env fuel pkt len timeout m1
              c msb mid lsb sf bw cfg buf Hpin1 Hch1 Hrfm1 Hrate1 Hbytes1
              Hbuf Hlen Hpkt)
    as (o & m' & wait & Hsend & Ho & _ & _ & Htrace & Hwait).
  exists m1, o, m', wait. split; [|done].
  unfold set_datarate. by rewrite Hrate.
Qed.

(** X14. From power-up to the air, in single-channel mode.  Construction on
    a channel of the region's plan, followed by [send_data] with a payload of
    [N] bytes ([9 + N + 4] at most 255): after the reset, the version read
    and the twelve writes that set up LoRa mode, the radio is put in Standby,
    given the three frequency bytes of that channel, the data rate SF7BW125
    (0x74, 0x72, 0x04), the frame length and the FIFO pointer, loaded with
    the frame byte by byte, and switched to Transmit.  The frame ends in the
    integrity code, which is defined for such a length. *)
Theorem construct_then_send_data (env : Env) (fuel : nat) (data : ref)
    (F timeout : Z) (m : machine) (d : list Z) (ttn_config : TTN)
    (a0 a1 a2 a3 c : Z) (f : freq) :
  miso env (n_miso m) = 18 →
  supported_region (country ttn_config) = true →
  0 <= c →
  region_plan env (country ttn_config) !! Z.to_nat c = Some f →
  bytes_ok [f.1.1; f.1.2; f.2] →
  dev_addr ttn_config = [a0; a1; a2; a3] → bytes_ok [a0; a1; a2; a3] →
  (∀ key blk, length (aes_block env key blk) = 16%nat) →
  (∀ key blk, bytes_ok (aes_block env key blk)) →
  (∀ key msg, length (aes_cmac env key msg) = 16%nat) →
  (∀ key msg, bytes_ok (aes_cmac env key msg)) →
  heap m !! data = Some d → bytes_ok d →
  (9 + length d + 4 ≤ 255)%nat →
  let enc := encrypt env (aes_of ttn_config F) d in
  ∃ mic m1 o m2 wait,
    compute_mic env (aes_of ttn_config F)
      (header a0 a1 a2 a3 F ++ enc) (9 + Z.of_nat (length d)) = Some mic ∧
    __init__ env ttn_config (Some c) m = (Ret tt, m1) ∧
    send_data env fuel data (Z.of_nat (length d)) F timeout m1 = (o, m2) ∧
    (o = Ret tt ∨ o = Raise SendTimeout ∨ o = Diverge) ∧
    trace m2 = wait ++ SpiWrite [0x81; _MODE_TX]
                 :: fifo_writes (header a0 a1 a2 a3 F ++ enc ++ mic)
                 ++ config_writes f.1.1 f.1.2 f.2 0x74 0x72 0x04
                      (9 + Z.of_nat (length d) + 4)
                 ++ SpiWrite [0xC0; 0x40] :: Delay 10000
                 :: SpiWrite [0x81; 0x81]
                 :: init_writes
                 ++ Randint (entropy env (n_rand m) `mod` 8)
                 :: reset_and_probe ++ trace m ∧
    Forall (λ e, is_wait e ∨ e = SpiWrite [0x81; _MODE_SLEEP]) wait.
Proof.
  intros Hversion Hregion Hc Hf Bf Haddr Baddr Hblock Bblock Hcmac Bcmac
    Hd Bd Hlen enc.
  pose proof (init_reaches_configure env ttn_config (Some c) m
                Hversion Hregion) as Hinit.
  erewrite (init_configure_runs env ttn_config (Some c) _ _ (Some f))
    in Hinit; [|reflexivity|].
  2:{ exists f. split; [|done].
      unfold plan_lookup. by rewrite (proj2 (Z.ltb_ge c 0)) by lia. }
  cbn [self heap trace n_miso n_irq n_clock n_rand] in Hinit.
  match type of Hinit with _ = (_, ?M) => set (m1 := M) in * end.
  assert (Bf' : bytes_ok [f.1.1; f.1.2; f.2; 0x74; 0x72; 0x04]).
  { repeat (apply Forall_cons in Bf as [? Bf]). by repeat constructor. }
  assert (Hpin : is_Some (_irq (self m1))) by (by exists IRQ).
  destruct (send_data_single_channel env fuel data F timeout m1 d
              ttn_config a0 a1 a2 a3 c f.1.1 f.1.2 f.2 0x74 0x72 0x04
              Hblock Bblock Hcmac Bcmac Hd Bd Hlen eq_refl Haddr Baddr
              Hpin eq_refl eq_refl eq_refl Bf')
    as (mic & o & m2 & wait & Hmic & Hsend & Ho & Htrace & Hwait).
  exists mic, m1, o, m2, wait. split; [exact Hmic|].
  split; [exact Hinit|]. split; [exact Hsend|].
  split; [exact Ho|]. split; [|exact Hwait].
  rewrite Htrace. reflexivity.
Qed.

(** ** Reading into a buffer *)

(** X15. [_read_into] without a length fills the whole buffer.  For a
    [bytearray] of [n] bytes the call stores the address with its top bit
    cleared in the first byte of the class buffer [_BUFFER] and sends it,
    reads [n] bytes in one transfer, and the buffer then holds exactly the
    bytes the radio answered, in order.  With a length [k] of at most [n]
    only the first [k] bytes are replaced.  The second byte of [_BUFFER],
    every other [bytearray] and every attribute of the object stay as they
    were. *)
Theorem read_into_fills_the_buffer (env : Env) (address : Z) (r : ref)
    (length : option nat) (old : list Z) (m : machine) :
  heap m !! r = Some old →
  match length with Some k => (k ≤ List.length old)%nat | None => True end →
  let k := default (List.length old) length in
  let answer := (λ i, miso env (n_miso m + i)%nat) <$> seq 0 k in
  _read_into env address (Bytearray r) length m =
  (Ret tt,
   mkMachine (self m) (Z.land address 0x7F, (_BUFFER m).2)
     (<[r := answer ++ drop k old]> (heap m))
     (SpiRead answer :: SpiWrite [Z.land address 0x7F] :: trace m)
     (n_miso m + k) (n_irq m) (n_clock m) (n_rand m)).
Proof.
  intros Hold Hk k answer.
  destruct m as [o B H T n1 n2 n3 n4]; cbn [heap n_miso _BUFFER] in *.
  assert (Hmin : (k `min` List.length old = k)%nat).
  { subst k. destruct length as [k0|]; cbn in *; lia. }
  assert (Hanswer : List.length answer = k).
  { subst answer. by rewrite length_fmap, length_seq. }
  unfold _read_into.
  assert (Hlen : ∀ {X} (cont : nat → M X),
            bind match length with
                 | Some n => ret n
                 | None => b ← load r; ret (List.length b)
                 end cont (mkMachine o B H T n1 n2 n3 n4)
            = cont k (mkMachine o B H T n1 n2 n3 n4)).
  { intros X cont. subst k answer.
    destruct length as [k0|]; cbn [default from_option id].
    - reflexivity.
    - rewrite bind_assoc, run_load. cbn [heap]. rewrite Hold. reflexivity. }
  rewrite Hlen.
  unfold bind at 1, set_BUFFER. rewrite is_byte_land_127. cbn [negb].
  unfold bind at 1, get_BUFFER. cbn [_BUFFER with_BUFFER fst].
  unfold device_write. rewrite run_emit.
  unfold readinto. rewrite run_load.
  cbn [heap with_event with_BUFFER]. rewrite Hold.
  unfold bind at 1, device_read. cbn [n_miso]. rewrite Hmin.
  cbn [n_miso with_event with_BUFFER _BUFFER heap self trace n_irq n_clock
       n_rand fst snd].
  fold answer. unfold store. rewrite Hanswer. reflexivity.
Qed.

(** ** A length shorter than the payload *)

Section Prefix.
Context (env : Env).

(** Only the first [dl] bytes of the payload enter the packet buffer. *)
Lemma pkt_buffer_prefix cfg a0 a1 a2 a3 F dl (d : list Z) :
  pkt_buffer env cfg a0 a1 a2 a3 F dl d
  = pkt_buffer env cfg a0 a1 a2 a3 F dl (take (Z.to_nat dl) d).
Proof.
  unfold pkt_buffer, mic_buffer, pkt_loaded, enc_buffer, slice_to.
  by rewrite take_take, Nat.min_id.
Qed.

Lemma send_data_prefix_frame fuel data dl F timeout m d cfg a0 a1 a2 a3 :
  (∀ key blk, length (aes_block env key blk) = 16%nat) →
  (∀ key msg, length (aes_cmac env key msg) = 16%nat) →
  heap m !! data = Some d →
  0 <= dl <= Z.of_nat (length d) →
  9 + dl <= 255 →
  _ttn_config (self m) = Some cfg →
  dev_addr cfg = [a0; a1; a2; a3] →
  Forall (λ b, is_byte b = true) [a0; a1; a2; a3] →
  let enc := encrypt env (aes_of cfg F) (take (Z.to_nat dl) d) in
  ∃ mic pkt buf m',
    compute_mic env (aes_of cfg F) (header a0 a1 a2 a3 F ++ enc) (9 + dl)
      = Some mic ∧
    send_data_assemble env data dl F m = (Ret (pkt, 9 + dl + 4), m') ∧
    send_data env fuel data dl F timeout m
      = send_packet env fuel pkt (9 + dl + 4) timeout m' ∧
    heap m' !! pkt = Some buf ∧
    take (Z.to_nat (9 + dl + 4)) buf = header a0 a1 a2 a3 F ++ enc ++ mic ∧
    length enc = Z.to_nat dl ∧ length mic = 4%nat.
Proof.
  intros Hblock Hcmac Hd Hdl Hbound Hcfg Haddr Baddr enc.
  set (mic := mic_code env (aes_of cfg F) (header a0 a1 a2 a3 F ++ enc)
                (9 + dl)).
  repeat (apply Forall_cons in Baddr as [? Baddr]).
  assert (Hlen' : length (take (Z.to_nat dl) d) = Z.to_nat dl).
  { rewrite length_take. lia. }
  assert (Hlen : Z.of_nat (length (take (Z.to_nat dl) d)) = dl) by lia.
  assert (Hbound' : (9 + length (take (Z.to_nat dl) d) <= 255)%nat) by lia.
  pose proof (pkt_buffer_frame env cfg a0 a1 a2 a3 F (take (Z.to_nat dl) d)
                Hblock Hcmac Hbound') as Hframe.
  cbv zeta in Hframe. rewrite Hlen, Hlen' in Hframe.
  fold enc in Hframe. fold mic in Hframe.
  rewrite <- pkt_buffer_prefix in Hframe.
  assert (Hrun : send_data_assemble env data dl F m
                 = (Ret ((length (heap m) + 1)%nat, 9 + dl + 4),
                    assembled env cfg a0 a1 a2 a3 F dl d m)).
  { apply (send_data_assemble_runs env data dl F m d cfg a0 a1 a2 a3);
      try done; try lia; by rewrite Haddr. }
  exists mic. eexists _, _, _.
  split; [apply compute_mic_Some; lia|].
  split; [exact Hrun|]. split.
  { unfold send_data, bind. rewrite Hrun. reflexivity. }
  split.
  { unfold assembled. cbn [heap with_heap with_self].
    rewrite heapj_lookup. reflexivity. }
  split.
  { replace (Z.to_nat (9 + dl + 4)) with (9 + Z.to_nat dl + 4)%nat by lia.
    exact Hframe. }
  split.
  - subst enc. by rewrite encrypt_length.
  - apply mic_code_length; [exact Hcmac | lia].
Qed.

End Prefix.

(** X16. A length shorter than the payload sends a prefix.  When
    [data_length] is at most the length of [data], and [9 + data_length] at
    most 255 so that the integrity code is defined, [send_data] encrypts
    and frames exactly the first [data_length] bytes of [data]: it is, from
    there on, the call of [send_packet] on a packet of length
    [9 + data_length + 4] that consists of the header, the ciphertext of
    that prefix, and the integrity code over header and ciphertext.  The
    bytes of [data] past [data_length] have no influence on the frame. *)
Theorem send_data_sends_a_prefix (env : Env) (fuel : nat) (data : ref)
    (dl F timeout : Z) (m : machine) (d : list Z) (cfg : TTN)
    (a0 a1 a2 a3 : Z) :
  (∀ key blk, length (aes_block env key blk) = 16%nat) →
  (∀ key msg, length (aes_cmac env key msg) = 16%nat) →
  heap m !! data = Some d →
  0 <= dl <= Z.of_nat (length d) →
  9 + dl <= 255 →
  _ttn_config (self m) = Some cfg →
  dev_addr cfg = [a0; a1; a2; a3] →
  Forall (λ b, is_byte b = true) [a0; a1; a2; a3] →
  let enc := encrypt env (aes_of cfg F) (take (Z.to_nat dl) d) in
  ∃ mic pkt buf m',
    compute_mic env (aes_of cfg F) (header a0 a1 a2 a3 F ++ enc) (9 + dl)
      = Some mic ∧
    send_data_assemble env data dl F m = (Ret (pkt, 9 + dl + 4), m') ∧
    send_data env fuel data dl F timeout m
      = send_packet env fuel pkt (9 + dl + 4) timeout m' ∧
    heap m' !! pkt = Some buf ∧
    take (Z.to_nat (9 + dl + 4)) buf = header a0 a1 a2 a3 F ++ enc ++ mic ∧
    length enc = Z.to_nat dl ∧ length mic = 4%nat.
Proof. apply send_data_prefix_frame. Qed.

(** ** Multi-channel mode, the whole send *)

Section Hopping.
Context (env : Env).

Lemma multi_channel_send fuel pkt len timeout m plan (f : freq) sf bw cfg buf :
  is_Some (_irq (self m)) →
  _channel (self m) = None →
  _frequencies (self m) = Some plan →
  plan !! Z.to_nat (entropy env (n_rand m) `mod` 8) = Some f →
  (_sf (self m), _bw (self m), _modemcfg (self m))
    = (Some sf, Some bw, Some cfg) →
  bytes_ok [f.1.1; f.1.2; f.2; sf; bw; cfg; len] →
  heap m !! pkt = Some buf →
  (Z.to_nat len ≤ length buf)%nat →
  bytes_ok (take (Z.to_nat len) buf) →
  ∃ o m' wait,
    send_packet env fuel pkt len timeout m = (o, m') ∧
    (o = Ret tt ∨ o = Raise SendTimeout ∨ o = Diverge) ∧
    self m' = set_rfm (Some f.1.1) (Some f.1.2) (Some f.2)
                (set_tx_random (Some (entropy env (n_rand m) `mod` 8))
                   (self m)) ∧
    heap m' = heap m ∧
    trace m' = wait ++ SpiWrite [0x81; _MODE_TX]
                 :: fifo_writes (take (Z.to_nat len) buf)
                 ++ config_writes f.1.1 f.1.2 f.2 sf bw cfg len
                 ++ Randint (entropy env (n_rand m) `mod` 8)
                 :: SpiWrite [0xC0; 0x40] :: Delay 10000
                 :: SpiWrite [0x81; 0x81] :: trace m ∧
    Forall (λ e, is_wait e ∨ e = SpiWrite [0x81; _MODE_SLEEP]) wait.
Proof.
  intros Hpin Hch Hplan Hf [= Hsf Hbw Hcfg] Hbytes Hbuf Hlen Hpkt.
  assert (Hpin1 : is_Some (_irq (set_rfm (Some f.1.1) (Some f.1.2) (Some f.2)
                    (set_tx_random (Some (entropy env (n_rand m) `mod` 8))
                       (self m)))))
    by (revert Hpin; by destruct (self m)).
  assert (Hlook : plan_lookup plan (0 + entropy env (n_rand m) `mod` (7 - 0 + 1))
                  = Some f).
  { pose proof (randint_0_7 (entropy env (n_rand m))) as Hr.
    change (0 + entropy env (n_rand m) `mod` (7 - 0 + 1))
      with (entropy env (n_rand m) `mod` 8) in *.
    unfold plan_lookup. by rewrite (proj2 (Z.ltb_ge _ 0)) by lia. }
  rewrite send_packet_phases,
    (program_multi env pkt len _ m plan f Hch Hplan Hlook).
  match goal with |- context [bind (send_packet_load pkt len) _ ?x] =>
    destruct (load_runs pkt len x f.1.1 f.1.2 f.2 sf bw cfg buf) as [B HB];
      try done; try (cbn [self]; by destruct (self m))
  end.
  unfold bind at 1. rewrite HB.
  cbn [self heap trace n_miso n_irq n_clock n_rand].
  match goal with |- context [send_packet_transmit env fuel timeout ?x] =>
    destruct (send_packet_transmit env fuel timeout x) as [o m'] eqn:Hrun;
    destruct (transmit_traffic env fuel timeout x o m' Hpin1 Hrun)
      as (Ho & Hs & Hh & wait & Ht & Hw)
  end.
  exists o, m', wait. cbn [self heap trace] in *.
  done.
Qed.

End Hopping.

(** X17. The whole of a send in multi-channel mode, the mode of a driver
    constructed without a channel.  With the [_irq] pin and the data-rate
    attributes set (as they are from construction until [deinit]), a
    plan that has the entry drawn, and the length within the packet buffer,
    [send_packet] draws one index, stores it and the entry of the plan in
    the object, and puts on the bus, in this order, Standby, the 10 ms
    delay, the DIO mapping, the three frequency bytes drawn, the three
    data-rate bytes, the length, the FIFO pointer, the first [len] bytes of
    the packet and Transmit; after that come only readings of DIO0 and the
    clock and the write of Sleep. *)
Theorem send_packet_multi_channel_traffic (env : Env) (fuel : nat)
    (pkt : ref) (len timeout : Z) (m : machine) (plan : list freq) (f : freq)
    (sf bw cfg : Z) (buf : list Z) :
  is_Some (_irq (self m)) →
  _channel (self m) = None →
  _frequencies (self m) = Some plan →
  plan !! Z.to_nat (entropy env (n_rand m) `mod` 8) = Some f →
  (_sf (self m), _bw (self m), _modemcfg (self m))
    = (Some sf, Some bw, Some cfg) →
  bytes_ok [f.1.1; f.1.2; f.2; sf; bw; cfg; len] →
  heap m !! pkt = Some buf →
  (Z.to_nat len ≤ length buf)%nat →
  bytes_ok (take (Z.to_nat len) buf) →
  ∃ o m' wait,
    send_packet env fuel pkt len timeout m = (o, m') ∧
    (o = Ret tt ∨ o = Raise SendTimeout ∨ o = Diverge) ∧
    self m' = set_rfm (Some f.1.1) (Some f.1.2) (Some f.2)
                (set_tx_random (Some (entropy env (n_rand m) `mod` 8))
                   (self m)) ∧
    heap m' = heap m ∧
    trace m' = wait ++ SpiWrite [0x81; _MODE_TX]
                 :: fifo_writes (take (Z.to_nat len) buf)
                 ++ config_writes f.1.1 f.1.2 f.2 sf bw cfg len
                 ++ Randint (entropy env (n_rand m) `mod` 8)
                 :: SpiWrite [0xC0; 0x40] :: Delay 10000
                 :: SpiWrite [0x81; 0x81] :: trace m ∧
    Forall (λ e, is_wait e ∨ e = SpiWrite [0x81; _MODE_SLEEP]) wait.
Proof. apply multi_channel_send. Qed.

(** ** Assembling a frame is silent *)

Section Silent.
Context (env : Env).

Ltac silent_step :=
  apply adds_same; intros m;
  unfold bytearray, get_slice_to, set_slice, setitem, index, self_ttn_config,
    self_frame_counter, aes_encrypt, aes_calculate_mic, set_slice, store,
    load, bind, get_self, modify_self, ret, raise;
  repeat case_match; simplify_eq; reflexivity.

(** [send_data] puts nothing on the bus before it calls [send_packet]. *)
Lemma assemble_is_silent data dl F :
  preserves (adds (λ _, False)) (send_data_assemble env data dl F).
Proof.
  unfold send_data_assemble.
  repeat lazymatch goal with
    | |- preserves _ (bind _ _) => apply preserves_bind; [apply _ | | intros ?]
    | |- preserves _ (ret _) => apply preserves_ret, _
    | |- preserves _ _ => silent_step
    end.
Qed.

End Silent.

(** X18. [send_data] touches the radio only once the frame is assembled.
    Allocating, copying, encrypting, writing the header and computing the
    integrity code put nothing on the bus and read no input.  So a call
    that fails in that part (a payload that is not a buffer, missing
    credentials, a device address shorter than four bytes) fails with that
    exception and leaves the record of the bus as it was: the radio has not
    even been put in Standby. *)
Theorem send_data_assembles_before_the_bus (env : Env) (fuel : nat)
    (data : ref) (dl F timeout : Z) (m : machine) :
  trace (send_data_assemble env data dl F m).2 = trace m ∧
  ∀ e m1,
    send_data_assemble env data dl F m = (Raise e, m1) →
    send_data env fuel data dl F timeout m = (Raise e, m1) ∧
    trace m1 = trace m.
Proof.
  destruct (assemble_is_silent env data dl F m) as (new & Htrace & Hnew).
  destruct new as [|e0 new]; [|by apply Forall_cons in Hnew as [[] _]].
  split; [exact Htrace|]. intros e m1 Hrun.
  unfold send_data, bind. rewrite Hrun in Htrace |- *. done.
Qed.

(** * Further properties on the simulated radio *)

Lemma runs_block_length (key blk : list Z) :
  length (Runs.block key blk) = 16%nat.
Proof. unfold Runs.block. rewrite length_fmap. apply sim_block_length. Qed.

Lemma runs_cmac_length (key msg : list Z) :
  length (Runs.cmac key msg) = 16%nat.
Proof. unfold Runs.cmac. rewrite length_fmap. apply sim_cmac_length. Qed.

Lemma land_255_bytes (l : list Z) : bytes_ok ((λ x, Z.land x 0xFF) <$> l).
Proof. apply Forall_fmap, Forall_true. intros x. apply is_byte_land_255. Qed.

Lemma runs_block_bytes (key blk : list Z) : bytes_ok (Runs.block key blk).
Proof. apply land_255_bytes. Qed.

Lemma runs_cmac_bytes (key msg : list Z) : bytes_ok (Runs.cmac key msg).
Proof. apply land_255_bytes. Qed.

Lemma send_packet_single_channel_traffic_witness :
  ∃ o m' wait,
    send_packet (Sim.env 1 4) 5 0 2 2 Sim.timely_start = (o, m') ∧
    (o = Ret tt ∨ o = Raise SendTimeout ∨ o = Diverge) ∧
    self m' = self Sim.timely_start ∧ heap m' = heap Sim.timely_start ∧
    trace m' = wait ++ SpiWrite [0x81; _MODE_TX]
                 :: fifo_writes (take (Z.to_nat 2) [0x01; 0x02])
                 ++ config_writes 0xE1 0x11 0xC0 0x74 0x72 0x04 2
                 ++ SpiWrite [0xC0; 0x40] :: Delay 10000
                 :: SpiWrite [0x81; 0x81] :: trace Sim.timely_start ∧
    Forall (λ e, is_wait e ∨ e = SpiWrite [0x81; _MODE_SLEEP]) wait.
Proof.
  apply (send_packet_single_channel_traffic (Sim.env 1 4) 5 0 2 2
           Sim.timely_start 1 0xE1 0x11 0xC0 0x74 0x72 0x04 [0x01; 0x02]).
  - vm_compute. eexists. reflexivity.
  - vm_compute. reflexivity.
  - vm_compute. reflexivity.
  - vm_compute. reflexivity.
  - repeat constructor.
  - vm_compute. reflexivity.
  - vm_compute. lia.
  - repeat constructor.
Defined.


Lemma init_version_mismatch_witness :
  __init__ Runs.env_no_radio Sim.credentials (Some 1) (Sim.boot []) =
  (Raise DeviceNotDetected,
   mkMachine
     (set_version (Some (miso Runs.env_no_radio (n_miso (Sim.boot [])))) wired)
     (miso Runs.env_no_radio (n_miso (Sim.boot [])),
      (_BUFFER (Sim.boot [])).2) (heap (Sim.boot []))
     (SpiRead [miso Runs.env_no_radio (n_miso (Sim.boot []))]
        :: SpiWrite [0x42] :: Delay 5000
        :: RstValue true :: Delay 100 :: RstValue false
        :: SwitchToOutput RST :: SwitchToOutput CS :: SwitchToInput IRQ
        :: trace (Sim.boot []))
     (n_miso (Sim.boot []) + 1) (n_irq (Sim.boot [])) (n_clock (Sim.boot []))
     (n_rand (Sim.boot []))).
Proof.
  apply (init_version_mismatch Runs.env_no_radio Sim.credentials (Some 1)
           (Sim.boot [])).
  vm_compute. discriminate.
Defined.

Lemma init_constructs_witness :
  __init__ (Sim.env 0 0) Sim.credentials (Some 1) (Sim.boot []) =
  (Ret tt,
   mkMachine
     (constructed (Sim.env 0 0) Sim.credentials (Some 1)
        (Some (0xE1, 0x11, 0xC0))
        (entropy (Sim.env 0 0) (n_rand (Sim.boot [])) `mod` 8))
     (0x8F, 0x00) (heap (Sim.boot []))
     (init_writes
        ++ Randint (entropy (Sim.env 0 0) (n_rand (Sim.boot [])) `mod` 8)
        :: reset_and_probe ++ trace (Sim.boot []))
     (n_miso (Sim.boot []) + 1) (n_irq (Sim.boot [])) (n_clock (Sim.boot []))
     (S (n_rand (Sim.boot [])))).
Proof.
  apply (init_constructs (Sim.env 0 0) Sim.credentials (Some 1)
           (Some (0xE1, 0x11, 0xC0)) (Sim.boot [])).
  - reflexivity.
  - reflexivity.
  - split; [lia|]. split; [by eexists|]. vm_compute. reflexivity.
Defined.

Lemma init_channel_beyond_plan_witness :
  ∃ m',
    __init__ (Sim.env 0 0) Sim.credentials (Some 8) (Sim.boot [])
      = (Raise LookupError, m') ∧
    trace m' = Randint (entropy (Sim.env 0 0) (n_rand (Sim.boot [])) `mod` 8)
                 :: reset_and_probe ++ trace (Sim.boot []) ∧
    _frequencies (self m')
      = Some (region_plan (Sim.env 0 0) (country Sim.credentials)) ∧
    _channel (self m') = Some 8 ∧
    (_rfm_msb (self m'), _rfm_mid (self m'), _rfm_lsb (self m'))
      = (None, None, None) ∧
    frame_counter (self m') = None ∧ _ttn_config (self m') = None.
Proof.
  apply (init_channel_beyond_plan (Sim.env 0 0) Sim.credentials 8
           (Sim.boot [])).
  - reflexivity.
  - reflexivity.
  - vm_compute. discriminate.
Defined.

Lemma set_channel_all_or_nothing_witness :
  match Sim.plan 0xE1 !! Z.to_nat 2 with
  | Some f =>
      set_channel 2 Sim.timely_start =
      (Ret tt,
       with_self (set_rfm (Some f.1.1) (Some f.1.2) (Some f.2))
         Sim.timely_start) ∧
      _channel (self (set_channel 2 Sim.timely_start).2)
      = _channel (self Sim.timely_start)
  | None => set_channel 2 Sim.timely_start = (Raise LookupError, Sim.timely_start)
  end.
Proof.
  apply (set_channel_all_or_nothing 2 Sim.timely_start (Sim.plan 0xE1)).
  - vm_compute. reflexivity.
  - lia.
Defined.


Lemma send_packet_wait_is_exact_witness :
  ∃ start last early before,
    trace Sim.timely.2
      = SpiWrite [0x81; _MODE_SLEEP] :: last ++ early
        ++ Monotonic start :: SpiWrite [0x81; _MODE_TX] :: before ∧
    trace Sim.timely_start `suffix_of` before ∧
    Forall (goes_on start 2) early ∧
    last = [IrqValue true].
Proof.
  apply (send_packet_wait_is_exact (Sim.env 1 4) 5 0 2 2
           Sim.timely_start (Ret tt) Sim.timely.2).
  - vm_compute. reflexivity.
  - left. reflexivity.
Defined.

Lemma send_packet_returns_witness :
  ∃ o m', o ≠ Diverge ∧ ∀ fuel, (1 < fuel)%nat →
    send_packet (Sim.env 1 4) fuel 0 2 2 Sim.timely_start = (o, m').
Proof.
  apply (send_packet_returns (Sim.env 1 4) 0 2 2 Sim.timely_start 1).
  left. vm_compute. reflexivity.
Defined.

Lemma send_data_transmits_the_frame_witness :
  let enc := encrypt Runs.env (aes_of Sim.credentials 5) [0x01; 0x02] in
  ∃ mic o m' wait,
    compute_mic Runs.env (aes_of Sim.credentials 5)
      (header 0x00 0x11 0x22 0x33 5 ++ enc)
      (9 + Z.of_nat (length [0x01; 0x02])) = Some mic ∧
    send_data Runs.env 5 0 (Z.of_nat (length [0x01; 0x02])) 5 2 Runs.start
      = (o, m') ∧
    (o = Ret tt ∨ o = Raise SendTimeout ∨ o = Diverge) ∧
    trace m' = wait ++ SpiWrite [0x81; _MODE_TX]
                 :: fifo_writes (header 0x00 0x11 0x22 0x33 5 ++ enc ++ mic)
                 ++ config_writes 0xE1 0x11 0xC0 0x74 0x72 0x04
                      (9 + Z.of_nat (length [0x01; 0x02]) + 4)
                 ++ SpiWrite [0xC0; 0x40] :: Delay 10000
                 :: SpiWrite [0x81; 0x81] :: trace Runs.start ∧
    Forall (λ e, is_wait e ∨ e = SpiWrite [0x81; _MODE_SLEEP]) wait.
Proof.
  apply (send_data_transmits_the_frame Runs.env 5 0 5 2 Runs.start
           [0x01; 0x02] Sim.credentials 0x00 0x11 0x22 0x33
           1 0xE1 0x11 0xC0 0x74 0x72 0x04).
  - exact runs_block_length.
  - exact runs_block_bytes.
  - exact runs_cmac_length.
  - exact runs_cmac_bytes.
  - vm_compute. reflexivity.
  - repeat constructor.
  - vm_compute. lia.
  - vm_compute. reflexivity.
  - reflexivity.
  - repeat constructor.
  - vm_compute. eexists. reflexivity.
  - vm_compute. reflexivity.
  - vm_compute. reflexivity.
  - vm_compute. reflexivity.
  - repeat constructor.
Defined.

Lemma set_datarate_then_send_packet_witness :
  ∃ m1 o m' wait,
    set_datarate "SF12BW125" Sim.timely_start = (Ret tt, m1) ∧
    send_packet (Sim.env 1 4) 5 0 2 2 m1 = (o, m') ∧
    (o = Ret tt ∨ o = Raise SendTimeout ∨ o = Diverge) ∧
    trace m' = wait ++ SpiWrite [0x81; _MODE_TX]
                 :: fifo_writes (take (Z.to_nat 2) [0x01; 0x02])
                 ++ [ SpiWrite [0x8D; 0x80]; SpiWrite [0xA2; 2];
                      SpiWrite [0xA6; 0x0C]; SpiWrite [0x9D; 0x72];
                      SpiWrite [0x9E; 0xC4];
                      SpiWrite [0x88; 0xC0]; SpiWrite [0x87; 0x11];
                      SpiWrite [0x86; 0xE1] ]
                 ++ SpiWrite [0xC0; 0x40] :: Delay 10000
                 :: SpiWrite [0x81; 0x81] :: trace Sim.timely_start ∧
    Forall (λ e, is_wait e ∨ e = SpiWrite [0x81; _MODE_SLEEP]) wait.
Proof.
  apply (set_datarate_then_send_packet (Sim.env 1 4) 5 0 2 2 Sim.timely_start
           "SF12BW125" 1 0xE1 0x11 0xC0 0xC4 0x72 0x0C [0x01; 0x02]).
  - vm_compute. reflexivity.
  - vm_compute. eexists. reflexivity.
  - vm_compute. reflexivity.
  - vm_compute. reflexivity.
  - repeat constructor.
  - vm_compute. reflexivity.
  - vm_compute. lia.
  - repeat constructor.
Defined.

Lemma construct_then_send_data_witness :
  let enc := encrypt Runs.env (aes_of Sim.credentials 5) [0x01; 0x02] in
  ∃ mic m1 o m2 wait,
    compute_mic Runs.env (aes_of Sim.credentials 5)
      (header 0x00 0x11 0x22 0x33 5 ++ enc)
      (9 + Z.of_nat (length [0x01; 0x02])) = Some mic ∧
    __init__ Runs.env Sim.credentials (Some 1) (Sim.boot [0x01; 0x02])
      = (Ret tt, m1) ∧
    send_data Runs.env 5 0 (Z.of_nat (length [0x01; 0x02])) 5 2 m1
      = (o, m2) ∧
    (o = Ret tt ∨ o = Raise SendTimeout ∨ o = Diverge) ∧
    trace m2 = wait ++ SpiWrite [0x81; _MODE_TX]
                 :: fifo_writes (header 0x00 0x11 0x22 0x33 5 ++ enc ++ mic)
                 ++ config_writes (0xE1, 0x11, 0xC0).1.1 (0xE1, 0x11, 0xC0).1.2
                      (0xE1, 0x11, 0xC0).2 0x74 0x72 0x04
                      (9 + Z.of_nat (length [0x01; 0x02]) + 4)
                 ++ SpiWrite [0xC0; 0x40] :: Delay 10000
                 :: SpiWrite [0x81; 0x81]
                 :: init_writes
                 ++ Randint (entropy Runs.env
                               (n_rand (Sim.boot [0x01; 0x02])) `mod` 8)
                 :: reset_and_probe ++ trace (Sim.boot [0x01; 0x02]) ∧
    Forall (λ e, is_wait e ∨ e = SpiWrite [0x81; _MODE_SLEEP]) wait.
Proof.
  apply (construct_then_send_data Runs.env 5 0 5 2 (Sim.boot [0x01; 0x02])
           [0x01; 0x02] Sim.credentials 0x00 0x11 0x22 0x33 1
           (0xE1, 0x11, 0xC0)).
  - reflexivity.
  - reflexivity.
  - lia.
  - vm_compute. reflexivity.
  - repeat constructor.
  - reflexivity.
  - repeat constructor.
  - exact runs_block_length.
  - exact runs_block_bytes.
  - exact runs_cmac_length.
  - exact runs_cmac_bytes.
  - reflexivity.
  - repeat constructor.
  - vm_compute. lia.
Defined.

Lemma read_into_fills_the_buffer_witness :
  let k := default (length [7; 7; 7]) None in
  let answer :=
    (λ i, miso (Sim.env 0 0) (n_miso (Sim.boot [7%Z; 7%Z; 7%Z]) + i)%nat)
      <$> seq 0 k in
  _read_into (Sim.env 0 0) 0x42 (Bytearray 0) None (Sim.boot [7; 7; 7]) =
  (Ret tt,
   mkMachine (self (Sim.boot [7; 7; 7]))
     (Z.land 0x42 0x7F, (_BUFFER (Sim.boot [7; 7; 7])).2)
     (<[0%nat := answer ++ drop k [7; 7; 7]]> (heap (Sim.boot [7; 7; 7])))
     (SpiRead answer :: SpiWrite [Z.land 0x42 0x7F]
        :: trace (Sim.boot [7; 7; 7]))
     (n_miso (Sim.boot [7; 7; 7]) + k) (n_irq (Sim.boot [7; 7; 7]))
     (n_clock (Sim.boot [7; 7; 7])) (n_rand (Sim.boot [7; 7; 7]))).
Proof.
  apply (read_into_fills_the_buffer (Sim.env 0 0) 0x42 0 None [7; 7; 7]
           (Sim.boot [7; 7; 7])).
  - reflexivity.
  - exact I.
Defined.

Lemma send_data_sends_a_prefix_witness :
  let enc := encrypt (Sim.env 1 4) (aes_of Sim.credentials 5)
               (take (Z.to_nat 1) [0x01; 0x02]) in
  ∃ mic pkt buf m',
    compute_mic (Sim.env 1 4) (aes_of Sim.credentials 5)
      (header 0x00 0x11 0x22 0x33 5 ++ enc) (9 + 1) = Some mic ∧
    send_data_assemble (Sim.env 1 4) 0 1 5 Sim.example_start
      = (Ret (pkt, 9 + 1 + 4), m') ∧
    send_data (Sim.env 1 4) 5 0 1 5 2 Sim.example_start
      = send_packet (Sim.env 1 4) 5 pkt (9 + 1 + 4) 2 m' ∧
    heap m' !! pkt = Some buf ∧
    take (Z.to_nat (9 + 1 + 4)) buf
      = header 0x00 0x11 0x22 0x33 5 ++ enc ++ mic ∧
    length enc = Z.to_nat 1 ∧ length mic = 4%nat.
Proof.
  apply (send_data_sends_a_prefix (Sim.env 1 4) 5 0 1 5 2 Sim.example_start
           [0x01; 0x02] Sim.credentials 0x00 0x11 0x22 0x33).
  - exact sim_block_length.
  - exact sim_cmac_length.
  - vm_compute. reflexivity.
  - vm_compute. split; discriminate.
  - lia.
  - vm_compute. reflexivity.
  - reflexivity.
  - repeat constructor.
Defined.

Lemma send_packet_multi_channel_traffic_witness :
  ∃ o m' wait,
    send_packet (Sim.env 1 4) 5 0 2 2 Sim.hopping_start = (o, m') ∧
    (o = Ret tt ∨ o = Raise SendTimeout ∨ o = Diverge) ∧
    self m' = set_rfm (Some (0xE1, 0x15, 0xC0).1.1)
                (Some (0xE1, 0x15, 0xC0).1.2) (Some (0xE1, 0x15, 0xC0).2)
                (set_tx_random
                   (Some (entropy (Sim.env 1 4) (n_rand Sim.hopping_start)
                          `mod` 8))
                   (self Sim.hopping_start)) ∧
    heap m' = heap Sim.hopping_start ∧
    trace m' = wait ++ SpiWrite [0x81; _MODE_TX]
                 :: fifo_writes (take (Z.to_nat 2) [0x01; 0x02])
                 ++ config_writes (0xE1, 0x15, 0xC0).1.1 (0xE1, 0x15, 0xC0).1.2
                      (0xE1, 0x15, 0xC0).2 0x74 0x72 0x04 2
                 ++ Randint (entropy (Sim.env 1 4) (n_rand Sim.hopping_start)
                             `mod` 8)
                 :: SpiWrite [0xC0; 0x40] :: Delay 10000
                 :: SpiWrite [0x81; 0x81] :: trace Sim.hopping_start ∧
    Forall (λ e, is_wait e ∨ e = SpiWrite [0x81; _MODE_SLEEP]) wait.
Proof.
  apply (send_packet_multi_channel_traffic (Sim.env 1 4) 5 0 2 2
           Sim.hopping_start (Sim.plan 0xE1) (0xE1, 0x15, 0xC0)
           0x74 0x72 0x04 [0x01; 0x02]).
  - vm_compute. eexists. reflexivity.
  - vm_compute. reflexivity.
  - vm_compute. reflexivity.
  - vm_compute. reflexivity.
  - vm_compute. reflexivity.
  - repeat constructor.
  - vm_compute. reflexivity.
  - vm_compute. lia.
  - repeat constructor.
Defined.

(** A released driver on the simulated radio: the send fails on the first
    frequency register, after the three preliminary events. *)
Lemma use_after_release_fails :
  Runs.released.1 = Ret tt ∧
  Runs.use_after_release.1
    = Raise (TypeError "'NoneType' object cannot be interpreted as an integer") ∧
  Sim.added Runs.start Runs.use_after_release.2
    = [SpiWrite [0xC0; 0x40]; Delay 10000; SpiWrite [0x81; 0x81]].
Proof. repeat split; vm_compute; reflexivity. Qed.

(** The released driver given a channel and a data rate again: the send
    loads the radio and writes Transmit, then fails at the first reading of
    DIO0, the pin being [None].  Sleep is not written: the radio is left in
    Transmit. *)
Lemma use_after_reconfiguration_stays_in_transmit :
  _irq (self Runs.reconfigured) = None ∧
  Runs.use_after_reconfiguration.1 = Raise AttributeError ∧
  mode_writes (Sim.added Runs.reconfigured Runs.use_after_reconfiguration.2)
    = [0x81; _MODE_TX].
Proof. repeat split; vm_compute; reflexivity. Qed.

(** [send_data] on an object without credentials fails before anything
    reaches the bus. *)
Lemma send_data_without_credentials :
  Runs.unconstructed.1 = Raise AttributeError ∧
  trace Runs.unconstructed.2 = [].
Proof. split; vm_compute; reflexivity. Qed.
